(** * LMS dashboard: a shallow embedding of [lms.py] and its properties

    The Flask application keeps all of its state in a relational store
    (SQLAlchemy models), a per-browser session and an upload directory.
    Here every table is a list of rows in insertion order, a request handler
    is a function from the request's inputs and the current state to a
    response and the next state, and what the handler reads from the outside
    world (the clock, the random token, whether the mail went out) is an
    explicit argument.

    Conventions
    - [datetime] values are integers counting microseconds;
    - text is ASCII text ([string]); Python's [None] is [option]'s [None];
    - an uncaught Python exception is the response [ServerError]; the
      transaction is then rolled back, so the store is left as it was;
    - the store is SQLite as the application configures it: primary keys are
      unique, foreign keys are not enforced, and an integer is bound as a
      signed 64-bit value: a key from a request that is not one raises
      [OverflowError] in the query that uses it;
    - a handler that returns before [db.session.commit()] leaves the store as
      it was (the scoped session is discarded with the request). *)

From Stdlib Require Import ZArith List String Ascii Bool Lia DecimalString.
From Stdlib Require PrimFloat Uint63.
Import ListNotations.
Local Open Scope Z_scope.
Local Open Scope string_scope.

(** ** Python values *)

Definition datetime := Z.

(** [timedelta(minutes=m)], in microseconds. *)
Definition timedelta_minutes (m : Z) : Z := m * 60 * 1000000.

(** Truthiness of an [int | None] and of a [str | None]. *)
Definition truthy_int (v : option Z) : bool :=
  match v with
  | None => false
  | Some z => negb (z =? 0)%Z
  end.

Definition truthy_str (v : option string) : bool :=
  match v with
  | None => false
  | Some s => negb (s =? "")
  end.

Definition upper_ascii (c : ascii) : ascii :=
  let n := nat_of_ascii c in
  if (Nat.leb 97 n && Nat.leb n 122)%bool then ascii_of_nat (n - 32) else c.

Definition lower_ascii (c : ascii) : ascii :=
  let n := nat_of_ascii c in
  if (Nat.leb 65 n && Nat.leb n 90)%bool then ascii_of_nat (n + 32) else c.

(** [str.upper()] and [str.lower()] on ASCII text.  Outside ASCII Python
    maps more letters, some of them to ASCII letters or to several
    characters; that is not modelled, and what is stated of the case of a
    text is stated of ASCII text. *)
Fixpoint upper (s : string) : string :=
  match s with
  | EmptyString => EmptyString
  | String c rest => String (upper_ascii c) (upper rest)
  end.

Fixpoint lower (s : string) : string :=
  match s with
  | EmptyString => EmptyString
  | String c rest => String (lower_ascii c) (lower rest)
  end.

(** [len(s)], the number of characters of an ASCII text. *)
Definition len (s : string) : Z := Z.of_nat (String.length s).

(** [s.isascii()] *)
Definition is_ascii (s : string) : bool :=
  forallb (fun c => Nat.ltb (nat_of_ascii c) 128) (list_ascii_of_string s).

Definition option_eqb {A : Type} (eqb : A -> A -> bool) (x y : option A) : bool :=
  match x, y with
  | None, None => true
  | Some a, Some b => eqb a b
  | _, _ => false
  end.

(** ** Models *)

Module User.
Record t := mk {
  id : Z;
  name : string;
  email : string;
  password_hash : string;
  role : string;
  created_at : datetime;
  profile_pic : option string;
  phone : option string;
  address : option string;
  about : option string
}.
End User.

Module Trainer.
Record t := mk {
  id : Z;
  name : string;
  email : string;
  expertise : option string;
  profile_pic : option string;
  phone : option string;
  address : option string;
  about : option string
}.
End Trainer.

Module Batch.
Record t := mk {
  id : Z;
  name : string;
  description : option string;
  created_at : datetime;
  trainer_id : option Z
}.
End Batch.

Module Enrollment.
Record t := mk {
  id : Z;
  user_id : option Z;
  batch_id : option Z;
  enrolled_at : datetime
}.
End Enrollment.

Module Recording.
Record t := mk {
  id : Z;
  filename : string;
  original_name : string;
  upload_time : datetime;
  batch_id : option Z;
  notes : option string
}.
End Recording.

Module StudentProgress.
Record t := mk {
  id : Z;
  user_id : option Z;
  recording_id : option Z;
  completed : bool;
  completed_at : option datetime
}.
End StudentProgress.

Module OTP_Token.
Record t := mk {
  id : Z;
  user_id : Z;
  token : string;
  expires_at : datetime
}.
End OTP_Token.

(** The store.  No handler of the application ever inserts a [Query] row, so
    that table stays empty and is left out.  [uploads] is the directory tree
    under [UPLOAD_ROOT]: one entry per stored file, keyed by the batch
    directory and the file name. *)
Record DB := mkDB {
  users : list User.t;
  trainers : list Trainer.t;
  batches : list Batch.t;
  enrollments : list Enrollment.t;
  recordings : list Recording.t;
  progress : list StudentProgress.t;
  otp_tokens : list OTP_Token.t;
  uploads : list (Z * string * string)
}.

Definition empty_db : DB := mkDB [] [] [] [] [] [] [] [].

(** The Flask session: the two keys the application stores in it. *)
Record Session := mkSession {
  sess_user_id : option Z;
  sess_reset_email : option string
}.

Definition anonymous : Session := mkSession None None.

(** ** Numbers *)

(** A Python number: an [int] or a [float] (binary64). *)
Inductive pynum :=
| PyInt (z : Z)
| PyFloat (f : PrimFloat.float).

(** [float(z)] for a count [z] (exact below [2^53]). *)
Definition float_of_Z (z : Z) : PrimFloat.float :=
  PrimFloat.of_uint63 (Uint63.of_Z z).

(** [a / b] on two counts: [None] stands for [ZeroDivisionError]. *)
Definition truediv (a b : Z) : option PrimFloat.float :=
  if (b =? 0)%Z then None
  else Some (PrimFloat.div (float_of_Z a) (float_of_Z b)).

(** [round(x)] on a finite float: the nearest integer, ties to even. *)
Definition round_float (f : PrimFloat.float) : Z :=
  let (m, e) := PrimFloat.frshiftexp (PrimFloat.abs f) in
  let M := Uint63.to_Z (PrimFloat.normfr_mantissa m) in
  let k := Uint63.to_Z e - 2101 - 53 in
  let v :=
    if (0 <=? k)%Z then M * 2 ^ k
    else
      let q := M / 2 ^ (- k) in
      let r := M mod 2 ^ (- k) in
      match (2 * r ?= 2 ^ (- k))%Z with
      | Lt => q
      | Gt => q + 1
      | Eq => if Z.even q then q else q + 1
      end in
  if PrimFloat.ltb f (float_of_Z 0) then - v else v.

Definition round (x : pynum) : Z :=
  match x with
  | PyInt z => z
  | PyFloat f => round_float f
  end.

(** ** Responses *)

(** A flashed message with its category. *)
Definition Flash := (string * string)%type.

(** The [next_lesson] dictionary of the student dashboard. *)
Record NextLesson := mkNextLesson {
  batch_name : string;
  recording_name : string;
  recording_id : Z;
  batch_id : Z
}.

(** What the student dashboard hands to its template: for each enrollment
    its [progress_count] as (completed, total), the rounded overall
    percentage and the next lesson. *)
Record StudentDashboard := mkStudentDashboard {
  progress_counts : list (Enrollment.t * (Z * Z));
  overall_progress_percent : Z;
  next_lesson : option NextLesson
}.

Inductive Response :=
| Redirect (endpoint : string) (flashes : list Flash)
| Render (template : string) (flashes : list Flash)
| RenderStudentDashboard (context : StudentDashboard)
| Abort (code : Z) (flashes : list Flash)
| Json (status message : string) (code : Z)
| SendFile (content : string)
| ServerError (exception : string).

(** ** Primary keys *)

(** The key SQLite gives to a new row of a table whose keys are [ids]. *)
Definition next_id (ids : list Z) : Z :=
  match ids with
  | [] => 1
  | i :: rest => 1 + fold_left Z.max rest i
  end.

(** sqlite3 binds a Python [int] as a signed 64-bit integer and raises
    [OverflowError] for any other. *)
Definition int64 (k : Z) : bool :=
  ((- 2 ^ 63 <=? k)%Z && (k <? 2 ^ 63)%Z)%bool.

(** The value can be bound as a key of the table whose keys are [stored].
    Every key SQLite has stored is a signed 64-bit integer, so the key of a
    stored row can be bound, whatever list the model takes for the table. *)
Definition fits (stored : list Z) (k : Z) : bool :=
  (int64 k || existsb (Z.eqb k) stored)%bool.

(** ** Writing one table of the store *)

Definition set_users (d : DB) (v : list User.t) : DB :=
  mkDB v (trainers d) (batches d) (enrollments d) (recordings d) (progress d)
       (otp_tokens d) (uploads d).

Definition set_trainers (d : DB) (v : list Trainer.t) : DB :=
  mkDB (users d) v (batches d) (enrollments d) (recordings d) (progress d)
       (otp_tokens d) (uploads d).

Definition set_batches (d : DB) (v : list Batch.t) : DB :=
  mkDB (users d) (trainers d) v (enrollments d) (recordings d) (progress d)
       (otp_tokens d) (uploads d).

Definition set_enrollments (d : DB) (v : list Enrollment.t) : DB :=
  mkDB (users d) (trainers d) (batches d) v (recordings d) (progress d)
       (otp_tokens d) (uploads d).

Definition set_recordings (d : DB) (v : list Recording.t) : DB :=
  mkDB (users d) (trainers d) (batches d) (enrollments d) v (progress d)
       (otp_tokens d) (uploads d).

Definition set_progress (d : DB) (v : list StudentProgress.t) : DB :=
  mkDB (users d) (trainers d) (batches d) (enrollments d) (recordings d) v
       (otp_tokens d) (uploads d).

Definition set_otp_tokens (d : DB) (v : list OTP_Token.t) : DB :=
  mkDB (users d) (trainers d) (batches d) (enrollments d) (recordings d)
       (progress d) v (uploads d).

Definition set_uploads (d : DB) (v : list (Z * string * string)) : DB :=
  mkDB (users d) (trainers d) (batches d) (enrollments d) (recordings d)
       (progress d) (otp_tokens d) v.

(** ** Queries *)

(** [User.query.get(uid)] *)
Definition get_user (d : DB) (uid : Z) : option User.t :=
  find (fun u => (User.id u =? uid)%Z) (users d).

(** [User.query.filter_by(email=email).first()] *)
Definition user_by_email (d : DB) (email : string) : option User.t :=
  find (fun u => User.email u =? email) (users d).

(** [Trainer.query.get(tid)] *)
Definition get_trainer (d : DB) (tid : Z) : option Trainer.t :=
  find (fun t => (Trainer.id t =? tid)%Z) (trainers d).

(** [Trainer.query.filter_by(email=email).first()] *)
Definition trainer_by_email (d : DB) (email : string) : option Trainer.t :=
  find (fun t => Trainer.email t =? email) (trainers d).

(** [Batch.query.get(bid)] *)
Definition get_batch (d : DB) (bid : Z) : option Batch.t :=
  find (fun b => (Batch.id b =? bid)%Z) (batches d).

(** [Recording.query.get(rid)] *)
Definition get_recording (d : DB) (rid : Z) : option Recording.t :=
  find (fun r => (Recording.id r =? rid)%Z) (recordings d).

(** The relationship [batch.trainer]: the row [batch.trainer_id] points to. *)
Definition batch_trainer (d : DB) (b : Batch.t) : option Trainer.t :=
  match Batch.trainer_id b with
  | None => None
  | Some tid => get_trainer d tid
  end.

(** The relationship [batch.recordings]: the batch's recordings, in the order
    of the table. *)
Definition batch_recordings (d : DB) (b : Batch.t) : list Recording.t :=
  filter (fun r => option_eqb Z.eqb (Recording.batch_id r) (Some (Batch.id b)))
         (recordings d).

(** The relationships [recording.batch] and [enrollment.batch]. *)
Definition recording_batch (d : DB) (r : Recording.t) : option Batch.t :=
  match Recording.batch_id r with
  | None => None
  | Some bid => get_batch d bid
  end.

Definition enrollment_batch (d : DB) (e : Enrollment.t) : option Batch.t :=
  match Enrollment.batch_id e with
  | None => None
  | Some bid => get_batch d bid
  end.

(** ** Context helpers *)

(** [current_user()]: [None] when the session has no (or a falsy) [user_id],
    else the row with that key, if there is one. *)
Definition current_user (d : DB) (s : Session) : option User.t :=
  match sess_user_id s with
  | None => None
  | Some uid => if truthy_int (Some uid) then get_user d uid else None
  end.

(** [is_admin()] and [is_trainer()], read as truth values. *)
Definition is_admin (d : DB) (s : Session) : bool :=
  match current_user d s with
  | None => false
  | Some u => User.role u =? "admin"
  end.

Definition is_trainer (d : DB) (s : Session) : bool :=
  match current_user d s with
  | None => false
  | Some u => User.role u =? "trainer"
  end.

(** ** Helpers *)

Definition ALLOWED_EXTENSIONS : list string :=
  ["mp4"; "mkv"; "webm"; "wav"; "mp3"; "ogg"; "png"; "jpg"; "jpeg"; "gif";
   "pdf"; "doc"; "docx"; "xls"; "xlsx"; "ppt"; "pptx"; "zip"; "rar"; "txt";
   "csv"; "json"; "py"; "ipynb"; "html"; "css"; "js"].

(** [filename.rsplit('.', 1)[1]] when ['.' in filename]. *)
Fixpoint rsplit_dot (s : string) : option string :=
  match s with
  | EmptyString => None
  | String c rest =>
      match rsplit_dot rest with
      | Some e => Some e
      | None => if (c =? ".")%char then Some rest else None
      end
  end.

(** The text after the last ['$'], if any. *)
Fixpoint rsplit_dollar (s : string) : option string :=
  match s with
  | EmptyString => None
  | String c rest =>
      match rsplit_dollar rest with
      | Some e => Some e
      | None => if (c =? "$")%char then Some rest else None
      end
  end.

Definition allowed_file (filename : string) : bool :=
  match rsplit_dot filename with
  | None => false
  | Some ext => existsb (String.eqb (lower ext)) ALLOWED_EXTENSIONS
  end.

(** The upload directory: [file.save] overwrites, [os.remove] deletes. *)
Definition file_at (bid : Z) (fname : string) (f : Z * string * string) : bool :=
  ((fst (fst f) =? bid)%Z && (snd (fst f) =? fname))%bool.

Definition file_get (d : DB) (bid : Z) (fname : string) : option string :=
  option_map snd (find (file_at bid fname) (uploads d)).

Definition file_remove (d : DB) (bid : Z) (fname : string) : DB :=
  set_uploads d (filter (fun f => negb (file_at bid fname f)) (uploads d)).

Definition file_save (d : DB) (bid : Z) (fname content : string) : DB :=
  set_uploads d
    (filter (fun f => negb (file_at bid fname f)) (uploads d)
       ++ [(bid, fname, content)]).

(** ** Request handlers *)

Inductive Method := GET | POST.

(** What a handler leaves behind: the response, the session and the store. *)
Definition Outcome := (Response * Session * DB)%type.

Definition response (o : Outcome) : Response := fst (fst o).
Definition session_after (o : Outcome) : Session := snd (fst o).
Definition db_after (o : Outcome) : DB := snd o.

(** [Model.query.get_or_404(k)] when no row has the key [k]: 404, or the
    [OverflowError] of a key that cannot be bound (the key of a stored row
    can, so the error arises only when no row is found). *)
Definition not_found (k : Z) (s : Session) (d : DB) : Outcome :=
  (if int64 k then Abort 404 [] else ServerError "OverflowError", s, d).

Definition MSG_INVALID_CODE : Flash :=
  ("Invalid or expired recovery code.", "danger").
Definition MSG_WEAK_PASSWORD : Flash :=
  ("New password must be at least 6 characters long.", "danger").
Definition MSG_RESET_DONE : Flash :=
  ("Password successfully reset. You can now log in.", "success").
Definition MSG_EMAIL_TAKEN : Flash :=
  ("Email already registered", "danger").
Definition MSG_ADMIN_EXISTS : Flash :=
  ("An admin already exists. Cannot create another admin.", "danger").
Definition MSG_ACCOUNT_CREATED : Flash :=
  ("Account created. Please login.", "success").
Definition MSG_ALREADY_ENROLLED : Flash := ("Student already enrolled", "info").
Definition MSG_ENROLLED : Flash := ("Student enrolled", "success").
Definition MSG_UPLOAD_DENIED : Flash :=
  ("Only the assigned trainer can upload recordings to this batch.", "danger").
Definition MSG_DELETE_DENIED : Flash :=
  ("Only the assigned trainer can delete content.", "danger").

(** ** Stand-ins for the outside collaborators

    Simple executable instances of the hashing, file-name and number-parsing
    functions, used to run the handlers on concrete stores. *)

Definition demo_generate_password_hash (salt password : string) : string :=
  salt ++ "$" ++ password.

Definition demo_check_password_hash (pwhash password : string) : bool :=
  match rsplit_dollar pwhash with
  | Some p => p =? password
  | None => false
  end.

Definition demo_secure_filename (filename : string) : string := filename.

Definition demo_int (s : string) : option Z :=
  option_map Z.of_int (NilZero.int_of_string s).

(** Rows and stores for concrete runs: an admin, two trainers (Tara is
    assigned to batch 1, Tom is not), two students, a batch with three
    recordings and a second batch without any. *)
Definition ada : User.t :=
  User.mk 1 "Ada" "ada@lms.test" "s$adminpw" "admin" 0 None None None None.
Definition tara : User.t :=
  User.mk 2 "Tara" "tara@lms.test" "s$trainer123" "trainer" 1 None None None None.
Definition tom : User.t :=
  User.mk 3 "Tom" "tom@lms.test" "s$trainer123" "trainer" 2 None None None None.
Definition sam : User.t :=
  User.mk 4 "Sam" "sam@lms.test" "s$studentpw" "student" 3 None None None None.
Definition sue : User.t :=
  User.mk 5 "Sue" "sue@lms.test" "s$studentpw" "student" 4 None None None None.

Definition tara_profile : Trainer.t :=
  Trainer.mk 1 "Tara" "tara@lms.test" (Some "Rocq") None None None None.
Definition tom_profile : Trainer.t :=
  Trainer.mk 2 "Tom" "tom@lms.test" (Some "Flask") None None None None.

Definition batch_a : Batch.t := Batch.mk 1 "Batch A" None 5 (Some 1).
Definition batch_b : Batch.t := Batch.mk 2 "Batch B" None 6 None.

Definition lesson1 : Recording.t :=
  Recording.mk 1 "intro.mp4" "intro.mp4" 10 (Some 1) None.
Definition lesson2 : Recording.t :=
  Recording.mk 2 "lists.mp4" "lists.mp4" 11 (Some 1) None.
Definition lesson3 : Recording.t :=
  Recording.mk 3 "proofs.mp4" "proofs.mp4" 12 (Some 1) None.

Definition sam_in_a : Enrollment.t := Enrollment.mk 1 (Some 4) (Some 1) 7.
Definition sue_in_b : Enrollment.t := Enrollment.mk 2 (Some 5) (Some 2) 8.

Definition sam_did_lesson1 : StudentProgress.t :=
  StudentProgress.mk 1 (Some 4) (Some 1) true (Some 20).

Definition sam_code : OTP_Token.t := OTP_Token.mk 1 4 "A1B2C3" 600000100.

Definition demo_store : DB :=
  mkDB [ada; tara; tom; sam; sue]
       [tara_profile; tom_profile]
       [batch_a; batch_b]
       [sam_in_a; sue_in_b]
       [lesson1; lesson2; lesson3]
       [sam_did_lesson1]
       [sam_code]
       [(1, "intro.mp4", "video-bytes"); (1, "lists.mp4", "video-bytes");
        (1, "proofs.mp4", "video-bytes")].

(** A store in which a student has registered and nobody is admin yet. *)
Definition store_without_admin : DB :=
  mkDB [User.mk 1 "Sam" "sam@lms.test" "s$studentpw" "student" 3 None None None None]
       [] [] [] [] [] [] [].

(** A store in which Tom's account is gone and his trainer row is left. *)
Definition store_with_orphan_profile : DB :=
  mkDB [ada; tara; sam] [tara_profile; tom_profile] [batch_a] [] [] [] [] [].

Definition session_of (u : User.t) : Session := mkSession (Some (User.id u)) None.

Section Handlers.

(** Outside collaborators: werkzeug's password hashing (the salt it draws
    is an argument), werkzeug's [secure_filename] and Python's [int]. *)
Variable generate_password_hash : string -> string -> string.
Variable check_password_hash : string -> string -> bool.
Variable secure_filename : string -> string.
Variable int : string -> option Z.

(** [user.set_password(password)], written back to the row of [user]. *)
Definition set_password (salt : string) (password : string) (u : User.t) : User.t :=
  User.mk (User.id u) (User.name u) (User.email u)
          (generate_password_hash salt password)
          (User.role u) (User.created_at u) (User.profile_pic u)
          (User.phone u) (User.address u) (User.about u).

Definition check_password (u : User.t) (password : string) : bool :=
  check_password_hash (User.password_hash u) password.

(** The UPDATE of one row of the user table, by primary key. *)
Definition update_user (d : DB) (u' : User.t) : DB :=
  set_users d
    (map (fun u => if (User.id u =? User.id u')%Z then u' else u) (users d)).

(** [generate_and_send_otp(user_id, email)].  [hex] is what
    [secrets.token_hex(3)] returned, [mail_ok] whether [mail.send] went
    through.  Returns the flashes, the returned token and the store. *)
Definition generate_and_send_otp (hex : string) (now : datetime) (mail_ok : bool)
    (user_id : Z) (email : string) (d : DB)
  : list Flash * option string * DB :=
  let token := upper hex in
  let expires := now + timedelta_minutes 10 in
  let cleared := filter (fun t => negb (OTP_Token.user_id t =? user_id)%Z)
                        (otp_tokens d) in
  let otp_entry :=
    OTP_Token.mk (next_id (map OTP_Token.id cleared)) user_id token expires in
  let d' := set_otp_tokens d (cleared ++ [otp_entry]) in
  if mail_ok then
    ([("A recovery code has been sent to " ++ email
         ++ ". (Valid for 10 minutes).", "warning")],
     Some token, d')
  else
    ([("Email sending failed. Please check your MAIL_USERNAME/PASSWORD or try again later.",
       "danger");
      ("FOR DEV TESTING: Your OTP is " ++ token, "info")],
     None, d').

(** [/register] *)
Definition register (m : Method) (name email password : string)
    (role_field : option string) (salt : string) (now : datetime)
    (s : Session) (d : DB) : Outcome :=
  let admin_exists :=
    match find (fun u => User.role u =? "admin") (users d) with
    | Some _ => true
    | None => false
    end in
  match m with
  | POST =>
      let role := match role_field with Some r => r | None => "student" end in
      match user_by_email d email with
      | Some _ => (Redirect "register" [MSG_EMAIL_TAKEN], s, d)
      | None =>
          if ((role =? "admin") && admin_exists)%bool then
            (Redirect "register" [MSG_ADMIN_EXISTS], s, d)
          else
            let u := set_password salt password
                       (User.mk (next_id (map User.id (users d))) name email ""
                                role now None None None None) in
            (Redirect "login" [MSG_ACCOUNT_CREATED], s,
             set_users d (users d ++ [u]))
      end
  | GET => (Render "register.html" [], s, d)
  end.

(** [/login] *)
Definition login (m : Method) (email password : string)
    (s : Session) (d : DB) : Outcome :=
  match m with
  | POST =>
      match user_by_email d email with
      | Some u =>
          if check_password u password then
            (Redirect "dashboard" [("Logged in", "success")],
             mkSession (Some (User.id u)) (sess_reset_email s), d)
          else (Redirect "login" [("Invalid credentials", "danger")], s, d)
      | None => (Redirect "login" [("Invalid credentials", "danger")], s, d)
      end
  | GET => (Render "login.html" [], s, d)
  end.

(** [/forgot_password] *)
Definition forgot_password (m : Method) (email : string)
    (hex : string) (now : datetime) (mail_ok : bool)
    (s : Session) (d : DB) : Outcome :=
  match m with
  | POST =>
      match user_by_email d email with
      | None =>
          (Redirect "login"
             [("If an account exists, a recovery email has been sent.", "info")],
           s, d)
      | Some user =>
          let '(flashes, _, d') :=
            generate_and_send_otp hex now mail_ok (User.id user)
                                  (User.email user) d in
          (Redirect "reset_password" flashes,
           mkSession (sess_user_id s) (Some email), d')
      end
  | GET => (Render "forgot_password.html" [], s, d)
  end.

(** [OTP_Token.query.filter_by(user_id=uid, token=token).first()] *)
Definition otp_lookup (d : DB) (uid : Z) (token : string) : option OTP_Token.t :=
  find (fun t => ((OTP_Token.user_id t =? uid)%Z && (OTP_Token.token t =? token))%bool)
       (otp_tokens d).

(** [/reset_password] *)
Definition reset_password (m : Method) (token_field new_password : string)
    (salt : string) (now : datetime) (s : Session) (d : DB) : Outcome :=
  let start_first :=
    (Redirect "forgot_password"
       [("Please start the password recovery process first.", "danger")], s, d) in
  match sess_reset_email s with
  | None => start_first
  | Some email =>
      if negb (truthy_str (Some email)) then start_first
      else
        match user_by_email d email with
        | None =>
            (Redirect "login" [("User not found.", "danger")],
             mkSession (sess_user_id s) None, d)
        | Some user =>
            match m with
            | POST =>
                let token := upper token_field in
                match otp_lookup d (User.id user) token with
                | None => (Redirect "reset_password" [MSG_INVALID_CODE], s, d)
                | Some otp_entry =>
                    if (OTP_Token.expires_at otp_entry <? now)%Z then
                      (Redirect "reset_password" [MSG_INVALID_CODE], s, d)
                    else if (len new_password <? 6)%Z then
                      (Redirect "reset_password" [MSG_WEAK_PASSWORD], s, d)
                    else
                      let d1 := update_user d (set_password salt new_password user) in
                      let d2 :=
                        set_otp_tokens d1
                          (filter (fun t => negb (OTP_Token.id t =? OTP_Token.id otp_entry)%Z)
                                  (otp_tokens d1)) in
                      (Redirect "login" [MSG_RESET_DONE],
                       mkSession (sess_user_id s) None, d2)
                end
            | GET => (Render "reset_password.html" [], s, d)
            end
        end
    end.

(** [/logout] *)
Definition logout (s : Session) (d : DB) : Outcome :=
  (Redirect "index" [("Logged out", "info")],
   mkSession None (sess_reset_email s), d).

(** *** The student dashboard *)

(** The ON and WHERE clauses of the join below: the progress row points at
    the recording ([StudentProgress.recording_id == Recording.id]) and the
    recording belongs to the batch ([Recording.batch_id == bid]). *)
Definition joins (bid : Z) (p : StudentProgress.t) (r : Recording.t) : bool :=
  (option_eqb Z.eqb (StudentProgress.recording_id p) (Some (Recording.id r))
   && option_eqb Z.eqb (Recording.batch_id r) (Some bid))%bool.

(** [StudentProgress.query.filter_by(user_id=uid, completed=True)
      .join(Recording).filter(Recording.batch_id == bid).count()]:
    the number of rows of the join. *)
Definition completed_recordings (d : DB) (uid bid : Z) : Z :=
  Z.of_nat (List.length
    (flat_map
       (fun p => map (fun r => (p, r)) (filter (joins bid p) (recordings d)))
       (filter
          (fun p =>
             (option_eqb Z.eqb (StudentProgress.user_id p) (Some uid)
              && StudentProgress.completed p)%bool)
          (progress d)))).

(** [StudentProgress.query.filter_by(user_id=uid, recording_id=rid,
      completed=True).first()] *)
Definition completed_progress (d : DB) (uid rid : Z) : option StudentProgress.t :=
  find (fun p =>
          (option_eqb Z.eqb (StudentProgress.user_id p) (Some uid)
           && option_eqb Z.eqb (StudentProgress.recording_id p) (Some rid)
           && StudentProgress.completed p)%bool)
       (progress d).

(** The inner loop: the first recording without a completed progress row. *)
Fixpoint first_uncompleted (d : DB) (uid : Z) (b : Batch.t)
    (all_recordings : list Recording.t) : option NextLesson :=
  match all_recordings with
  | [] => None
  | rec :: rest =>
      match completed_progress d uid (Recording.id rec) with
      | None =>
          Some (mkNextLesson (Batch.name b) (Recording.original_name rec)
                             (Recording.id rec) (Batch.id b))
      | Some _ => first_uncompleted d uid b rest
      end
  end.

(** The loop variables of the student branch. *)
Record Metrics := mkMetrics {
  total_available : Z;
  total_completed : Z;
  m_next_lesson : option NextLesson;
  m_progress_counts : list (Enrollment.t * (Z * Z))
}.

(** [for e in enrollments: ...]; [None] when [e.batch] is [None]. *)
Fixpoint student_metrics (d : DB) (uid : Z) (es : list Enrollment.t)
    (acc : Metrics) : option Metrics :=
  match es with
  | [] => Some acc
  | e :: rest =>
      match enrollment_batch d e with
      | None => None
      | Some b =>
          let all_recordings := batch_recordings d b in
          let total_recordings := Z.of_nat (List.length all_recordings) in
          let completed := completed_recordings d uid (Batch.id b) in
          let next :=
            match m_next_lesson acc with
            | None => first_uncompleted d uid b all_recordings
            | Some n => Some n
            end in
          student_metrics d uid rest
            (mkMetrics (total_available acc + total_recordings)
                       (total_completed acc + completed)
                       next
                       (m_progress_counts acc ++ [(e, (completed, total_recordings))]))
      end
  end.

(** [(total_completed / total_available * 100) if total_available > 0 else 0];
    [None] stands for [ZeroDivisionError]. *)
Definition progress_percent (completed available : Z) : option pynum :=
  if (0 <? available)%Z then
    match truediv completed available with
    | Some q => Some (PyFloat (PrimFloat.mul q (float_of_Z 100)))
    | None => None
    end
  else Some (PyInt 0).

(** [/dashboard].  The contexts of the admin and trainer templates are not
    modelled. *)
Definition dashboard (s : Session) (d : DB) : Outcome :=
  match sess_user_id s with
  | None => (Redirect "login" [("Login first", "danger")], s, d)
  | Some uid =>
      if negb (truthy_int (Some uid)) then
        (Redirect "login" [("Login first", "danger")], s, d)
      else
        match get_user d uid with
        | None => (ServerError "AttributeError", s, d)
        | Some u =>
            if User.role u =? "admin" then (Render "admin_metrics.html" [], s, d)
            else if User.role u =? "trainer" then
              match trainer_by_email d (User.email u) with
              | None =>
                  (Redirect "logout"
                     [("Trainer profile link broken. Please contact admin.", "danger")],
                   s, d)
              | Some _ => (Render "trainer_dashboard.html" [], s, d)
              end
            else
              let enrolled :=
                filter (fun e => option_eqb Z.eqb (Enrollment.user_id e)
                                            (Some (User.id u)))
                       (enrollments d) in
              match student_metrics d (User.id u) enrolled
                                    (mkMetrics 0 0 None []) with
              | None => (ServerError "AttributeError", s, d)
              | Some m =>
                  match progress_percent (total_completed m) (total_available m) with
                  | None => (ServerError "ZeroDivisionError", s, d)
                  | Some pct =>
                      (RenderStudentDashboard
                         (mkStudentDashboard (m_progress_counts m) (round pct)
                                             (m_next_lesson m)),
                       s, d)
                  end
              end
        end
  end.

(** *** Enrollment *)

(** [/enroll_student].  Only [ValueError] is caught around [int()]: a parsed
    key that cannot be bound raises [OverflowError] in the enrollment
    lookup. *)
Definition enroll_student (user_id_str batch_id_str : option string)
    (now : datetime) (s : Session) (d : DB) : Outcome :=
  if negb (is_admin d s) then (Abort 403 [], s, d)
  else if (negb (truthy_str user_id_str) || negb (truthy_str batch_id_str))%bool then
    (Redirect "admin_dashboard"
       [("Please select both a student and a batch.", "danger")], s, d)
  else
    match user_id_str, batch_id_str with
    | Some us, Some bs =>
        match int us, int bs with
        | Some user_id, Some batch_id =>
            if negb (int64 user_id && int64 batch_id) then
              (ServerError "OverflowError", s, d)
            else
            match
              find (fun e =>
                      (option_eqb Z.eqb (Enrollment.user_id e) (Some user_id)
                       && option_eqb Z.eqb (Enrollment.batch_id e) (Some batch_id))%bool)
                   (enrollments d)
            with
            | Some _ => (Redirect "admin_dashboard" [MSG_ALREADY_ENROLLED], s, d)
            | None =>
                let e := Enrollment.mk (next_id (map Enrollment.id (enrollments d)))
                                       (Some user_id) (Some batch_id) now in
                (Redirect "admin_dashboard" [MSG_ENROLLED], s,
                 set_enrollments d (enrollments d ++ [e]))
            end
        | _, _ =>
            (Redirect "admin_dashboard" [("Invalid selection data.", "danger")], s, d)
        end
    | _, _ =>
        (Redirect "admin_dashboard"
           [("Please select both a student and a batch.", "danger")], s, d)
    end.

(** [/create_trainer] *)
Definition create_trainer (name email : string) (expertise_field : option string)
    (salt : string) (now : datetime) (s : Session) (d : DB) : Outcome :=
  if negb (is_admin d s) then (Abort 403 [], s, d)
  else
    let expertise := match expertise_field with Some e => e | None => "" end in
    match trainer_by_email d email with
    | Some _ =>
        (Redirect "admin_dashboard"
           [("A trainer with this email already exists.", "danger")], s, d)
    | None =>
        match user_by_email d email with
        | Some _ =>
            (Redirect "admin_dashboard"
               [("A user with this email already exists. Please use a different email or delete the existing user.",
                 "danger")], s, d)
        | None =>
            let trainer :=
              Trainer.mk (next_id (map Trainer.id (trainers d))) name email
                         (Some expertise) None None None None in
            let trainer_user :=
              set_password salt "trainer123"
                (User.mk (next_id (map User.id (users d))) name email ""
                         "trainer" now None None None None) in
            (Redirect "admin_dashboard"
               [("Trainer and user account created successfully! Default password is 'trainer123'.",
                 "success")], s,
             set_users (set_trainers d (trainers d ++ [trainer]))
                       (users d ++ [trainer_user]))
        end
    end.

(** *** Recordings *)

(** [batch.trainer and batch.trainer.email == user.email], read as a truth
    value; [None] is the [AttributeError] of [user.email] on a missing
    user. *)
Definition is_assigned_trainer (d : DB) (s : Session) (batch : Batch.t)
  : option bool :=
  match batch_trainer d batch with
  | None => Some false
  | Some t =>
      match current_user d s with
      | None => None
      | Some user => Some (Trainer.email t =? User.email user)
      end
  end.

(** [/batch/<int:batch_id>/upload].  [file] is the uploaded file: its name
    and its content. *)
Definition upload (batch_id : Z) (file : option (string * string))
    (notes : option string) (now : datetime) (s : Session) (d : DB) : Outcome :=
  match get_batch d batch_id with
  | None => not_found batch_id s d
  | Some batch =>
      match is_assigned_trainer d s batch with
      | None => (ServerError "AttributeError", s, d)
      | Some assigned =>
          if negb (is_trainer d s && assigned) then
            (Abort 403 [MSG_UPLOAD_DENIED], s, d)
          else
            match file with
            | Some (file_name, content) =>
                if (truthy_str (Some file_name) && allowed_file file_name)%bool then
                  let filename := secure_filename file_name in
                  let d1 := file_save d (Batch.id batch) filename content in
                  let r := Recording.mk (next_id (map Recording.id (recordings d1)))
                                        filename file_name now
                                        (Some (Batch.id batch)) notes in
                  (Redirect "view_batch" [("Uploaded successfully", "success")], s,
                   set_recordings d1 (recordings d1 ++ [r]))
                else
                  (Redirect "view_batch"
                     [("Invalid file type or no file selected. Please check allowed formats.",
                       "danger")], s, d)
            | None =>
                (Redirect "view_batch"
                   [("Invalid file type or no file selected. Please check allowed formats.",
                     "danger")], s, d)
            end
      end
  end.

(** [/uploads/<int:batch_id>/<filename>]: [send_from_directory]. *)
Definition download (batch_id : Z) (filename : string)
    (s : Session) (d : DB) : Outcome :=
  match file_get d batch_id filename with
  | Some content => (SendFile content, s, d)
  | None => (Abort 404 [], s, d)
  end.

(** Deleting a recording sets the [recording_id] of its progress rows to
    NULL (the relationship [Recording.progress] has no delete cascade). *)
Definition orphan_progress_of_recording (rid : Z) (p : StudentProgress.t)
  : StudentProgress.t :=
  if option_eqb Z.eqb (StudentProgress.recording_id p) (Some rid) then
    StudentProgress.mk (StudentProgress.id p) (StudentProgress.user_id p) None
                       (StudentProgress.completed p)
                       (StudentProgress.completed_at p)
  else p.

(** [/delete_recording/<int:rec_id>] *)
Definition delete_recording (rec_id : Z) (s : Session) (d : DB) : Outcome :=
  match get_recording d rec_id with
  | None => not_found rec_id s d
  | Some r =>
      match recording_batch d r with
      | None => (ServerError "AttributeError", s, d)
      | Some batch =>
          match is_assigned_trainer d s batch with
          | None => (ServerError "AttributeError", s, d)
          | Some assigned =>
              if negb (is_trainer d s && assigned) then
                (Abort 403 [MSG_DELETE_DENIED], s, d)
              else
                let d1 := file_remove d (Batch.id batch) (Recording.filename r) in
                let d2 :=
                  set_recordings d1
                    (filter (fun r' => negb (Recording.id r' =? Recording.id r)%Z)
                            (recordings d1)) in
                let d3 :=
                  set_progress d2
                    (map (orphan_progress_of_recording (Recording.id r))
                         (progress d2)) in
                (Redirect "view_batch" [("Recording deleted", "info")], s, d3)
          end
      end
  end.

(** *** Profiles *)

Definition str (z : Z) : string := NilZero.string_of_int (Z.to_int z).

(** The form of the profile pages. *)
Record ProfileForm := mkProfileForm {
  f_profile_pic : option string;
  f_name : string;
  f_phone : option string;
  f_address : option string;
  f_about : option string;
  f_expertise : option string
}.

(** The UPDATE of one row of the trainer table, by primary key. *)
Definition update_trainer (d : DB) (t' : Trainer.t) : DB :=
  set_trainers d
    (map (fun t => if (Trainer.id t =? Trainer.id t')%Z then t' else t)
         (trainers d)).

(** The name under which an accepted profile picture is stored. *)
Definition profile_pic_name (form : ProfileForm) (user : User.t)
    (trainer : option Trainer.t) : option string :=
  match f_profile_pic form with
  | Some file_name =>
      if (negb (file_name =? "") && allowed_file file_name)%bool then
        let prefix := match trainer with Some _ => "trainer" | None => User.role user end in
        let id_val := match trainer with Some t => Trainer.id t | None => User.id user end in
        Some (secure_filename (prefix ++ "_" ++ str id_val ++ "_" ++ file_name))
      else None
  | None => None
  end.

(** The assignments to [user] and to [trainer]. *)
Definition set_user_profile (form : ProfileForm) (pic : option string)
    (user : User.t) : User.t :=
  User.mk (User.id user) (f_name form) (User.email user)
          (User.password_hash user) (User.role user) (User.created_at user)
          (match pic with Some p => Some p | None => User.profile_pic user end)
          (f_phone form) (f_address form) (f_about form).

Definition set_trainer_profile (form : ProfileForm) (pic : option string)
    (t : Trainer.t) : Trainer.t :=
  Trainer.mk (Trainer.id t) (f_name form) (Trainer.email t) (f_expertise form)
             (match pic with Some p => Some p | None => Trainer.profile_pic t end)
             (f_phone form) (f_address form) (f_about form).

(** [handle_profile_update(user, trainer)].  [f_profile_pic] is the name of
    the uploaded picture, if any; the picture directory is not part of the
    store. *)
Definition handle_profile_update (form : ProfileForm) (user : User.t)
    (trainer : option Trainer.t) (d : DB) : list Flash * DB :=
  let pic := profile_pic_name form user trainer in
  let d1 := update_user d (set_user_profile form pic user) in
  let d2 :=
    match trainer with
    | Some t => update_trainer d1 (set_trainer_profile form pic t)
    | None => d1
    end in
  ([("Profile updated successfully!", "success")], d2).

(** [/admin/profile] *)
Definition admin_profile (m : Method) (form : ProfileForm)
    (s : Session) (d : DB) : Outcome :=
  if negb (is_admin d s) then (Abort 403 [], s, d)
  else
    match current_user d s, m with
    | Some user, POST =>
        let '(flashes, d') := handle_profile_update form user None d in
        (Redirect "admin_profile" flashes, s, d')
    | _, _ => (Render "admin_profile.html" [], s, d)
    end.

(** [/trainer/profile] *)
Definition trainer_profile (m : Method) (form : ProfileForm)
    (s : Session) (d : DB) : Outcome :=
  match current_user d s with
  | None => (Abort 403 [], s, d)
  | Some user =>
      if negb (User.role user =? "trainer") then (Abort 403 [], s, d)
      else
        match trainer_by_email d (User.email user) with
        | None => (Abort 404 [], s, d)
        | Some trainer =>
            match m with
            | POST =>
                let '(flashes, d') :=
                  handle_profile_update form user (Some trainer) d in
                (Redirect "trainer_profile" flashes, s, d')
            | GET => (Render "trainer_profile.html" [], s, d)
            end
        end
  end.

(** [/student/profile] *)
Definition student_profile (m : Method) (form : ProfileForm)
    (s : Session) (d : DB) : Outcome :=
  match current_user d s with
  | None => (Abort 403 [], s, d)
  | Some user =>
      if negb (User.role user =? "student") then (Abort 403 [], s, d)
      else
        match m with
        | POST =>
            let '(flashes, d') := handle_profile_update form user None d in
            (Redirect "student_profile" flashes, s, d')
        | GET => (Render "student_profile.html" [], s, d)
        end
  end.

(** *** Security settings *)

Definition set_email (new_email : string) (u : User.t) : User.t :=
  User.mk (User.id u) (User.name u) new_email (User.password_hash u)
          (User.role u) (User.created_at u) (User.profile_pic u)
          (User.phone u) (User.address u) (User.about u).

Definition set_trainer_email (new_email : string) (t : Trainer.t) : Trainer.t :=
  Trainer.mk (Trainer.id t) (Trainer.name t) new_email (Trainer.expertise t)
             (Trainer.profile_pic t) (Trainer.phone t) (Trainer.address t)
             (Trainer.about t).

(** Step 3 of [update_security], once the new address is known to be free:
    [user.email] is assigned first, and the trainer row is then looked up
    with [user.email], which is the new address by now. *)
Definition change_email (new_email : string) (user : User.t) (d : DB) : DB :=
  let user := set_email new_email user in
  let d1 := update_user d user in
  if User.role user =? "trainer" then
    match trainer_by_email d1 (User.email user) with
    | Some trainer => update_trainer d1 (set_trainer_email new_email trainer)
    | None => d1
    end
  else d1.

(** [/profile/security] *)
Definition update_security (current_password : string)
    (new_password new_email : option string) (salt : string)
    (s : Session) (d : DB) : Outcome :=
  match current_user d s with
  | None => (Abort 403 [], s, d)
  | Some user =>
      if negb (check_password user current_password) then
        (Redirect "profile" [("Incorrect current password.", "danger")], s, d)
      else
        let weak :=
          match new_password with
          | Some p => (truthy_str (Some p) && (len p <? 6)%Z)%bool
          | None => false
          end in
        if weak then (Redirect "profile" [MSG_WEAK_PASSWORD], s, d)
        else
          let '(user1, flashes1) :=
            match new_password with
            | Some p =>
                if truthy_str (Some p) then
                  (set_password salt p user,
                   [("Password updated successfully.", "success")])
                else (user, [])
            | None => (user, [])
            end in
          match new_email with
          | Some e =>
              if (truthy_str (Some e) && negb (e =? User.email user))%bool then
                match
                  find (fun u => ((User.email u =? e)
                                  && negb (User.id u =? User.id user)%Z)%bool)
                       (users d)
                with
                | Some _ =>
                    (Redirect "profile"
                       (flashes1 ++
                        [("Email address is already in use by another account.",
                          "danger")]), s, d)
                | None =>
                    (Redirect "profile"
                       (flashes1 ++ [("Email updated successfully.", "success")]),
                     s, change_email e user1 d)
                end
              else (Redirect "profile" flashes1, s, update_user d user1)
          | None => (Redirect "profile" flashes1, s, update_user d user1)
          end
  end.

(** [/admin/change_password/<int:user_id>] *)
Definition admin_change_password (m : Method) (user_id : Z)
    (new_password : string) (salt : string) (s : Session) (d : DB) : Outcome :=
  if negb (is_admin d s) then (Abort 403 [], s, d)
  else
    match get_user d user_id with
    | None => not_found user_id s d
    | Some student =>
        match m with
        | POST =>
            if (len new_password <? 6)%Z then
              (Render "change_password.html"
                 [("Password must be at least 6 characters long.", "danger")], s, d)
            else
              (Redirect "view_all_students"
                 [("Password for " ++ User.name student
                     ++ " has been updated successfully.", "success")],
               s, update_user d (set_password salt new_password student))
        | GET => (Render "change_password.html" [], s, d)
        end
    end.

(** *** Progress *)

(** The value can be bound as a key of the recording table; [None] is
    NULL. *)
Definition recording_key_fits (d : DB) (recording_id : option Z) : bool :=
  match recording_id with
  | Some rid => fits (map Recording.id (recordings d)) rid
  | None => true
  end.

(** [/api/progress/update].  [recording_id] is [data.get('recording_id')]
    for a JSON integer or null (a missing key is null); JSON values of other
    types are not modelled.  The value goes to the lookup unchecked: an
    integer that cannot be bound raises [OverflowError] there. *)
Definition update_progress (recording_id : option Z) (now : datetime)
    (s : Session) (d : DB) : Outcome :=
  let unauthorized := (Json "error" "Unauthorized" 401, s, d) in
  match current_user d s with
  | None => unauthorized
  | Some user =>
      if negb (User.role user =? "student") then unauthorized
      else if negb (recording_key_fits d recording_id) then
        (ServerError "OverflowError", s, d)
      else
        let mine (p : StudentProgress.t) :=
          (option_eqb Z.eqb (StudentProgress.user_id p) (Some (User.id user))
           && option_eqb Z.eqb (StudentProgress.recording_id p) recording_id)%bool in
        let rows :=
          match find mine (progress d) with
          | Some row =>
              map (fun p =>
                     if (StudentProgress.id p =? StudentProgress.id row)%Z then
                       StudentProgress.mk (StudentProgress.id p)
                                          (StudentProgress.user_id p)
                                          (StudentProgress.recording_id p)
                                          true (Some now)
                     else p)
                  (progress d)
          | None =>
              (progress d ++
               [StudentProgress.mk (next_id (map StudentProgress.id (progress d)))
                                   (Some (User.id user)) recording_id true (Some now)])%list
          end in
        (Json "success" "Progress updated" 200, s, set_progress d rows)
  end.

(** *** Deleting accounts *)

(** [db.session.delete(user)]: the user's enrollments go with the row
    (cascade), the user's progress rows stay with [user_id] set to NULL. *)
Definition delete_user (d : DB) (user : User.t) : DB :=
  let d1 := set_users d
              (filter (fun u => negb (User.id u =? User.id user)%Z) (users d)) in
  let d2 := set_enrollments d1
              (filter (fun e => negb (option_eqb Z.eqb (Enrollment.user_id e)
                                                 (Some (User.id user))))
                      (enrollments d1)) in
  set_progress d2
    (map (fun p =>
            if option_eqb Z.eqb (StudentProgress.user_id p) (Some (User.id user)) then
              StudentProgress.mk (StudentProgress.id p) None
                                 (StudentProgress.recording_id p)
                                 (StudentProgress.completed p)
                                 (StudentProgress.completed_at p)
            else p)
         (progress d2)).

(** [/delete_student/<int:user_id>] *)
Definition delete_student (user_id : Z) (s : Session) (d : DB) : Outcome :=
  if negb (is_admin d s) then (Abort 403 [], s, d)
  else
    match get_user d user_id with
    | None => not_found user_id s d
    | Some user =>
        if User.role user =? "admin" then
          (Redirect "view_all_students"
             [("Cannot delete an admin user.", "danger")], s, d)
        else
          (Redirect "view_all_students"
             [("User " ++ User.name user
                 ++ " and all their enrollments have been deleted.", "success")],
           s, delete_user d user)
    end.

(** [/delete_trainer/<int:trainer_id>] *)
Definition delete_trainer (trainer_id : Z) (s : Session) (d : DB) : Outcome :=
  if negb (is_admin d s) then (Abort 403 [], s, d)
  else
    match get_trainer d trainer_id with
    | None => not_found trainer_id s d
    | Some trainer =>
        let d1 :=
          set_batches d
            (map (fun b =>
                    if option_eqb Z.eqb (Batch.trainer_id b) (Some (Trainer.id trainer))
                    then Batch.mk (Batch.id b) (Batch.name b) (Batch.description b)
                                  (Batch.created_at b) None
                    else b)
                 (batches d)) in
        let user_to_delete :=
          find (fun u => ((User.email u =? Trainer.email trainer)
                          && (User.role u =? "trainer"))%bool)
               (users d1) in
        let d2 :=
          match user_to_delete with
          | Some u => delete_user d1 u
          | None => d1
          end in
        let d3 :=
          set_trainers d2
            (filter (fun t => negb (Trainer.id t =? Trainer.id trainer)%Z)
                    (trainers d2)) in
        (Redirect "view_all_trainers"
           [("Trainer '" ++ Trainer.name trainer
               ++ "' and their corresponding user account have been deleted.",
             "success")], s, d3)
    end.

(** ** The remaining routes: pages and batch management *)

(** [/admin_dashboard], [/view_all_batches], [/view_all_students] and
    [/view_all_trainers]: a page for the admin. *)
Definition admin_page (template : string) (s : Session) (d : DB) : Outcome :=
  if negb (is_admin d s) then (Abort 403 [], s, d)
  else (Render template [], s, d).

Definition admin_dashboard : Session -> DB -> Outcome :=
  admin_page "admin_dashboard.html".
Definition view_all_batches : Session -> DB -> Outcome :=
  admin_page "view_all_batches.html".
Definition view_all_students : Session -> DB -> Outcome :=
  admin_page "view_all_students.html".
Definition view_all_trainers : Session -> DB -> Outcome :=
  admin_page "view_all_trainers.html".

(** [Batch.query.filter_by(name=name).first()] *)
Definition batch_by_name (d : DB) (name : string) : option Batch.t :=
  find (fun b => Batch.name b =? name) (batches d).

(** [/create_batch] *)
Definition create_batch (name : string) (description : option string)
    (now : datetime) (s : Session) (d : DB) : Outcome :=
  if negb (is_admin d s) then (Abort 403 [], s, d)
  else
    match batch_by_name d name with
    | Some _ =>
        (Redirect "admin_dashboard"
           [("Batch with this name already exists", "danger")], s, d)
    | None =>
        let b := Batch.mk (next_id (map Batch.id (batches d))) name description
                          now None in
        (Redirect "admin_dashboard" [("Batch created successfully", "success")],
         s, set_batches d (batches d ++ [b]))
    end.

(** The recording belongs to the batch (the relationship [batch.recordings]). *)
Definition in_batch (bid : Z) (r : Recording.t) : bool :=
  option_eqb Z.eqb (Recording.batch_id r) (Some bid).

(** [db.session.delete(b)] with its cascades: the recordings and the
    enrollments of the batch are deleted with it, and the progress rows of
    the deleted recordings stay with [recording_id] set to NULL. *)
Definition delete_batch_rows (d : DB) (b : Batch.t) : DB :=
  let gone := filter (in_batch (Batch.id b)) (recordings d) in
  let d1 :=
    set_progress d
      (map (fun p =>
              if existsb (fun r => option_eqb Z.eqb (StudentProgress.recording_id p)
                                              (Some (Recording.id r))) gone
              then StudentProgress.mk (StudentProgress.id p)
                                      (StudentProgress.user_id p) None
                                      (StudentProgress.completed p)
                                      (StudentProgress.completed_at p)
              else p)
           (progress d)) in
  let d2 := set_recordings d1
              (filter (fun r => negb (in_batch (Batch.id b) r)) (recordings d1)) in
  let d3 := set_enrollments d2
              (filter (fun e => negb (option_eqb Z.eqb (Enrollment.batch_id e)
                                                 (Some (Batch.id b))))
                      (enrollments d2)) in
  set_batches d3
    (filter (fun x => negb (Batch.id x =? Batch.id b)%Z) (batches d3)).

(** [/delete_batch/<int:batch_id>]: the batch's upload folder is emptied and
    removed, then the batch is deleted. *)
Definition delete_batch (batch_id : Z) (s : Session) (d : DB) : Outcome :=
  if negb (is_admin d s) then (Abort 403 [], s, d)
  else
    match get_batch d batch_id with
    | None => not_found batch_id s d
    | Some b =>
        let d1 := set_uploads d
                    (filter (fun f => negb (fst (fst f) =? Batch.id b)%Z)
                            (uploads d)) in
        (Redirect "admin_dashboard" [("Batch deleted", "info")], s,
         delete_batch_rows d1 b)
    end.

(** The UPDATE of one row of the batch table, by primary key. *)
Definition update_batch (d : DB) (b' : Batch.t) : DB :=
  set_batches d
    (map (fun b => if (Batch.id b =? Batch.id b')%Z then b' else b) (batches d)).

Definition set_batch_trainer (trainer_id : option Z) (b : Batch.t) : Batch.t :=
  Batch.mk (Batch.id b) (Batch.name b) (Batch.description b)
           (Batch.created_at b) trainer_id.

(** [/edit_batch/<int:batch_id>] *)
Definition edit_batch (m : Method) (batch_id : Z) (name : string)
    (description : option string) (s : Session) (d : DB) : Outcome :=
  if negb (is_admin d s) then (Abort 403 [], s, d)
  else
    match get_batch d batch_id with
    | None => not_found batch_id s d
    | Some batch =>
        match m with
        | POST =>
            let new_desc := match description with Some x => x | None => "" end in
            match
              find (fun b => ((Batch.name b =? name)
                              && negb (Batch.id b =? Batch.id batch)%Z)%bool)
                   (batches d)
            with
            | Some _ =>
                (Redirect "admin_dashboard"
                   [("Another batch with this name already exists", "danger")],
                 s, d)
            | None =>
                (Redirect "admin_dashboard"
                   [("Batch updated successfully", "success")], s,
                 update_batch d
                   (Batch.mk (Batch.id batch) name (Some new_desc)
                             (Batch.created_at batch) (Batch.trainer_id batch)))
            end
        | GET => (Render "edit_batch.html" [], s, d)
        end
    end.

(** [/batch/<int:batch_id>/change_trainer].  [except ValueError] does not
    catch the [OverflowError] of [Trainer.query.get] on a key that cannot be
    bound. *)
Definition change_batch_trainer (m : Method) (batch_id : Z) (trainer_id : string)
    (s : Session) (d : DB) : Outcome :=
  if negb (is_admin d s) then (Abort 403 [], s, d)
  else
    match get_batch d batch_id with
    | None => not_found batch_id s d
    | Some batch =>
        match m with
        | GET => (Render "change_batch_trainer.html" [], s, d)
        | POST =>
            if trainer_id =? "none" then
              match Batch.trainer_id batch with
              | None => (Redirect "view_batch_enrollments" [], s, d)
              | Some _ =>
                  match batch_trainer d batch with
                  | None => (ServerError "AttributeError", s, d)
                  | Some old =>
                      (Redirect "view_batch_enrollments"
                         [("Trainer " ++ Trainer.name old
                             ++ " has been successfully unassigned from batch "
                             ++ Batch.name batch ++ ".", "warning")], s,
                       update_batch d (set_batch_trainer None batch))
                  end
              end
            else
              match int trainer_id with
              | None =>
                  (Redirect "change_batch_trainer"
                     [("Invalid trainer selection.", "danger")], s, d)
              | Some new_trainer_id =>
                  match get_trainer d new_trainer_id with
                  | None =>
                      if int64 new_trainer_id then
                        (Redirect "change_batch_trainer"
                           [("Selected trainer not found.", "danger")], s, d)
                      else (ServerError "OverflowError", s, d)
                  | Some new_trainer =>
                      if option_eqb Z.eqb (Batch.trainer_id batch) (Some new_trainer_id)
                      then
                        (Redirect "view_batch_enrollments"
                           [("Trainer " ++ Trainer.name new_trainer
                               ++ " is already assigned to this batch.", "info")],
                         s, d)
                      else
                        match Batch.trainer_id batch with
                        | Some _ =>
                            match batch_trainer d batch with
                            | None => (ServerError "AttributeError", s, d)
                            | Some old =>
                                (Redirect "view_batch_enrollments"
                                   [("Trainer " ++ Trainer.name old
                                       ++ " has been replaced by "
                                       ++ Trainer.name new_trainer ++ " for batch "
                                       ++ Batch.name batch ++ ".", "warning")], s,
                                 update_batch d
                                   (set_batch_trainer (Some new_trainer_id) batch))
                            end
                        | None =>
                            (Redirect "view_batch_enrollments"
                               [("Trainer " ++ Trainer.name new_trainer
                                   ++ " assigned to batch " ++ Batch.name batch
                                   ++ " successfully!", "success")], s,
                             update_batch d
                               (set_batch_trainer (Some new_trainer_id) batch))
                        end
                  end
              end
        end
    end.

(** What [batch.html] is rendered with. *)
Record BatchPage := mkBatchPage {
  page_recordings : list Recording.t;
  progress_data : list (Z * bool);
  can_upload_delete : bool
}.

Inductive BatchView :=
| ViewResponse (r : Response)
| ViewPublic (batch : Batch.t)
| ViewBatch (batch : Batch.t) (page : BatchPage).

(** [Enrollment.query.filter_by(user_id=uid, batch_id=bid).first() is not None] *)
Definition is_enrolled (d : DB) (uid bid : Z) : bool :=
  match
    find (fun e =>
            (option_eqb Z.eqb (Enrollment.user_id e) (Some uid)
             && option_eqb Z.eqb (Enrollment.batch_id e) (Some bid))%bool)
         (enrollments d)
  with
  | Some _ => true
  | None => false
  end.

(** [progress.completed if progress else False] for the student's first
    progress row on the recording. *)
Definition recording_done (d : DB) (uid : Z) (r : Recording.t) : bool :=
  match
    find (fun p =>
            (option_eqb Z.eqb (StudentProgress.user_id p) (Some uid)
             && option_eqb Z.eqb (StudentProgress.recording_id p)
                           (Some (Recording.id r)))%bool)
         (progress d)
  with
  | Some p => StudentProgress.completed p
  | None => false
  end.

(** [/batch/<int:batch_id>].  The route writes nothing. *)
Definition view_batch (batch_id : Z) (s : Session) (d : DB) : BatchView :=
  match get_batch d batch_id with
  | None =>
      ViewResponse
        (if int64 batch_id then Abort 404 [] else ServerError "OverflowError")
  | Some batch =>
      match sess_user_id s with
      | None => ViewPublic batch
      | Some uid =>
          if negb (truthy_int (Some uid)) then ViewPublic batch
          else
            match get_user d uid with
            | None => ViewResponse (ServerError "AttributeError")
            | Some user =>
                let recordings := batch_recordings d batch in
                let enrolled := is_enrolled d (User.id user) batch_id in
                match is_assigned_trainer d s batch with
                | None => ViewResponse (ServerError "AttributeError")
                | Some assigned =>
                    if ((User.role user =? "student") && negb enrolled
                        && negb (is_admin d s))%bool then
                      ViewResponse
                        (Redirect "dashboard"
                           [("You are not enrolled in this batch.", "danger")])
                    else if ((User.role user =? "trainer") && negb assigned
                             && negb (is_admin d s))%bool then
                      ViewResponse
                        (Redirect "dashboard"
                           [("You are not assigned to this batch.", "danger")])
                    else
                      let data :=
                        if User.role user =? "student" then
                          map (fun r => (Recording.id r,
                                         recording_done d (User.id user) r))
                              recordings
                        else [] in
                      let may_upload := (is_trainer d s && assigned)%bool in
                      let can_view_content :=
                        (may_upload || enrolled || is_admin d s)%bool in
                      if negb can_view_content then
                        ViewResponse
                          (Redirect "dashboard"
                             [("You are not authorized to view this content.",
                               "danger")])
                      else ViewBatch batch (mkBatchPage recordings data may_upload)
                end
            end
      end
  end.

(** The relationship [enrollment.user]. *)
Definition enrollment_user (d : DB) (e : Enrollment.t) : option User.t :=
  match Enrollment.user_id e with
  | None => None
  | Some uid => get_user d uid
  end.

(** [/batch/<int:batch_id>/enrollments].  For each enrollment of the batch
    the page shows the student's counts, read through [e.user.id]; the
    context of the template is not modelled. *)
Definition view_batch_enrollments (batch_id : Z) (s : Session) (d : DB) : Outcome :=
  if negb (is_admin d s || is_trainer d s) then (Abort 403 [], s, d)
  else
    match get_batch d batch_id with
    | None => not_found batch_id s d
    | Some batch =>
        let listed :=
          filter (fun e => option_eqb Z.eqb (Enrollment.batch_id e)
                                      (Some (Batch.id batch)))
                 (enrollments d) in
        if forallb (fun e => match enrollment_user d e with
                             | Some _ => true
                             | None => false
                             end) listed
        then (Render "batch_enrollments.html" [], s, d)
        else (ServerError "AttributeError", s, d)
    end.

(** [/student/<int:user_id>/batches] *)
Definition view_student_batches (user_id : Z) (s : Session) (d : DB) : Outcome :=
  if negb (is_admin d s) then (Abort 403 [], s, d)
  else
    match get_user d user_id with
    | None => not_found user_id s d
    | Some _ => (Render "student_batches.html" [], s, d)
    end.

(** [/profile]: on to the profile page of the role. *)
Definition profile (s : Session) (d : DB) : Outcome :=
  match current_user d s with
  | None =>
      (Redirect "login" [("Please log in to view your profile.", "danger")], s, d)
  | Some user =>
      if User.role user =? "admin" then (Redirect "admin_profile" [], s, d)
      else if User.role user =? "trainer" then (Redirect "trainer_profile" [], s, d)
      else (Redirect "student_profile" [], s, d)
  end.

(** ** The application as a transition system *)

(** One constructor per modelled route, with everything the handler reads
    from the request and from the outside world. *)
Inductive Request :=
| ReqRegister (m : Method) (name email password : string)
              (role : option string) (salt : string) (now : datetime)
| ReqLogin (m : Method) (email password : string)
| ReqForgotPassword (m : Method) (email hex : string) (now : datetime)
                    (mail_ok : bool)
| ReqResetPassword (m : Method) (token new_password salt : string)
                   (now : datetime)
| ReqLogout
| ReqDashboard
| ReqEnrollStudent (user_id_str batch_id_str : option string) (now : datetime)
| ReqCreateTrainer (name email : string) (expertise : option string)
                   (salt : string) (now : datetime)
| ReqUpload (batch_id : Z) (file : option (string * string))
            (notes : option string) (now : datetime)
| ReqDownload (batch_id : Z) (filename : string)
| ReqDeleteRecording (rec_id : Z)
| ReqAdminProfile (m : Method) (form : ProfileForm)
| ReqTrainerProfile (m : Method) (form : ProfileForm)
| ReqStudentProfile (m : Method) (form : ProfileForm)
| ReqUpdateSecurity (current_password : string)
                    (new_password new_email : option string) (salt : string)
| ReqAdminChangePassword (m : Method) (user_id : Z)
                         (new_password salt : string)
| ReqUpdateProgress (recording_id : option Z) (now : datetime)
| ReqDeleteStudent (user_id : Z)
| ReqDeleteTrainer (trainer_id : Z).

Definition handle (r : Request) (s : Session) (d : DB) : Outcome :=
  match r with
  | ReqRegister m name email password role salt now =>
      register m name email password role salt now s d
  | ReqLogin m email password => login m email password s d
  | ReqForgotPassword m email hex now mail_ok =>
      forgot_password m email hex now mail_ok s d
  | ReqResetPassword m token new_password salt now =>
      reset_password m token new_password salt now s d
  | ReqLogout => logout s d
  | ReqDashboard => dashboard s d
  | ReqEnrollStudent us bs now => enroll_student us bs now s d
  | ReqCreateTrainer name email expertise salt now =>
      create_trainer name email expertise salt now s d
  | ReqUpload batch_id file notes now => upload batch_id file notes now s d
  | ReqDownload batch_id filename => download batch_id filename s d
  | ReqDeleteRecording rec_id => delete_recording rec_id s d
  | ReqAdminProfile m form => admin_profile m form s d
  | ReqTrainerProfile m form => trainer_profile m form s d
  | ReqStudentProfile m form => student_profile m form s d
  | ReqUpdateSecurity current new_password new_email salt =>
      update_security current new_password new_email salt s d
  | ReqAdminChangePassword m user_id new_password salt =>
      admin_change_password m user_id new_password salt s d
  | ReqUpdateProgress recording_id now => update_progress recording_id now s d
  | ReqDeleteStudent user_id => delete_student user_id s d
  | ReqDeleteTrainer trainer_id => delete_trainer trainer_id s d
  end.

(** A step of the store: a modelled request from any session, or one of
    the batch-management routes (create, edit and delete a batch, assign
    and change its trainer, delete an enrollment), which write neither the
    user table, nor the trainer table, nor the recovery codes, and which
    delete enrollments and recordings but never add one. *)
Inductive step (d : DB) : DB -> Prop :=
| step_request (r : Request) (s : Session) : step d (db_after (handle r s d))
| step_batch_management (d' : DB) :
    users d' = users d -> trainers d' = trainers d ->
    otp_tokens d' = otp_tokens d ->
    (exists keep, enrollments d' = filter keep (enrollments d)) ->
    (exists keep, recordings d' = filter keep (recordings d)) ->
    step d d'.

(** The stores the application can be in, starting from empty tables. *)
Inductive reachable : DB -> Prop :=
| reachable_init : reachable empty_db
| reachable_step (d d' : DB) : reachable d -> step d d' -> reachable d'.

(** ** Properties of a store *)

(** The recovery codes stored for an account. *)
Definition codes_of (uid : Z) (d : DB) : list OTP_Token.t :=
  filter (fun t => (OTP_Token.user_id t =? uid)%Z) (otp_tokens d).

(** At most one recovery code per account. *)
Definition one_code_per_account (d : DB) : Prop :=
  forall uid, (List.length (codes_of uid d) <= 1)%nat.

(** The accounts with role admin. *)
Definition admins (d : DB) : list User.t :=
  filter (fun u => User.role u =? "admin") (users d).

(** Primary keys of the user and trainer tables are unique. *)
Definition user_keys_unique (d : DB) : Prop := NoDup (map User.id (users d)).
Definition trainer_keys_unique (d : DB) : Prop :=
  NoDup (map Trainer.id (trainers d)).
Definition recording_keys_unique (d : DB) : Prop :=
  NoDup (map Recording.id (recordings d)).

(** The actor is the batch's assigned trainer: the batch has a trainer row
    and its address is the actor's. *)
Definition assigned_to (d : DB) (batch : Batch.t) (user : User.t) : Prop :=
  exists t, batch_trainer d batch = Some t /\ Trainer.email t = User.email user.

(** The enrollment rows of a (student, batch) pair. *)
Definition enrollments_of (uid bid : Z) (d : DB) : list Enrollment.t :=
  filter (fun e =>
            (option_eqb Z.eqb (Enrollment.user_id e) (Some uid)
             && option_eqb Z.eqb (Enrollment.batch_id e) (Some bid))%bool)
         (enrollments d).

(** At most one enrollment row per (student, batch) pair. *)
Definition one_enrollment_per_pair (d : DB) : Prop :=
  forall uid bid, (List.length (enrollments_of uid bid d) <= 1)%nat.



(** [computeProgress] in the words of the specification: the number of the
    student's completed progress records whose recording belongs to the
    batch, and the number of recordings of the batch. *)
Definition spec_computeProgress (d : DB) (uid bid : Z) : Z * Z :=
  (Z.of_nat (List.length
     (filter
        (fun p =>
           (option_eqb Z.eqb (StudentProgress.user_id p) (Some uid)
            && StudentProgress.completed p
            && existsb
                 (fun r =>
                    (option_eqb Z.eqb (StudentProgress.recording_id p)
                                (Some (Recording.id r))
                     && option_eqb Z.eqb (Recording.batch_id r) (Some bid))%bool)
                 (recordings d))%bool)
        (progress d))),
   Z.of_nat (List.length
     (filter (fun r => option_eqb Z.eqb (Recording.batch_id r) (Some bid))
             (recordings d)))).

(** The rows [update_progress] writes: the first row of the student for
    the recording is set to completed now, or such a row is added. *)
Definition marked_rows (d : DB) (uid : Z) (recording_id : option Z)
    (now : datetime) : list StudentProgress.t :=
  match
    find (fun p =>
            (option_eqb Z.eqb (StudentProgress.user_id p) (Some uid)
             && option_eqb Z.eqb (StudentProgress.recording_id p) recording_id)%bool)
         (progress d)
  with
  | Some row =>
      map (fun p =>
             if (StudentProgress.id p =? StudentProgress.id row)%Z then
               StudentProgress.mk (StudentProgress.id p) (StudentProgress.user_id p)
                                  (StudentProgress.recording_id p) true (Some now)
             else p)
          (progress d)
  | None =>
      (progress d ++
       [StudentProgress.mk (next_id (map StudentProgress.id (progress d)))
                           (Some uid) recording_id true (Some now)])%list
  end.

(** Step 2 of [update_security] on an acceptable new password: the account
    row with the new hash when a new password was given. *)
Definition set_password_if (new_password : option string) (salt : string)
    (user : User.t) : User.t :=
  match new_password with
  | Some p => if truthy_str (Some p) then set_password salt p user else user
  | None => user
  end.

(** What one step can do to the enrollment table: nothing; delete rows; add
    one row for a pair that had none. *)
Definition enrollments_step (d d' : DB) : Prop :=
  enrollments d' = enrollments d
  \/ (exists keep, enrollments d' = filter keep (enrollments d))
  \/ (exists e uid bid,
         enrollments d' = (enrollments d ++ [e])%list
         /\ Enrollment.user_id e = Some uid /\ Enrollment.batch_id e = Some bid
         /\ enrollments_of uid bid d = []).

(** What one step can do to the keys of a table: nothing; delete some; add
    the next key. *)
Definition keys_step (keys keys' : list Z) : Prop :=
  keys' = keys
  \/ (exists keep, keys' = filter keep keys)
  \/ keys' = (keys ++ [next_id keys])%list.

(** What one request can do to the user table: nothing; add one row under a
    fresh key, with role admin only when there is no admin yet; rewrite one
    row keeping its key and its role; delete the rows under the key of a row
    that is not an admin. *)
Definition users_step (d d' : DB) : Prop :=
  users d' = users d
  \/ (exists u,
         users d' = (users d ++ [u])%list
         /\ User.id u = next_id (map User.id (users d))
         /\ (User.role u = "admin" -> admins d = []))
  \/ (exists u u',
         In u (users d) /\ User.id u' = User.id u /\ User.role u' = User.role u
         /\ users d'
            = map (fun x => if (User.id x =? User.id u')%Z then u' else x) (users d))
  \/ (exists u,
         In u (users d) /\ User.role u <> "admin"
         /\ users d' = filter (fun x => negb (User.id x =? User.id u)%Z) (users d)).

(** Primary keys and names of the batch table are unique (the column
    [Batch.name] is declared unique). *)
Definition batch_keys_unique (d : DB) : Prop := NoDup (map Batch.id (batches d)).
Definition batch_names_unique (d : DB) : Prop :=
  NoDup (map Batch.name (batches d)).

(** Every trainer key stored in a batch is the key of a trainer row. *)
Definition trainer_refs_valid (d : DB) : Prop :=
  forall b tid,
    In b (batches d) -> Batch.trainer_id b = Some tid ->
    exists t, get_trainer d tid = Some t.

(** Primary keys of the progress table are unique. *)
Definition progress_keys_unique (d : DB) : Prop :=
  NoDup (map StudentProgress.id (progress d)).

(** A progress row with another timestamp and nothing else changed. *)
Definition with_time (now : datetime) (p : StudentProgress.t) : StudentProgress.t :=
  StudentProgress.mk (StudentProgress.id p) (StudentProgress.user_id p)
                     (StudentProgress.recording_id p) (StudentProgress.completed p)
                     (Some now).

(** The part of an account row that identifies and authenticates it: key,
    address, password hash and role. *)
Definition credentials (u : User.t) : Z * string * string * string :=
  (User.id u, User.email u, User.password_hash u, User.role u).

(** * Properties *)

(** ** Downloads *)

(** C8: the download route checks neither who is logged in nor any role or
    enrollment: whenever the stored file exists, every session -- the
    anonymous one, a student's, any trainer's -- receives the same content,
    and session and store are left as they were. *)
Theorem download_is_session_independent :
  forall (d : DB) (batch_id : Z) (filename content : string),
    file_get d batch_id filename = Some content ->
    (forall s : Session,
        download batch_id filename s d = (SendFile content, s, d))
    /\ (forall s1 s2 : Session,
           response (download batch_id filename s1 d)
           = response (download batch_id filename s2 d)).
Proof.
  intros d batch_id filename content Hfile.
  assert (Hall : forall s, download batch_id filename s d = (SendFile content, s, d)).
  { intro s. unfold download. rewrite Hfile. reflexivity. }
  split; [exact Hall|].
  intros s1 s2. rewrite (Hall s1), (Hall s2). reflexivity.
Qed.


(** ** Trainer authorization *)

Lemma is_trainer_of_current_user :
  forall d s user,
    current_user d s = Some user -> User.role user = "trainer" ->
    is_trainer d s = true.
Proof.
  intros d s user Hcur Hrole. unfold is_trainer. rewrite Hcur, Hrole. reflexivity.
Qed.

Lemma is_assigned_trainer_match :
  forall d s user batch t,
    current_user d s = Some user -> batch_trainer d batch = Some t ->
    is_assigned_trainer d s batch = Some (Trainer.email t =? User.email user).
Proof.
  intros d s user batch t Hcur Ht. unfold is_assigned_trainer.
  rewrite Ht, Hcur. reflexivity.
Qed.

Lemma is_assigned_trainer_unassigned :
  forall d s batch,
    batch_trainer d batch = None -> is_assigned_trainer d s batch = Some false.
Proof.
  intros d s batch Ht. unfold is_assigned_trainer. rewrite Ht. reflexivity.
Qed.

(** For a logged-in trainer the check of [upload] and [delete_recording]
    always yields a truth value, and it is true exactly for an address
    match with the batch's trainer row. *)
Lemma trainer_check_decides :
  forall d s user batch,
    current_user d s = Some user -> User.role user = "trainer" ->
    (assigned_to d batch user ->
     is_assigned_trainer d s batch = Some true /\ is_trainer d s = true)
    /\ (~ assigned_to d batch user ->
        is_assigned_trainer d s batch = Some false).
Proof.
  intros d s user batch Hcur Hrole. split.
  - intros [t [Ht Hmail]]. split.
    + rewrite (is_assigned_trainer_match _ _ _ _ _ Hcur Ht).
      apply String.eqb_eq in Hmail. rewrite Hmail. reflexivity.
    + eapply is_trainer_of_current_user; eauto.
  - intros Hnot. destruct (batch_trainer d batch) as [t|] eqn:Ht.
    + rewrite (is_assigned_trainer_match _ _ _ _ _ Hcur Ht).
      destruct (Trainer.email t =? User.email user) eqn:E; [|reflexivity].
      apply String.eqb_eq in E. exfalso. apply Hnot. exists t. split; assumption.
    + apply is_assigned_trainer_unassigned. exact Ht.
Qed.

(** C1: for a logged-in trainer, uploading to a batch and deleting a
    recording of a batch go ahead exactly when the batch has a trainer row
    whose address equals the trainer's account address.  With no trainer row,
    or with a row whose address differs from the account's, the answer is
    403 with session and store untouched; it is never a server error. *)
Theorem trainer_authorization_is_an_address_match :
  forall (d : DB) (s : Session) (user : User.t) (batch : Batch.t),
    current_user d s = Some user ->
    User.role user = "trainer" ->
    (forall batch_id file notes now,
        get_batch d batch_id = Some batch ->
        (assigned_to d batch user ->
         exists flashes d',
           upload batch_id file notes now s d = (Redirect "view_batch" flashes, s, d'))
        /\ (batch_trainer d batch = None
            \/ (exists t, batch_trainer d batch = Some t
                          /\ Trainer.email t <> User.email user) ->
            upload batch_id file notes now s d = (Abort 403 [MSG_UPLOAD_DENIED], s, d)))
    /\ (forall rec_id r,
           get_recording d rec_id = Some r ->
           recording_batch d r = Some batch ->
           (assigned_to d batch user ->
            exists d',
              delete_recording rec_id s d
              = (Redirect "view_batch" [("Recording deleted", "info")], s, d')
              /\ ~ In r (recordings d'))
           /\ (batch_trainer d batch = None
               \/ (exists t, batch_trainer d batch = Some t
                             /\ Trainer.email t <> User.email user) ->
               delete_recording rec_id s d = (Abort 403 [MSG_DELETE_DENIED], s, d))).
Proof.
  intros d s user batch Hcur Hrole.
  destruct (trainer_check_decides d s user batch Hcur Hrole) as [Hyes Hno].
  assert (Hdeny : batch_trainer d batch = None
                  \/ (exists t, batch_trainer d batch = Some t
                                /\ Trainer.email t <> User.email user) ->
                  ~ assigned_to d batch user).
  { intros [Hnone | [t [Ht Hne]]] [t' [Ht' Heq]].
    - congruence.
    - rewrite Ht in Ht'. injection Ht' as <-. contradiction. }
  split.
  - intros batch_id file notes now Hb. split.
    + intros Hassigned. destruct (Hyes Hassigned) as [Ha Htr].
      unfold upload. rewrite Hb, Ha, Htr. cbn [andb negb].
      destruct file as [[file_name content]|]; [|eauto].
      destruct (truthy_str (Some file_name) && allowed_file file_name)%bool; eauto.
    + intros Hd. unfold upload. rewrite Hb, (Hno (Hdeny Hd)).
      rewrite andb_false_r. reflexivity.
  - intros rec_id r Hr Hrb. split.
    + intros Hassigned. destruct (Hyes Hassigned) as [Ha Htr].
      unfold delete_recording. rewrite Hr, Hrb, Ha, Htr. cbn [andb negb].
      eexists. split; [reflexivity|].
      cbn. intros Hin. apply filter_In in Hin. destruct Hin as [_ Hin].
      rewrite Z.eqb_refl in Hin. discriminate.
    + intros Hd. unfold delete_recording. rewrite Hr, Hrb, (Hno (Hdeny Hd)).
      rewrite andb_false_r. reflexivity.
Qed.


(** ** Recovery codes *)

Ltac break_match :=
  match goal with
  | |- context [match ?x with _ => _ end] => destruct x eqn:?
  end.

Ltac unfold_handlers :=
  unfold handle, register, login, forgot_password, reset_password, logout,
    dashboard, enroll_student, create_trainer, upload, download,
    delete_recording, admin_profile, trainer_profile, student_profile,
    handle_profile_update, update_security, change_email,
    admin_change_password, update_progress, delete_student, delete_trainer,
    delete_user, update_user, update_trainer, file_save, file_remove,
    not_found.

(** What is left of a handler once every test is decided. *)
Ltac by_cases_on_handler :=
  unfold_handlers; repeat break_match; try reflexivity.

Lemma upper_ascii_idempotent :
  forall c, upper_ascii (upper_ascii c) = upper_ascii c.
Proof.
  intros [[] [] [] [] [] [] [] []]; reflexivity.
Qed.

Lemma upper_idempotent : forall s, upper (upper s) = upper s.
Proof.
  induction s as [|c s IH]; simpl; [reflexivity|].
  rewrite upper_ascii_idempotent, IH. reflexivity.
Qed.

(** Apart from the two recovery routes no route writes a recovery code. *)
Lemma other_requests_keep_codes :
  forall r s d,
    (forall m email hex now ok, r <> ReqForgotPassword m email hex now ok) ->
    (forall m tok pw salt now, r <> ReqResetPassword m tok pw salt now) ->
    otp_tokens (db_after (handle r s d)) = otp_tokens d.
Proof.
  intros r s d Hf Hr.
  destruct r; try (exfalso; eapply Hf; reflexivity);
    try (exfalso; eapply Hr; reflexivity);
    by_cases_on_handler.
Qed.

Lemma codes_cleared :
  forall uid (l : list OTP_Token.t),
    filter (fun t => (OTP_Token.user_id t =? uid)%Z)
           (filter (fun t => negb (OTP_Token.user_id t =? uid)%Z) l) = [].
Proof.
  intros uid l. induction l as [|t l IH]; simpl; [reflexivity|].
  destruct (OTP_Token.user_id t =? uid)%Z eqn:E; simpl; [exact IH|].
  rewrite E. exact IH.
Qed.

Lemma codes_of_others_kept :
  forall uid uid' (l : list OTP_Token.t),
    uid' <> uid ->
    filter (fun t => (OTP_Token.user_id t =? uid')%Z)
           (filter (fun t => negb (OTP_Token.user_id t =? uid)%Z) l)
    = filter (fun t => (OTP_Token.user_id t =? uid')%Z) l.
Proof.
  intros uid uid' l Hne. induction l as [|t l IH]; simpl; [reflexivity|].
  destruct (OTP_Token.user_id t =? uid)%Z eqn:E1; simpl.
  - apply Z.eqb_eq in E1.
    assert (E : (OTP_Token.user_id t =? uid')%Z = false)
      by (apply Z.eqb_neq; congruence).
    rewrite E. exact IH.
  - destruct (OTP_Token.user_id t =? uid')%Z; [f_equal|]; exact IH.
Qed.

(** Issuing a code leaves the account with exactly the new code and leaves
    the codes of every other account alone. *)
Lemma generate_and_send_otp_codes :
  forall hex now ok uid email d,
    let d' := snd (generate_and_send_otp hex now ok uid email d) in
    (exists i, codes_of uid d'
               = [OTP_Token.mk i uid (upper hex) (now + timedelta_minutes 10)])
    /\ (forall uid', uid' <> uid -> codes_of uid' d' = codes_of uid' d)
    /\ users d' = users d.
Proof.
  intros hex now ok uid email d d'.
  assert (Hd' : otp_tokens d'
                = (filter (fun t => negb (OTP_Token.user_id t =? uid)%Z) (otp_tokens d)
                     ++ [OTP_Token.mk
                           (next_id (map OTP_Token.id
                              (filter (fun t => negb (OTP_Token.user_id t =? uid)%Z)
                                      (otp_tokens d))))
                           uid (upper hex) (now + timedelta_minutes 10)])%list).
  { subst d'. unfold generate_and_send_otp. destruct ok; reflexivity. }
  assert (Hu : users d' = users d).
  { subst d'. unfold generate_and_send_otp. destruct ok; reflexivity. }
  split; [|split; [|exact Hu]].
  - eexists. unfold codes_of. rewrite Hd', filter_app. simpl.
    rewrite Z.eqb_refl.
    rewrite codes_cleared. reflexivity.
  - intros uid' Hne. unfold codes_of. rewrite Hd', filter_app. simpl.
    assert (E : (uid =? uid')%Z = false) by (apply Z.eqb_neq; congruence).
    rewrite E, app_nil_r. apply codes_of_others_kept. exact Hne.
Qed.

Lemma codes_of_filter_le :
  forall uid (f : OTP_Token.t -> bool) d,
    (List.length (codes_of uid (set_otp_tokens d (filter f (otp_tokens d))))
     <= List.length (codes_of uid d))%nat.
Proof.
  intros uid f d. unfold codes_of. simpl.
  induction (otp_tokens d) as [|t l IH]; simpl; [lia|].
  destruct (f t); simpl; destruct (OTP_Token.user_id t =? uid)%Z; simpl; lia.
Qed.

Lemma forgot_password_keeps_one_code :
  forall m email hex now ok s d,
    one_code_per_account d ->
    one_code_per_account (db_after (forgot_password m email hex now ok s d)).
Proof.
  intros m email hex now ok s d Hinv. unfold forgot_password.
  destruct m; [exact Hinv|].
  destruct (user_by_email d email) as [user|]; [|exact Hinv].
  pose proof (generate_and_send_otp_codes hex now ok (User.id user) (User.email user) d)
    as [[i Hnew] [Hother _]].
  destruct (generate_and_send_otp hex now ok (User.id user) (User.email user) d)
    as [[flashes tok] d'] eqn:E.
  simpl in *. intro uid. unfold db_after; simpl.
  destruct (Z.eq_dec uid (User.id user)) as [->|Hne].
  - rewrite Hnew. simpl. lia.
  - rewrite (Hother uid Hne). apply Hinv.
Qed.

Lemma reset_password_codes :
  forall m tok pw salt now s d,
    otp_tokens (db_after (reset_password m tok pw salt now s d)) = otp_tokens d
    \/ exists f,
        otp_tokens (db_after (reset_password m tok pw salt now s d))
        = filter f (otp_tokens d).
Proof.
  intros. unfold reset_password.
  repeat break_match; try (left; reflexivity).
  right. eexists. reflexivity.
Qed.

Lemma reset_password_keeps_one_code :
  forall m tok pw salt now s d,
    one_code_per_account d ->
    one_code_per_account (db_after (reset_password m tok pw salt now s d)).
Proof.
  intros m tok pw salt now s d Hinv uid.
  destruct (reset_password_codes m tok pw salt now s d) as [H | [f H]];
    unfold codes_of in *; rewrite H.
  - apply Hinv.
  - pose proof (codes_of_filter_le uid f d) as Hle. unfold codes_of in Hle.
    simpl in Hle. specialize (Hinv uid). unfold codes_of in Hinv. lia.
Qed.

Lemma step_keeps_one_code :
  forall d d', one_code_per_account d -> step d d' -> one_code_per_account d'.
Proof.
  intros d d' Hinv Hstep. destruct Hstep as [r s | d' _ _ Hotp _ _].
  - destruct r;
      try (intro uid; unfold codes_of;
           rewrite other_requests_keep_codes by (intros; discriminate);
           apply Hinv).
    + apply forgot_password_keeps_one_code. exact Hinv.
    + apply reset_password_keeps_one_code. exact Hinv.
  - intro uid. unfold codes_of. rewrite Hotp. apply Hinv.
Qed.

Lemma reachable_one_code : forall d, reachable d -> one_code_per_account d.
Proof.
  induction 1 as [|d d' _ IH Hstep].
  - intro uid. simpl. lia.
  - eapply step_keeps_one_code; eassumption.
Qed.


Lemma truthy_nonempty : forall e, e <> "" -> truthy_str (Some e) = true.
Proof.
  intros e He. simpl. apply String.eqb_neq in He. rewrite He. reflexivity.
Qed.

(** The POST branch of [reset_password] for a session with a pending reset
    of an existing account. *)
Lemma reset_password_post :
  forall tok pw salt now s d email user,
    sess_reset_email s = Some email -> email <> "" ->
    user_by_email d email = Some user ->
    reset_password POST tok pw salt now s d
    = match otp_lookup d (User.id user) (upper tok) with
      | None => (Redirect "reset_password" [MSG_INVALID_CODE], s, d)
      | Some otp_entry =>
          if (OTP_Token.expires_at otp_entry <? now)%Z then
            (Redirect "reset_password" [MSG_INVALID_CODE], s, d)
          else if (len pw <? 6)%Z then
            (Redirect "reset_password" [MSG_WEAK_PASSWORD], s, d)
          else
            (Redirect "login" [MSG_RESET_DONE], mkSession (sess_user_id s) None,
             set_otp_tokens (update_user d (set_password salt pw user))
               (filter (fun t => negb (OTP_Token.id t =? OTP_Token.id otp_entry)%Z)
                       (otp_tokens d)))
      end.
Proof.
  intros tok pw salt now s d email user Hs He Hu.
  unfold reset_password. rewrite Hs, (truthy_nonempty email He), Hu. simpl.
  destruct (otp_lookup d (User.id user) (upper tok)); reflexivity.
Qed.

Lemma find_after_cleared :
  forall uid tok (l : list OTP_Token.t) (e : OTP_Token.t),
    find (fun t => ((OTP_Token.user_id t =? uid)%Z && (OTP_Token.token t =? tok))%bool)
         (filter (fun t => negb (OTP_Token.user_id t =? uid)%Z) l ++ [e])
    = find (fun t => ((OTP_Token.user_id t =? uid)%Z && (OTP_Token.token t =? tok))%bool)
           [e].
Proof.
  intros uid tok l e. induction l as [|t l IH]; [reflexivity|].
  simpl filter. destruct (OTP_Token.user_id t =? uid)%Z eqn:E; simpl negb; cbv iota.
  - exact IH.
  - rewrite <- app_comm_cons. simpl find at 1. rewrite E. simpl andb. exact IH.
Qed.

(** After a code is issued, the only token the lookup accepts for the
    account is the one just issued. *)
Lemma otp_lookup_after_issue :
  forall hex now ok uid email d tok,
    otp_lookup (snd (generate_and_send_otp hex now ok uid email d)) uid tok
    = if upper hex =? tok then
        Some (OTP_Token.mk
                (next_id (map OTP_Token.id
                   (filter (fun t => negb (OTP_Token.user_id t =? uid)%Z)
                           (otp_tokens d))))
                uid (upper hex) (now + timedelta_minutes 10))
      else None.
Proof.
  intros hex now ok uid email d tok. unfold otp_lookup.
  replace (otp_tokens (snd (generate_and_send_otp hex now ok uid email d)))
    with (filter (fun t => negb (OTP_Token.user_id t =? uid)%Z) (otp_tokens d)
            ++ [OTP_Token.mk
                  (next_id (map OTP_Token.id
                     (filter (fun t => negb (OTP_Token.user_id t =? uid)%Z)
                             (otp_tokens d))))
                  uid (upper hex) (now + timedelta_minutes 10)])%list
    by (unfold generate_and_send_otp; destruct ok; reflexivity).
  rewrite find_after_cleared. simpl. rewrite Z.eqb_refl. simpl.
  destruct (upper hex =? tok); reflexivity.
Qed.

(** What a recovery request for an existing account leaves behind. *)
Lemma forgot_password_post :
  forall email hex now ok s d user,
    user_by_email d email = Some user ->
    let o := forgot_password POST email hex now ok s d in
    sess_reset_email (session_after o) = Some email
    /\ db_after o
       = snd (generate_and_send_otp hex now ok (User.id user) (User.email user) d)
    /\ users (db_after o) = users d.
Proof.
  intros email hex now ok s d user Hu. unfold forgot_password. rewrite Hu.
  pose proof (generate_and_send_otp_codes hex now ok (User.id user) (User.email user) d)
    as [_ [_ Husers]].
  destruct (generate_and_send_otp hex now ok (User.id user) (User.email user) d)
    as [[flashes tok] d'].
  simpl in *. repeat split. exact Husers.
Qed.

(** C2: at most one recovery code per account is kept by every step of the
    application and so holds in every reachable store; a recovery request
    leaves the account with exactly the new code, expiring ten minutes after
    it was issued; and after a second request only the second code is
    accepted: any other token, in particular the first code, is refused as
    invalid or expired at every time, also before the first code's expiry,
    while the second code is accepted until its own expiry. *)
Theorem last_recovery_code_wins :
  (forall d d', one_code_per_account d -> step d d' -> one_code_per_account d')
  /\ (forall d, reachable d -> one_code_per_account d)
  /\ (forall d s email user hex now ok,
         user_by_email d email = Some user ->
         exists i,
           codes_of (User.id user)
                    (db_after (forgot_password POST email hex now ok s d))
           = [OTP_Token.mk i (User.id user) (upper hex)
                           (now + timedelta_minutes 10)])
  /\ (forall d s email user hex1 hex2 t1 t2 ok1 ok2,
         user_by_email d email = Some user ->
         email <> "" ->
         let o1 := forgot_password POST email hex1 t1 ok1 s d in
         let o2 := forgot_password POST email hex2 t2 ok2
                                   (session_after o1) (db_after o1) in
         (forall token_field new_password salt now,
             upper token_field <> upper hex2 ->
             reset_password POST token_field new_password salt now
                            (session_after o2) (db_after o2)
             = (Redirect "reset_password" [MSG_INVALID_CODE],
                session_after o2, db_after o2))
         /\ (upper hex1 <> upper hex2 ->
             forall new_password salt now,
               reset_password POST (upper hex1) new_password salt now
                              (session_after o2) (db_after o2)
               = (Redirect "reset_password" [MSG_INVALID_CODE],
                  session_after o2, db_after o2))
         /\ (forall new_password salt now,
                now <= t2 + timedelta_minutes 10 ->
                6 <= len new_password ->
                response (reset_password POST (upper hex2) new_password salt now
                                         (session_after o2) (db_after o2))
                = Redirect "login" [MSG_RESET_DONE])).
Proof.
  split; [exact step_keeps_one_code|].
  split; [exact reachable_one_code|].
  split.
  - intros d s email user hex now ok Hu.
    destruct (forgot_password_post email hex now ok s d user Hu) as [_ [Hd _]].
    rewrite Hd.
    destruct (generate_and_send_otp_codes hex now ok (User.id user)
                                          (User.email user) d) as [Hnew _].
    exact Hnew.
  - intros d s email user hex1 hex2 t1 t2 ok1 ok2 Hu He o1 o2.
    destruct (forgot_password_post email hex1 t1 ok1 s d user Hu)
      as [_ [_ Husers1]].
    fold o1 in Husers1.
    assert (Hu1 : user_by_email (db_after o1) email = Some user).
    { unfold user_by_email. rewrite Husers1. exact Hu. }
    destruct (forgot_password_post email hex2 t2 ok2 (session_after o1)
                                   (db_after o1) user Hu1)
      as [Hs2 [Hd2 Husers2]].
    fold o2 in Hs2, Hd2, Husers2.
    assert (Hu2 : user_by_email (db_after o2) email = Some user).
    { unfold user_by_email. rewrite Husers2. exact Hu1. }
    assert (Hother : forall token_field new_password salt now,
               upper token_field <> upper hex2 ->
               reset_password POST token_field new_password salt now
                              (session_after o2) (db_after o2)
               = (Redirect "reset_password" [MSG_INVALID_CODE],
                  session_after o2, db_after o2)).
    { intros tok pw salt now Hne.
      rewrite (reset_password_post tok pw salt now _ _ email user Hs2 He Hu2).
      rewrite Hd2 at 1. rewrite otp_lookup_after_issue.
      destruct (upper hex2 =? upper tok) eqn:E; [|reflexivity].
      apply String.eqb_eq in E. congruence. }
    split; [exact Hother|]. split.
    + intros Hne pw salt now. apply Hother. rewrite upper_idempotent. exact Hne.
    + intros pw salt now Hnow Hlen.
      rewrite (reset_password_post (upper hex2) pw salt now _ _ email user Hs2 He Hu2).
      rewrite Hd2 at 1. rewrite otp_lookup_after_issue, upper_idempotent.
      rewrite String.eqb_refl. cbn [OTP_Token.expires_at].
      replace (t2 + timedelta_minutes 10 <? now)%Z with false
        by (symmetry; apply Z.ltb_ge; lia).
      replace (len pw <? 6)%Z with false by (symmetry; apply Z.ltb_ge; lia).
      reflexivity.
Qed.


(** Rewriting a row found by address keeps it the row of that address. *)
Lemma user_by_email_update_user :
  forall d email user u',
    user_by_email d email = Some user ->
    User.email u' = email -> User.id u' = User.id user ->
    user_by_email (update_user d u') email = Some u'.
Proof.
  intros d email user u' Hfind Hmail Hid.
  unfold user_by_email, update_user in *. simpl.
  induction (users d) as [|x l IH]; simpl in *; [discriminate|].
  destruct (User.id x =? User.id u')%Z eqn:Ex.
  - simpl. rewrite Hmail, String.eqb_refl. reflexivity.
  - destruct (User.email x =? email) eqn:Em.
    + injection Hfind as ->. rewrite Hid, Z.eqb_refl in Ex. discriminate.
    + apply IH. exact Hfind.
Qed.

Lemma find_some_email :
  forall d email user, user_by_email d email = Some user -> User.email user = email.
Proof.
  intros d email user H. unfold user_by_email in H. apply find_some in H.
  destruct H as [_ H]. apply String.eqb_eq in H. exact H.
Qed.

Lemma find_none_if_no_code :
  forall uid tok (l : list OTP_Token.t),
    filter (fun t => (OTP_Token.user_id t =? uid)%Z) l = [] ->
    find (fun t => ((OTP_Token.user_id t =? uid)%Z && (OTP_Token.token t =? tok))%bool) l
    = None.
Proof.
  intros uid tok l. induction l as [|x l IH]; simpl; [reflexivity|].
  destruct (OTP_Token.user_id x =? uid)%Z; [discriminate|]. exact IH.
Qed.

Lemma filter_filter_nil :
  forall (A : Type) (p q : A -> bool) (l : list A),
    filter p l = [] -> filter p (filter q l) = [].
Proof.
  intros A p q l. induction l as [|x l IH]; simpl; [reflexivity|].
  destruct (p x) eqn:Ep; [discriminate|].
  intros H. destruct (q x); simpl; [rewrite Ep|]; apply IH; exact H.
Qed.

(** With one code per account, deleting the code that was looked up leaves
    the account without any code. *)
Lemma consumed_code_is_gone :
  forall uid tok (l : list OTP_Token.t) (e : OTP_Token.t),
    (List.length (filter (fun t => (OTP_Token.user_id t =? uid)%Z) l) <= 1)%nat ->
    find (fun t => ((OTP_Token.user_id t =? uid)%Z && (OTP_Token.token t =? tok))%bool) l
    = Some e ->
    filter (fun t => (OTP_Token.user_id t =? uid)%Z)
           (filter (fun t => negb (OTP_Token.id t =? OTP_Token.id e)%Z) l) = [].
Proof.
  intros uid tok l e. induction l as [|x l IH]; simpl; [discriminate|].
  destruct (OTP_Token.user_id x =? uid)%Z eqn:Eu; simpl.
  - intros Hlen Hfind.
    assert (Hrest : filter (fun t => (OTP_Token.user_id t =? uid)%Z) l = []).
    { destruct (filter (fun t => (OTP_Token.user_id t =? uid)%Z) l);
        [reflexivity | simpl in Hlen; lia]. }
    assert (Hx : x = e).
    { destruct (OTP_Token.token x =? tok); [congruence|].
      rewrite (find_none_if_no_code uid tok l Hrest) in Hfind. discriminate. }
    subst x. rewrite Z.eqb_refl. simpl. apply filter_filter_nil. exact Hrest.
  - intros Hlen Hfind.
    destruct (negb (OTP_Token.id x =? OTP_Token.id e)%Z); simpl;
      [rewrite Eu|]; apply IH; assumption.
Qed.

Lemma otp_lookup_some :
  forall d uid tok e,
    otp_lookup d uid tok = Some e ->
    In e (otp_tokens d) /\ OTP_Token.user_id e = uid /\ OTP_Token.token e = tok.
Proof.
  intros d uid tok e H. unfold otp_lookup in H. apply find_some in H.
  destruct H as [Hin Hp]. apply andb_true_iff in Hp. destruct Hp as [H1 H2].
  apply Z.eqb_eq in H1. apply String.eqb_eq in H2. auto.
Qed.

(** C3: with a reset pending for an existing account, submitting a token
    and a new password is refused as invalid or expired when the account has
    no stored code with that token or when the stored expiry lies before
    now; failing that it is refused as too weak when the password has fewer
    than 6 characters; in both cases session and store stay as they were.
    Otherwise the account's credential becomes the hash of the new password
    and the code is deleted, so that (with one code per account, as in every
    reachable store) the same token is refused from then on.  The stored expiry of an issued code is
    its issue time plus ten minutes. *)
Theorem reset_password_consumes_the_code :
  forall d s email user token_field new_password salt now,
    sess_reset_email s = Some email ->
    email <> "" ->
    user_by_email d email = Some user ->
    let o := reset_password POST token_field new_password salt now s d in
    let stored := otp_lookup d (User.id user) (upper token_field) in
    ((stored = None
      \/ (exists e, stored = Some e /\ OTP_Token.expires_at e < now)) ->
     o = (Redirect "reset_password" [MSG_INVALID_CODE], s, d))
    /\ (forall e,
           stored = Some e -> now <= OTP_Token.expires_at e ->
           len new_password < 6 ->
           o = (Redirect "reset_password" [MSG_WEAK_PASSWORD], s, d))
    /\ (forall e,
           stored = Some e -> now <= OTP_Token.expires_at e ->
           6 <= len new_password ->
           response o = Redirect "login" [MSG_RESET_DONE]
           /\ user_by_email (db_after o) email
              = Some (set_password salt new_password user)
           /\ User.password_hash (set_password salt new_password user)
              = generate_password_hash salt new_password
           /\ otp_tokens (db_after o)
              = filter (fun t => negb (OTP_Token.id t =? OTP_Token.id e)%Z)
                       (otp_tokens d)
           /\ ~ In e (otp_tokens (db_after o))
           /\ (exists flashes,
                  reset_password POST token_field new_password salt now
                                 (session_after o) (db_after o)
                  = (Redirect "forgot_password" flashes, session_after o, db_after o))
           /\ (one_code_per_account d \/ reachable d ->
               forall s' token_field' new_password' salt' now',
                 sess_reset_email s' = Some email ->
                 reset_password POST token_field' new_password' salt' now'
                                s' (db_after o)
                 = (Redirect "reset_password" [MSG_INVALID_CODE], s', db_after o)))
    /\ (forall hex issued ok s0 d0 user0,
           user_by_email d0 email = Some user0 ->
           let o0 := forgot_password POST email hex issued ok s0 d0 in
           exists e,
             otp_lookup (db_after o0) (User.id user0) (upper hex) = Some e
             /\ OTP_Token.expires_at e = issued + timedelta_minutes 10
             /\ forall pw salt' now',
                 issued + timedelta_minutes 10 < now' ->
                 reset_password POST (upper hex) pw salt' now'
                                (session_after o0) (db_after o0)
                 = (Redirect "reset_password" [MSG_INVALID_CODE],
                    session_after o0, db_after o0)).
Proof.
  intros d s email user tok pw salt now Hs He Hu o stored.
  assert (Ho : o = _) by exact (reset_password_post tok pw salt now s d email user Hs He Hu).
  fold stored in Ho.
  split; [|split; [|split]].
  - intros [Hnone | [e [Hsome Hexp]]]; rewrite Ho.
    + rewrite Hnone. reflexivity.
    + rewrite Hsome.
      replace (OTP_Token.expires_at e <? now)%Z with true
        by (symmetry; apply Z.ltb_lt; lia).
      reflexivity.
  - intros e Hsome Hexp Hlen. rewrite Ho, Hsome.
    replace (OTP_Token.expires_at e <? now)%Z with false
      by (symmetry; apply Z.ltb_ge; lia).
    replace (len pw <? 6)%Z with true by (symmetry; apply Z.ltb_lt; lia).
    reflexivity.
  - intros e Hsome Hexp Hlen. rewrite Ho, Hsome.
    replace (OTP_Token.expires_at e <? now)%Z with false
      by (symmetry; apply Z.ltb_ge; lia).
    replace (len pw <? 6)%Z with false by (symmetry; apply Z.ltb_ge; lia).
    assert (Hu' : forall l,
               user_by_email (set_otp_tokens (update_user d (set_password salt pw user)) l)
                             email
               = Some (set_password salt pw user)).
    { intro l.
      exact (user_by_email_update_user d email user (set_password salt pw user)
               Hu (find_some_email d email user Hu) eq_refl). }
    split; [reflexivity|]. split; [apply Hu'|]. split; [reflexivity|].
    split; [reflexivity|]. split.
    { unfold db_after; simpl. intros Hin. apply filter_In in Hin.
      destruct Hin as [_ Hin]. rewrite Z.eqb_refl in Hin. discriminate. }
    split.
    { eexists. unfold reset_password, session_after. simpl. reflexivity. }
    intros Hone s' tok' pw' salt' now' Hs'.
    assert (Hone' : one_code_per_account d).
    { destruct Hone as [H | H]; [exact H | exact (reachable_one_code d H)]. }
    clear Hone. rename Hone' into Hone.
    unfold db_after; simpl snd.
    rewrite (reset_password_post tok' pw' salt' now' s' _ email
               (set_password salt pw user) Hs' He (Hu' _)).
    unfold otp_lookup at 1. simpl otp_tokens. simpl User.id.
    rewrite find_none_if_no_code; [reflexivity|].
    apply (consumed_code_is_gone (User.id user) (upper tok)).
    + apply Hone.
    + exact Hsome.
  - intros hex issued ok s0 d0 user0 Hu0 o0.
    destruct (forgot_password_post email hex issued ok s0 d0 user0 Hu0)
      as [Hs0 [Hd0 Husers0]].
    fold o0 in Hs0, Hd0, Husers0.
    assert (Hlook : otp_lookup (db_after o0) (User.id user0) (upper hex)
                    = Some (OTP_Token.mk
                              (next_id (map OTP_Token.id
                                 (filter (fun t => negb (OTP_Token.user_id t =? User.id user0)%Z)
                                         (otp_tokens d0))))
                              (User.id user0) (upper hex)
                              (issued + timedelta_minutes 10))).
    { rewrite Hd0, otp_lookup_after_issue, String.eqb_refl. reflexivity. }
    eexists. split; [exact Hlook|]. split; [reflexivity|].
    intros pw0 salt' now' Hlate.
    assert (Hu0' : user_by_email (db_after o0) email = Some user0).
    { unfold user_by_email. rewrite Husers0. exact Hu0. }
    rewrite (reset_password_post (upper hex) pw0 salt' now' _ _ email user0 Hs0 He Hu0').
    rewrite upper_idempotent, Hlook. cbn [OTP_Token.expires_at].
    replace (issued + timedelta_minutes 10 <? now')%Z with true
      by (symmetry; apply Z.ltb_lt; lia).
    reflexivity.
Qed.


(** ** Primary keys of the tables *)

Lemma fold_max_le :
  forall (l : list Z) (a x : Z), x <= a \/ In x l -> x <= fold_left Z.max l a.
Proof.
  induction l as [|y l IH]; simpl; intros a x H.
  - destruct H as [H | []]. exact H.
  - apply IH. destruct H as [H | [-> | H]].
    + left. lia.
    + left. lia.
    + right. exact H.
Qed.

(** A new key is larger than every key of the table, hence fresh. *)
Lemma next_id_fresh : forall (l : list Z) (x : Z), In x l -> x < next_id l.
Proof.
  intros [|i rest] x H; [destruct H|].
  assert (Hle : x <= fold_left Z.max rest i).
  { apply fold_max_le. destruct H as [-> | H]; [left; lia | right; exact H]. }
  unfold next_id. lia.
Qed.

Lemma next_id_not_in : forall l : list Z, ~ In (next_id l) l.
Proof.
  intros l Hin. apply next_id_fresh in Hin. lia.
Qed.

Lemma NoDup_snoc :
  forall (l : list Z) (x : Z), NoDup l -> ~ In x l -> NoDup (l ++ [x]).
Proof.
  induction l as [|y l IH]; simpl; intros x Hnd Hx.
  - constructor; [intros [] | constructor].
  - inversion Hnd as [|? ? Hy Hnd']; subst. constructor.
    + intros Hin. apply in_app_or in Hin. destruct Hin as [Hin | [-> | []]].
      * contradiction.
      * apply Hx. left. reflexivity.
    + apply IH; [exact Hnd'|]. intros Hin. apply Hx. right. exact Hin.
Qed.

Lemma NoDup_map_filter :
  forall (A : Type) (key : A -> Z) (f : A -> bool) (l : list A),
    NoDup (map key l) -> NoDup (map key (filter f l)).
Proof.
  intros A key f l. induction l as [|x l IH]; simpl; intros Hnd; [constructor|].
  inversion Hnd as [|? ? Hx Hnd']; subst.
  destruct (f x); simpl; [|exact (IH Hnd')].
  constructor; [|exact (IH Hnd')].
  intros Hin. apply Hx. apply in_map_iff in Hin. destruct Hin as [y [Hy Hin]].
  apply filter_In in Hin. destruct Hin as [Hin _].
  rewrite <- Hy. apply in_map. exact Hin.
Qed.

Lemma NoDup_filter_Z :
  forall (f : Z -> bool) (l : list Z), NoDup l -> NoDup (filter f l).
Proof.
  intros f l. induction l as [|x l IH]; simpl; intros Hnd; [constructor|].
  inversion Hnd as [|? ? Hx Hnd']; subst.
  destruct (f x); [|exact (IH Hnd')].
  constructor; [|exact (IH Hnd')].
  intros Hin. apply filter_In in Hin. destruct Hin as [Hin _]. contradiction.
Qed.

Lemma keys_step_unique :
  forall keys keys', keys_step keys keys' -> NoDup keys -> NoDup keys'.
Proof.
  intros keys keys' [-> | [[keep ->] | ->]] Hnd.
  - exact Hnd.
  - apply NoDup_filter_Z. exact Hnd.
  - apply NoDup_snoc; [exact Hnd | apply next_id_not_in].
Qed.

Lemma map_filter_keys :
  forall (A : Type) (key : A -> Z) (f : Z -> bool) (l : list A),
    map key (filter (fun x => f (key x)) l) = filter f (map key l).
Proof.
  intros A key f l. induction l as [|x l IH]; simpl; [reflexivity|].
  destruct (f (key x)); simpl; rewrite IH; reflexivity.
Qed.

Lemma update_trainer_keys :
  forall d t,
    map Trainer.id (trainers (update_trainer d t)) = map Trainer.id (trainers d).
Proof.
  intros d t. unfold update_trainer. simpl. rewrite map_map.
  apply map_ext. intros x. destruct (Trainer.id x =? Trainer.id t)%Z eqn:E; [|reflexivity].
  apply Z.eqb_eq in E. symmetry. exact E.
Qed.

Lemma handle_trainer_keys_step :
  forall r s d,
    keys_step (map Trainer.id (trainers d))
              (map Trainer.id (trainers (db_after (handle r s d)))).
Proof.
  intros r s d. destruct r; simpl handle;
    try (left; by_cases_on_handler; fail).
  - left. unfold forgot_password.
    destruct m; [reflexivity|]. destruct (user_by_email d email) as [user|]; [|reflexivity].
    unfold generate_and_send_otp. destruct mail_ok; reflexivity.
  - unfold create_trainer. repeat break_match; try (left; reflexivity);
      right; right; unfold db_after; simpl; rewrite map_app; reflexivity.
  - left. unfold trainer_profile, handle_profile_update.
    destruct (current_user d s) as [user|]; [|reflexivity].
    destruct (negb (User.role user =? "trainer")); [reflexivity|].
    destruct (trainer_by_email d (User.email user)) as [trainer|]; [|reflexivity].
    destruct m; [reflexivity|].
    unfold db_after. simpl snd. rewrite update_trainer_keys. reflexivity.
  - left. unfold update_security.
    repeat break_match; try reflexivity;
      unfold db_after, change_email; simpl snd;
      repeat break_match; try reflexivity;
      rewrite update_trainer_keys; reflexivity.
  - unfold delete_trainer. repeat break_match; try (left; reflexivity);
      right; left; eexists; unfold db_after; simpl;
      apply (map_filter_keys Trainer.t Trainer.id
               (fun k => negb (k =? Trainer.id t)%Z)).
Qed.

Lemma handle_recording_keys_step :
  forall r s d,
    keys_step (map Recording.id (recordings d))
              (map Recording.id (recordings (db_after (handle r s d)))).
Proof.
  intros r s d. destruct r; simpl handle;
    try (left; by_cases_on_handler; fail).
  - left. unfold forgot_password.
    destruct m; [reflexivity|]. destruct (user_by_email d email) as [user|]; [|reflexivity].
    unfold generate_and_send_otp. destruct mail_ok; reflexivity.
  - unfold upload. repeat break_match; try (left; reflexivity);
      right; right; unfold db_after; simpl; rewrite map_app; reflexivity.
  - unfold delete_recording. repeat break_match; try (left; reflexivity);
      right; left; eexists; unfold db_after; simpl;
      apply (map_filter_keys Recording.t Recording.id
               (fun k => negb (k =? Recording.id t)%Z)).
Qed.

(** In every reachable store the keys of the trainer table and of the
    recording table are unique. *)
Lemma reachable_keys_unique :
  forall d, reachable d -> trainer_keys_unique d /\ recording_keys_unique d.
Proof.
  unfold trainer_keys_unique, recording_keys_unique.
  induction 1 as [|d d' _ [IHt IHr] Hstep].
  - split; constructor.
  - destruct Hstep as [r s | d' _ Ht _ _ [keep Hr]].
    + split.
      * exact (keys_step_unique _ _ (handle_trainer_keys_step r s d) IHt).
      * exact (keys_step_unique _ _ (handle_recording_keys_step r s d) IHr).
    + split; [rewrite Ht; exact IHt|].
      rewrite Hr. apply NoDup_map_filter. exact IHr.
Qed.

(** ** Enrollment *)

Lemma find_none_filter_nil :
  forall (A : Type) (p : A -> bool) (l : list A),
    find p l = None -> filter p l = [].
Proof.
  intros A p l. induction l as [|x l IH]; simpl; [reflexivity|].
  destruct (p x); [discriminate | exact IH].
Qed.

Lemma find_some_filter_cons :
  forall (A : Type) (p : A -> bool) (l : list A) (x : A),
    find p l = Some x -> exists rest, filter p l = x :: rest.
Proof.
  intros A p l. induction l as [|y l IH]; simpl; [discriminate|].
  intros x. destruct (p y).
  - intros H. injection H as ->. eexists. reflexivity.
  - apply IH.
Qed.

Lemma find_app_new :
  forall (A : Type) (p : A -> bool) (l : list A) (x : A),
    find p l = None -> p x = true -> find p (l ++ [x]) = Some x.
Proof.
  intros A p l x. induction l as [|y l IH]; simpl.
  - intros _ ->. reflexivity.
  - destruct (p y); [discriminate | exact IH].
Qed.

Lemma filter_length_le :
  forall (A : Type) (p q : A -> bool) (l : list A),
    (List.length (filter p (filter q l)) <= List.length (filter p l))%nat.
Proof.
  intros A p q l. induction l as [|x l IH]; simpl; [lia|].
  destruct (q x); simpl; destruct (p x); simpl; lia.
Qed.

Lemma enrollments_step_invariant :
  forall d d',
    enrollments_step d d' ->
    one_enrollment_per_pair d -> one_enrollment_per_pair d'.
Proof.
  intros d d' Hstep Hinv uid bid. unfold enrollments_of.
  destruct Hstep as [Hsame | [[keep Hkeep] | [e [uid' [bid' [Happ [Hu [Hb Hnone]]]]]]]].
  - rewrite Hsame. apply Hinv.
  - rewrite Hkeep. specialize (Hinv uid bid). unfold enrollments_of in Hinv.
    pose proof (filter_length_le Enrollment.t
                  (fun e => (option_eqb Z.eqb (Enrollment.user_id e) (Some uid)
                             && option_eqb Z.eqb (Enrollment.batch_id e) (Some bid))%bool)
                  keep (enrollments d)) as Hle.
    lia.
  - rewrite Happ, filter_app, length_app. simpl. rewrite Hu, Hb. simpl.
    destruct ((uid' =? uid)%Z && (bid' =? bid)%Z)%bool eqn:E; simpl.
    + apply andb_true_iff in E. destruct E as [E1 E2].
      apply Z.eqb_eq in E1. apply Z.eqb_eq in E2. subst uid' bid'.
      unfold enrollments_of in Hnone. rewrite Hnone. simpl. lia.
    + specialize (Hinv uid bid). unfold enrollments_of in Hinv. lia.
Qed.

Lemma enroll_student_enrollments_step :
  forall us bs now s d,
    enrollments_step d (db_after (enroll_student us bs now s d)).
Proof.
  intros. unfold enroll_student.
  repeat break_match; try (left; reflexivity).
  right. right. eexists. eexists. eexists.
  split; [reflexivity|]. split; [reflexivity|]. split; [reflexivity|].
  apply find_none_filter_nil. assumption.
Qed.

Lemma handle_enrollments_step :
  forall r s d, enrollments_step d (db_after (handle r s d)).
Proof.
  intros r s d. destruct r; simpl handle;
    try (left; by_cases_on_handler; fail).
  - left. unfold forgot_password.
    destruct m; [reflexivity|]. destruct (user_by_email d email) as [user|]; [|reflexivity].
    unfold generate_and_send_otp. destruct mail_ok; reflexivity.
  - apply enroll_student_enrollments_step.
  - unfold delete_student. repeat break_match; try (left; reflexivity).
    right. left. eexists. reflexivity.
  - unfold delete_trainer. repeat break_match; try (left; reflexivity).
    right. left. eexists. reflexivity.
Qed.

Lemma reachable_one_enrollment :
  forall d, reachable d -> one_enrollment_per_pair d.
Proof.
  induction 1 as [|d d' _ IH Hstep].
  - intros uid bid. simpl. lia.
  - apply (enrollments_step_invariant d d'); [|exact IH].
    destruct Hstep as [r s | d' _ _ _ Hkeep _].
    + apply handle_enrollments_step.
    + right. left. exact Hkeep.
Qed.

(** A parsed key that cannot be bound: [OverflowError], which
    [except ValueError] does not catch, and nothing is stored. *)
Lemma enroll_student_overflow :
  forall d s us bs uid bid now,
    is_admin d s = true -> us <> "" -> bs <> "" ->
    int us = Some uid -> int bs = Some bid ->
    int64 uid = false \/ int64 bid = false ->
    enroll_student (Some us) (Some bs) now s d = (ServerError "OverflowError", s, d).
Proof.
  intros d s us bs uid bid now Hadmin Hus Hbs Hiu Hib Hbig.
  unfold enroll_student. rewrite Hadmin.
  rewrite (truthy_nonempty us Hus), (truthy_nonempty bs Hbs), Hiu, Hib.
  simpl negb. simpl orb. cbv iota.
  destruct Hbig as [-> | ->]; [reflexivity|].
  rewrite andb_false_r. reflexivity.
Qed.

(** C4: enrolling the same student in the same batch twice answers the
    second request with the informational flash "Student already enrolled"
    (category info, an ordinary redirect) and leaves the store exactly as the
    first request left it; a pair that had at most one row before -- as every
    pair has in a reachable store -- has exactly one row afterwards, and a
    pair that had none gets its row from the first request.  The keys are
    keys SQLite can hold, signed 64-bit integers; for any other the lookup
    raises [OverflowError] (see [enroll_student_overflow]). *)
Theorem enroll_student_is_idempotent :
  forall d s us bs us' bs' user_id batch_id now1 now2,
    is_admin d s = true ->
    us <> "" -> bs <> "" -> us' <> "" -> bs' <> "" ->
    int us = Some user_id -> int bs = Some batch_id ->
    int us' = Some user_id -> int bs' = Some batch_id ->
    int64 user_id = true -> int64 batch_id = true ->
    let o1 := enroll_student (Some us) (Some bs) now1 s d in
    let o2 := enroll_student (Some us') (Some bs') now2
                             (session_after o1) (db_after o1) in
    o2 = (Redirect "admin_dashboard" [MSG_ALREADY_ENROLLED], s, db_after o1)
    /\ snd MSG_ALREADY_ENROLLED = "info"
    /\ ((List.length (enrollments_of user_id batch_id d) <= 1)%nat ->
        List.length (enrollments_of user_id batch_id (db_after o2)) = 1%nat)
    /\ (enrollments_of user_id batch_id d = [] ->
        o1 = (Redirect "admin_dashboard" [MSG_ENROLLED], s,
              set_enrollments d
                (enrollments d
                   ++ [Enrollment.mk (next_id (map Enrollment.id (enrollments d)))
                                     (Some user_id) (Some batch_id) now1])))
    /\ (reachable d ->
        List.length (enrollments_of user_id batch_id (db_after o2)) = 1%nat).
Proof.
  intros d s us bs us' bs' user_id batch_id now1 now2 Hadmin Hus Hbs Hus' Hbs'
         Hint_u Hint_b Hint_u' Hint_b' Hu64 Hb64 o1 o2.
  set (pair_row := fun e : Enrollment.t =>
         (option_eqb Z.eqb (Enrollment.user_id e) (Some user_id)
          && option_eqb Z.eqb (Enrollment.batch_id e) (Some batch_id))%bool).
  assert (Hstep : forall us0 bs0 now s0 d0,
             us0 <> "" -> bs0 <> "" ->
             int us0 = Some user_id -> int bs0 = Some batch_id ->
             is_admin d0 s0 = true ->
             enroll_student (Some us0) (Some bs0) now s0 d0
             = match find pair_row (enrollments d0) with
               | Some _ => (Redirect "admin_dashboard" [MSG_ALREADY_ENROLLED], s0, d0)
               | None =>
                   (Redirect "admin_dashboard" [MSG_ENROLLED], s0,
                    set_enrollments d0
                      (enrollments d0
                         ++ [Enrollment.mk (next_id (map Enrollment.id (enrollments d0)))
                                           (Some user_id) (Some batch_id) now]))
               end).
  { intros us0 bs0 now s0 d0 Hu0 Hb0 Hiu Hib Ha. unfold enroll_student.
    rewrite Ha, (truthy_nonempty us0 Hu0), (truthy_nonempty bs0 Hb0), Hiu, Hib.
    rewrite Hu64, Hb64. reflexivity. }
  assert (Ho1 : o1 = _) by exact (Hstep us bs now1 s d Hus Hbs Hint_u Hint_b Hadmin).
  assert (Hs1 : session_after o1 = s).
  { rewrite Ho1. destruct (find pair_row (enrollments d)); reflexivity. }
  assert (Hadmin1 : is_admin (db_after o1) s = true).
  { rewrite Ho1. destruct (find pair_row (enrollments d)); exact Hadmin. }
  assert (Hfound : exists e, find pair_row (enrollments (db_after o1)) = Some e).
  { rewrite Ho1. destruct (find pair_row (enrollments d)) as [e|] eqn:E.
    - exists e. exact E.
    - eexists. unfold db_after; simpl. apply find_app_new; [exact E|].
      unfold pair_row; simpl. rewrite !Z.eqb_refl. reflexivity. }
  assert (Ho2 : o2 = (Redirect "admin_dashboard" [MSG_ALREADY_ENROLLED], s, db_after o1)).
  { unfold o2.
    rewrite Hs1, (Hstep us' bs' now2 s (db_after o1) Hus' Hbs' Hint_u' Hint_b' Hadmin1).
    destruct Hfound as [e ->]. reflexivity. }
  assert (Hcount : (List.length (enrollments_of user_id batch_id d) <= 1)%nat ->
                   List.length (enrollments_of user_id batch_id (db_after o2)) = 1%nat).
  2: { split; [exact Ho2|]. split; [reflexivity|]. split; [exact Hcount|]. split.
       - intros Hnone. rewrite Ho1. unfold enrollments_of in Hnone.
         fold pair_row in Hnone.
         destruct (find pair_row (enrollments d)) as [e|] eqn:E; [|reflexivity].
         destruct (find_some_filter_cons _ pair_row _ e E) as [rest Hrest].
         rewrite Hrest in Hnone. discriminate.
       - intros Hreach. apply Hcount. apply (reachable_one_enrollment d Hreach). }
  - intros Hle. rewrite Ho2. unfold db_after at 1; simpl snd.
    unfold enrollments_of in *. fold pair_row in Hle |- *.
    rewrite Ho1. destruct (find pair_row (enrollments d)) as [e|] eqn:E.
    + unfold db_after; simpl.
      destruct (find_some_filter_cons _ pair_row _ e E) as [rest Hrest].
      rewrite Hrest in *. simpl in *. lia.
    + unfold db_after; simpl. rewrite filter_app.
      rewrite (find_none_filter_nil _ pair_row _ E). simpl.
      unfold pair_row at 1; simpl. rewrite !Z.eqb_refl. reflexivity.
Qed.


(** ** Progress *)

(** With unique keys at most one row carries a given key. *)
Lemma filter_by_key_length :
  forall (A : Type) (key : A -> Z) (g : A -> bool) (k : Z) (l : list A),
    NoDup (map key l) ->
    (forall x, g x = true -> key x = k) ->
    List.length (filter g l) = if existsb g l then 1%nat else 0%nat.
Proof.
  intros A key g k l Hnd Hg. induction l as [|x l IH]; simpl; [reflexivity|].
  inversion Hnd as [|? ? Hnotin Hnd']; subst.
  destruct (g x) eqn:Ex; simpl.
  - assert (Hrest : existsb g l = false).
    { destruct (existsb g l) eqn:Eex; [|reflexivity].
      apply existsb_exists in Eex. destruct Eex as [y [Hin Hy]].
      exfalso. apply Hnotin. rewrite (Hg x Ex), <- (Hg y Hy).
      apply in_map. exact Hin. }
    rewrite (IH Hnd'), Hrest. reflexivity.
  - exact (IH Hnd').
Qed.

Lemma join_count_is_row_count :
  forall (recs : list Recording.t) (bid : Z) (q : StudentProgress.t -> bool)
         (ps : list StudentProgress.t),
    NoDup (map Recording.id recs) ->
    List.length
      (flat_map (fun p => map (fun r => (p, r)) (filter (joins bid p) recs))
                (filter q ps))
    = List.length (filter (fun p => (q p && existsb (joins bid p) recs)%bool) ps).
Proof.
  intros recs bid q ps Hnd. induction ps as [|p ps IH]; simpl; [reflexivity|].
  destruct (q p); simpl; [|exact IH].
  rewrite length_app, length_map, IH.
  destruct (StudentProgress.recording_id p) as [rid|] eqn:Erid.
  - rewrite (filter_by_key_length Recording.t Recording.id (joins bid p) rid recs Hnd).
    + destruct (existsb (joins bid p) recs); simpl; reflexivity.
    + intros r Hr. unfold joins in Hr. rewrite Erid in Hr. simpl in Hr.
      apply andb_true_iff in Hr. destruct Hr as [Hr _].
      apply Z.eqb_eq in Hr. congruence.
  - assert (Hnil : filter (joins bid p) recs = []).
    { clear - Erid. induction recs as [|r recs IH]; simpl; [reflexivity|].
      unfold joins at 1. rewrite Erid. simpl. exact IH. }
    assert (Hex : existsb (joins bid p) recs = false).
    { clear - Erid. induction recs as [|r recs IH]; simpl; [reflexivity|].
      unfold joins at 1. rewrite Erid. simpl. exact IH. }
    rewrite Hnil, Hex. reflexivity.
Qed.

Lemma no_recordings_no_join :
  forall (recs : list Recording.t) (bid : Z) (ps : list StudentProgress.t),
    filter (fun r => option_eqb Z.eqb (Recording.batch_id r) (Some bid)) recs = [] ->
    flat_map (fun p => map (fun r => (p, r)) (filter (joins bid p) recs)) ps = [].
Proof.
  intros recs bid ps Hnone. induction ps as [|p ps IH]; simpl; [reflexivity|].
  rewrite IH, app_nil_r.
  replace (filter (joins bid p) recs) with (@nil Recording.t); [reflexivity|].
  symmetry. clear IH. induction recs as [|r recs IHr]; simpl; [reflexivity|].
  simpl in Hnone. unfold joins at 1.
  destruct (option_eqb Z.eqb (Recording.batch_id r) (Some bid)); [discriminate|].
  rewrite andb_false_r. apply IHr. exact Hnone.
Qed.

Lemma progress_percent_defined :
  forall completed available, progress_percent completed available <> None.
Proof.
  intros c a. unfold progress_percent, truediv.
  destruct (0 <? a)%Z eqn:E; [|discriminate].
  apply Z.ltb_lt in E.
  replace (a =? 0)%Z with false by (symmetry; apply Z.eqb_neq; lia).
  discriminate.
Qed.

(** The loop of the student dashboard on a single enrollment. *)
Lemma student_metrics_single :
  forall d uid e b,
    enrollment_batch d e = Some b ->
    student_metrics d uid [e] (mkMetrics 0 0 None [])
    = Some (mkMetrics
              (Z.of_nat (List.length (batch_recordings d b)))
              (completed_recordings d uid (Batch.id b))
              (first_uncompleted d uid b (batch_recordings d b))
              [(e, (completed_recordings d uid (Batch.id b),
                    Z.of_nat (List.length (batch_recordings d b))))]).
Proof.
  intros d uid e b Hb. simpl. rewrite Hb. reflexivity.
Qed.



(** C5: for an enrollment in a batch the dashboard computes the pair
    (completed, total): total is the number of recordings of the batch, and
    completed is the number of rows of the join of the student's completed
    progress rows with the recordings of the batch, which (recording keys
    being unique, as they are in every reachable store) is the number of the
    student's completed progress records on recordings of that batch.  A batch without recordings gives (0, 0),
    the percentage derived from a zero total is the integer 0, and the
    percentage is defined for every pair of totals: the dashboard never
    fails on a division by zero. *)
Theorem progress_is_counted_and_never_divides_by_zero :
  forall d uid e b,
    enrollment_batch d e = Some b ->
    let completed := completed_recordings d uid (Batch.id b) in
    let total := Z.of_nat (List.length (batch_recordings d b)) in
    (exists m,
        student_metrics d uid [e] (mkMetrics 0 0 None []) = Some m
        /\ m_progress_counts m = [(e, (completed, total))]
        /\ total_completed m = completed
        /\ total_available m = total)
    /\ total = snd (spec_computeProgress d uid (Batch.id b))
    /\ (recording_keys_unique d \/ reachable d ->
        (completed, total) = spec_computeProgress d uid (Batch.id b))
    /\ (batch_recordings d b = [] ->
        (completed, total) = (0, 0)
        /\ progress_percent completed total = Some (PyInt 0)
        /\ option_map round (progress_percent completed total) = Some 0)
    /\ (forall c a, progress_percent c a <> None)
    /\ (forall c a, a <= 0 -> progress_percent c a = Some (PyInt 0))
    /\ (forall s d0, response (dashboard s d0) <> ServerError "ZeroDivisionError").
Proof.
  intros d uid e b Hb completed total.
  split; [|split; [|split; [|split; [|split; [|split]]]]].
  - eexists. split; [exact (student_metrics_single d uid e b Hb)|].
    repeat split; reflexivity.
  - reflexivity.
  - intros Hkeys.
    assert (Hnd : recording_keys_unique d).
    { destruct Hkeys as [H | H]; [exact H | exact (proj2 (reachable_keys_unique d H))]. }
    unfold spec_computeProgress. f_equal.
    unfold completed, completed_recordings. f_equal.
    exact (join_count_is_row_count (recordings d) (Batch.id b) _ (progress d) Hnd).
  - intros Hnone.
    assert (Hc : completed = 0).
    { unfold completed, completed_recordings.
      rewrite (no_recordings_no_join (recordings d) (Batch.id b) _ Hnone).
      reflexivity. }
    assert (Ht : total = 0) by (unfold total; rewrite Hnone; reflexivity).
    rewrite Hc, Ht. repeat split.
  - exact progress_percent_defined.
  - intros c a Ha. unfold progress_percent.
    replace (0 <? a)%Z with false by (symmetry; apply Z.ltb_ge; exact Ha).
    reflexivity.
  - intros s d0. unfold dashboard.
    repeat break_match; simpl; try discriminate.
    exfalso. eapply progress_percent_defined; eassumption.
Qed.


(** ** Next lesson *)

Lemma option_Z_eqb_eq :
  forall a b : option Z, option_eqb Z.eqb a b = true <-> a = b.
Proof.
  intros [a|] [b|]; simpl; split; intro H; try discriminate; try reflexivity.
  - apply Z.eqb_eq in H. congruence.
  - injection H as ->. apply Z.eqb_refl.
Qed.





Lemma int64_fits : forall stored k, int64 k = true -> fits stored k = true.
Proof. intros stored k H. unfold fits. rewrite H. reflexivity. Qed.


Lemma update_progress_student :
  forall d s user recording_id now,
    current_user d s = Some user -> User.role user = "student" ->
    recording_key_fits d recording_id = true ->
    update_progress recording_id now s d
    = (Json "success" "Progress updated" 200, s,
       set_progress d (marked_rows d (User.id user) recording_id now)).
Proof.
  intros d s user rid now Hcur Hrole Hfits.
  unfold update_progress. rewrite Hcur, Hrole, Hfits. reflexivity.
Qed.

(** A key that cannot be bound: [OverflowError], and nothing is stored. *)
Lemma update_progress_overflow :
  forall d s user recording_id now,
    current_user d s = Some user -> User.role user = "student" ->
    recording_key_fits d recording_id = false ->
    update_progress recording_id now s d = (ServerError "OverflowError", s, d).
Proof.
  intros d s user rid now Hcur Hrole Hfits.
  unfold update_progress. rewrite Hcur, Hrole, Hfits. reflexivity.
Qed.






(** C10: the progress route authorizes on the role alone.  For a logged-in
    account with role student and a recording id that is null or an integer
    SQLite can hold (a signed 64-bit integer) -- the store is not consulted
    for the recording or for an enrollment -- it answers success and leaves
    a progress row of the student for that id with [completed] set and the
    current time: the student's first row for the id is rewritten when there
    is one, and a row is appended otherwise.  An integer outside that range,
    the key of no recording, raises [OverflowError] in the lookup: a server
    error, and nothing is stored.  Every caller that is not a student gets
    the Unauthorized answer and nothing changes. *)
Theorem update_progress_checks_only_the_role :
  forall d s recording_id now,
    (forall user,
        current_user d s = Some user -> User.role user = "student" ->
        (forall rid, recording_id = Some rid -> int64 rid = true) ->
        let o := update_progress recording_id now s d in
        let mine := fun p =>
          (option_eqb Z.eqb (StudentProgress.user_id p) (Some (User.id user))
           && option_eqb Z.eqb (StudentProgress.recording_id p) recording_id)%bool in
        response o = Json "success" "Progress updated" 200
        /\ session_after o = s
        /\ (exists p,
               In p (progress (db_after o))
               /\ StudentProgress.user_id p = Some (User.id user)
               /\ StudentProgress.recording_id p = recording_id
               /\ StudentProgress.completed p = true
               /\ StudentProgress.completed_at p = Some now)
        /\ (find mine (progress d) = None ->
            progress (db_after o)
            = (progress d
                 ++ [StudentProgress.mk (next_id (map StudentProgress.id (progress d)))
                                        (Some (User.id user)) recording_id true
                                        (Some now)])%list)
        /\ (forall row,
               find mine (progress d) = Some row ->
               List.length (progress (db_after o)) = List.length (progress d)
               /\ In (StudentProgress.mk (StudentProgress.id row)
                                         (StudentProgress.user_id row)
                                         (StudentProgress.recording_id row)
                                         true (Some now))
                     (progress (db_after o)))
        /\ set_progress (db_after o) (progress d) = d)
    /\ (forall user rid,
           current_user d s = Some user -> User.role user = "student" ->
           recording_id = Some rid -> int64 rid = false ->
           (forall r, In r (recordings d) -> Recording.id r <> rid) ->
           update_progress recording_id now s d
           = (ServerError "OverflowError", s, d))
    /\ (current_user d s = None
        \/ (exists user, current_user d s = Some user /\ User.role user <> "student") ->
        update_progress recording_id now s d = (Json "error" "Unauthorized" 401, s, d)).
Proof.
  intros d s rid now. split; [|split].
  2: { intros user z Hcur Hrole -> Hbig Hnone.
       apply (update_progress_overflow d s user (Some z) now Hcur Hrole).
       unfold recording_key_fits, fits. rewrite Hbig. simpl.
       apply not_true_iff_false. intros Hex. apply existsb_exists in Hex.
       destruct Hex as [k [Hk Heq]]. apply Z.eqb_eq in Heq. subst k.
       apply in_map_iff in Hk. destruct Hk as [r [Hid Hr]].
       apply (Hnone r Hr Hid). }
  - intros user Hcur Hrole Hrange o mine.
    assert (Hfits : recording_key_fits d rid = true).
    { destruct rid as [z|]; [|reflexivity].
      apply int64_fits. apply Hrange. reflexivity. }
    assert (Ho : o = _)
      by exact (update_progress_student d s user rid now Hcur Hrole Hfits).
    clearbody o. subst o. unfold response, session_after, db_after. simpl.
    unfold marked_rows. fold mine.
    split; [reflexivity|]. split; [reflexivity|].
    destruct (find mine (progress d)) as [row|] eqn:E.
    + pose proof E as Hrow. apply find_some in Hrow. destruct Hrow as [Hin Hmine].
      unfold mine in Hmine. apply andb_true_iff in Hmine. destruct Hmine as [Hu Hr].
      apply option_Z_eqb_eq in Hu. apply option_Z_eqb_eq in Hr.
      assert (Hnew : In (StudentProgress.mk (StudentProgress.id row)
                                            (StudentProgress.user_id row)
                                            (StudentProgress.recording_id row)
                                            true (Some now))
                        (map (fun p =>
                                if (StudentProgress.id p =? StudentProgress.id row)%Z
                                then StudentProgress.mk (StudentProgress.id p)
                                                        (StudentProgress.user_id p)
                                                        (StudentProgress.recording_id p)
                                                        true (Some now)
                                else p) (progress d))).
      { apply in_map_iff. exists row. rewrite Z.eqb_refl. split; [reflexivity | exact Hin]. }
      split; [|split; [discriminate|split]].
      * eexists. split; [exact Hnew|]. simpl. auto.
      * intros row' Hrow'. injection Hrow' as <-.
        split; [apply length_map | exact Hnew].
      * destruct d; reflexivity.
    + split; [|split; [reflexivity|split; [discriminate|]]].
      * eexists. split; [apply in_or_app; right; left; reflexivity|]. simpl. auto.
      * destruct d; reflexivity.
  - intros [Hnone | [user [Hcur Hrole]]]; unfold update_progress.
    + rewrite Hnone. reflexivity.
    + rewrite Hcur. apply String.eqb_neq in Hrole. rewrite Hrole. reflexivity.
Qed.


(** ** Security settings *)

Lemma get_user_update_user :
  forall d uid user u',
    get_user d uid = Some user -> User.id u' = uid ->
    get_user (update_user d u') uid = Some u'.
Proof.
  intros d uid user u' Hget Hid. subst uid.
  unfold get_user, update_user in *. simpl.
  induction (users d) as [|x l IH]; simpl in *; [discriminate|].
  destruct (User.id x =? User.id u')%Z eqn:Ex.
  - simpl. rewrite Z.eqb_refl. reflexivity.
  - simpl. rewrite Ex. apply IH. exact Hget.
Qed.

Lemma unique_key_row :
  forall (A : Type) (key : A -> Z) (l : list A) (x y : A),
    NoDup (map key l) -> In x l -> In y l -> key x = key y -> x = y.
Proof.
  intros A key l x y Hnd. induction l as [|z l IH]; simpl; [intros []|].
  inversion Hnd as [|? ? Hnotin Hnd']; subst.
  intros [-> | Hx] [-> | Hy] Hk.
  - reflexivity.
  - exfalso. apply Hnotin. rewrite Hk. apply in_map. exact Hy.
  - exfalso. apply Hnotin. rewrite <- Hk. apply in_map. exact Hx.
  - apply IH; assumption.
Qed.

(** Writing back a row that is already in a table with unique keys changes
    nothing. *)
Lemma rewrite_same_row :
  forall (A : Type) (key : A -> Z) (l : list A) (t : A),
    NoDup (map key l) -> In t l ->
    map (fun x => if (key x =? key t)%Z then t else x) l = l.
Proof.
  intros A key l t Hnd Hin.
  rewrite <- (map_id l) at 2. apply map_ext_in.
  intros x Hx. destruct (key x =? key t)%Z eqn:E; [|reflexivity].
  apply Z.eqb_eq in E. symmetry. exact (unique_key_row A key l x t Hnd Hx Hin E).
Qed.

Lemma set_trainer_email_same :
  forall t e, Trainer.email t = e -> set_trainer_email e t = t.
Proof.
  intros [] e H. simpl in H. subst. reflexivity.
Qed.

(** The trainer row is looked up with the new address. *)
Lemma change_email_trainer :
  forall e user d,
    User.role user = "trainer" ->
    change_email e user d
    = match trainer_by_email d e with
      | Some trainer =>
          update_trainer (update_user d (set_email e user))
                         (set_trainer_email e trainer)
      | None => update_user d (set_email e user)
      end.
Proof.
  intros e user d Hrole. unfold change_email. simpl User.role. rewrite Hrole.
  reflexivity.
Qed.

Lemma change_email_keeps_trainers :
  forall e user d,
    User.role user = "trainer" -> trainer_keys_unique d ->
    trainers (change_email e user d) = trainers d.
Proof.
  intros e user d Hrole Hnd. rewrite (change_email_trainer e user d Hrole).
  destruct (trainer_by_email d e) as [t|] eqn:E; [|reflexivity].
  unfold trainer_by_email in E. apply find_some in E. destruct E as [Hin Hmail].
  apply String.eqb_eq in Hmail.
  rewrite (set_trainer_email_same t e Hmail). unfold update_trainer. simpl.
  exact (rewrite_same_row Trainer.t Trainer.id (trainers d) t Hnd Hin).
Qed.

(** C9, as the code has it: when a logged-in trainer changes the address on
    the security page (current password right, new password absent or
    acceptable, new address not used by another account), the account row
    gets the new address while the trainer table is left exactly as it was
    (trainer keys being unique, as they are in every reachable store).
    The trainer row is looked up with the address the account has just been
    given: when no trainer row carries the new address nothing is found and
    only the account is written; a row that is found already carries the new
    address, and writing the address to it changes nothing.  The trainer row
    that carried the account's old address keeps it, and the two addresses
    differ from then on. *)
Theorem trainer_email_change_leaves_profile_behind :
  forall d s user current_password new_password new_email salt,
    current_user d s = Some user ->
    User.role user = "trainer" ->
    check_password user current_password = true ->
    (forall p, new_password = Some p -> p = "" \/ 6 <= len p) ->
    new_email <> "" ->
    new_email <> User.email user ->
    find (fun u => ((User.email u =? new_email)
                    && negb (User.id u =? User.id user)%Z)%bool) (users d) = None ->
    trainer_keys_unique d \/ reachable d ->
    let o := update_security current_password new_password (Some new_email) salt s d in
    (exists flashes, response o = Redirect "profile" flashes)
    /\ (exists account,
           get_user (db_after o) (User.id user) = Some account
           /\ User.email account = new_email
           /\ User.role account = "trainer"
           /\ db_after o = change_email new_email
                             (set_password_if new_password salt user) d)
    /\ trainers (db_after o) = trainers d
    /\ (trainer_by_email d new_email = None ->
        db_after o
        = update_user d (set_email new_email (set_password_if new_password salt user)))
    /\ (forall found,
           trainer_by_email d new_email = Some found ->
           Trainer.email found = new_email
           /\ set_trainer_email new_email found = found
           /\ db_after o
              = update_trainer
                  (update_user d (set_email new_email
                                            (set_password_if new_password salt user)))
                  found)
    /\ (forall profile,
           trainer_by_email d (User.email user) = Some profile ->
           trainer_by_email (db_after o) (User.email user) = Some profile
           /\ In profile (trainers (db_after o))
           /\ Trainer.email profile <> new_email).
Proof.
  intros d s user current new_password e salt Hcur Hrole Hcheck Hpw He Hne Hfree
         Hkeys o.
  assert (Hnd : trainer_keys_unique d).
  { destruct Hkeys as [H | H]; [exact H | exact (proj1 (reachable_keys_unique d H))]. }
  assert (Huid : get_user d (User.id user) = Some user).
  { unfold current_user in Hcur. destruct (sess_user_id s) as [uid|]; [|discriminate].
    destruct (truthy_int (Some uid)); [|discriminate].
    pose proof Hcur as Hid. unfold get_user in Hid. apply find_some in Hid.
    destruct Hid as [_ Hid]. apply Z.eqb_eq in Hid. rewrite Hid. exact Hcur. }
  assert (Hrole1 : User.role (set_password_if new_password salt user) = "trainer").
  { unfold set_password_if. destruct new_password as [p|]; [|exact Hrole].
    destruct (truthy_str (Some p)); exact Hrole. }
  assert (Ho : exists flashes,
             o = (Redirect "profile" flashes, s,
                  change_email e (set_password_if new_password salt user) d)).
  { unfold o, update_security. rewrite Hcur, Hcheck. simpl negb. cbv iota.
    assert (Hok : match new_password with
                  | Some p => (truthy_str (Some p) && (len p <? 6)%Z)%bool
                  | None => false
                  end = false).
    { destruct new_password as [p|]; [|reflexivity].
      destruct (Hpw p eq_refl) as [-> | Hlen]; [reflexivity|].
      replace (len p <? 6)%Z with false by (symmetry; apply Z.ltb_ge; exact Hlen).
      apply andb_false_r. }
    rewrite Hok. rewrite (truthy_nonempty e He).
    apply String.eqb_neq in Hne. rewrite Hne. simpl andb. cbv iota.
    rewrite Hfree. unfold set_password_if.
    destruct new_password as [p|]; [destruct (truthy_str (Some p))|];
      eexists; reflexivity. }
  destruct Ho as [flashes Ho]. clearbody o. subst o.
  unfold response, db_after. simpl fst. simpl snd.
  assert (Htr : trainers (change_email e (set_password_if new_password salt user) d)
                = trainers d)
    by (apply change_email_keeps_trainers; assumption).
  split; [eexists; reflexivity|]. split; [|split; [exact Htr|split; [|split]]].
  - exists (set_email e (set_password_if new_password salt user)).
    split; [|split; [reflexivity|split; [exact Hrole1|reflexivity]]].
    rewrite (change_email_trainer e _ d Hrole1).
    assert (Hget : get_user (update_user d (set_email e (set_password_if new_password salt user)))
                            (User.id user)
                   = Some (set_email e (set_password_if new_password salt user))).
    { apply (get_user_update_user d (User.id user) user); [exact Huid|].
      unfold set_password_if. destruct new_password as [p|]; [|reflexivity].
      destruct (truthy_str (Some p)); reflexivity. }
    destruct (trainer_by_email d e); exact Hget.
  - intros Hnone. rewrite (change_email_trainer e _ d Hrole1), Hnone. reflexivity.
  - intros found Hfound.
    assert (Hmail : Trainer.email found = e).
    { unfold trainer_by_email in Hfound. apply find_some in Hfound.
      destruct Hfound as [_ H]. apply String.eqb_eq in H. exact H. }
    split; [exact Hmail|]. split; [apply set_trainer_email_same; exact Hmail|].
    rewrite (change_email_trainer e _ d Hrole1), Hfound.
    rewrite (set_trainer_email_same found e Hmail). reflexivity.
  - intros profile Hprofile. unfold trainer_by_email in *. rewrite Htr.
    split; [exact Hprofile|]. apply find_some in Hprofile.
    destruct Hprofile as [Hin Hmail]. apply String.eqb_eq in Hmail.
    split; [exact Hin|]. rewrite Hmail. congruence.
Qed.


(** ** Registration and the admin account *)

(** Rewriting a row under its own key, with unique keys, changes neither the
    keys nor the roles of the table. *)
Lemma rewrite_row_keeps_keys_and_roles :
  forall (l : list User.t) (u u' : User.t),
    NoDup (map User.id l) -> In u l ->
    User.id u' = User.id u -> User.role u' = User.role u ->
    let l' := map (fun x => if (User.id x =? User.id u')%Z then u' else x) l in
    map User.id l' = map User.id l
    /\ List.length (filter (fun x => User.role x =? "admin") l')
       = List.length (filter (fun x => User.role x =? "admin") l).
Proof.
  intros l u u' Hnd Hin Hid Hrole l'. subst l'.
  assert (Hsame : forall x, In x l ->
             User.id (if (User.id x =? User.id u')%Z then u' else x) = User.id x
             /\ User.role (if (User.id x =? User.id u')%Z then u' else x) = User.role x).
  { intros x Hx. destruct (User.id x =? User.id u')%Z eqn:E; [|split; reflexivity].
    apply Z.eqb_eq in E.
    assert (x = u) by (apply (unique_key_row User.t User.id l x u Hnd Hx Hin); congruence).
    subst x. split; assumption. }
  clear Hnd Hin. induction l as [|x l IH]; simpl; [split; reflexivity|].
  destruct (Hsame x (or_introl eq_refl)) as [Hi Hr].
  destruct IH as [IH1 IH2]; [intros y Hy; apply Hsame; right; exact Hy|].
  split.
  - rewrite Hi, IH1. reflexivity.
  - rewrite Hr. destruct (User.role x =? "admin"); simpl; rewrite IH2; reflexivity.
Qed.

(** Deleting by the key of a row that is not an admin keeps every admin. *)
Lemma delete_row_keeps_admins :
  forall (l : list User.t) (u : User.t),
    NoDup (map User.id l) -> In u l -> User.role u <> "admin" ->
    filter (fun x => User.role x =? "admin")
           (filter (fun x => negb (User.id x =? User.id u)%Z) l)
    = filter (fun x => User.role x =? "admin") l.
Proof.
  intros l u Hnd Hin Hrole.
  assert (Hkeep : forall x, In x l -> (User.role x =? "admin") = true ->
                            negb (User.id x =? User.id u)%Z = true).
  { intros x Hx Hadm. destruct (User.id x =? User.id u)%Z eqn:E; [|reflexivity].
    apply Z.eqb_eq in E.
    assert (x = u) by (apply (unique_key_row User.t User.id l x u Hnd Hx Hin); exact E).
    subst x. apply String.eqb_eq in Hadm. contradiction. }
  clear Hnd Hin. induction l as [|x l IH]; simpl; [reflexivity|].
  assert (IH' := IH (fun y Hy => Hkeep y (or_intror Hy))).
  destruct (User.role x =? "admin") eqn:Ea.
  - rewrite (Hkeep x (or_introl eq_refl) Ea). simpl. rewrite Ea, IH'. reflexivity.
  - destruct (negb (User.id x =? User.id u)%Z); simpl; [rewrite Ea|]; exact IH'.
Qed.

(** A request of the kinds listed in [users_step] keeps the keys of the user
    table unique, never removes an admin, and never takes the number of
    admins above one. *)
Lemma users_step_invariant :
  forall d d',
    users_step d d' ->
    user_keys_unique d -> (List.length (admins d) <= 1)%nat ->
    user_keys_unique d'
    /\ (List.length (admins d) <= List.length (admins d'))%nat
    /\ (List.length (admins d') <= 1)%nat.
Proof.
  intros d d' Hstep Hnd Hone. unfold user_keys_unique, admins in *.
  destruct Hstep as [Hsame | [[u [Happ [Hid Hadm]]] | [[u [u' [Hin [Hid [Hrole Hmap]]]]]
                                                      | [u [Hin [Hrole Hfilter]]]]]].
  - rewrite Hsame. auto.
  - rewrite Happ, map_app, filter_app. simpl. split.
    + apply NoDup_snoc; [exact Hnd|]. rewrite Hid. apply next_id_not_in.
    + rewrite length_app. destruct (User.role u =? "admin") eqn:E; simpl.
      * apply String.eqb_eq in E. unfold admins in Hadm. rewrite (Hadm E). simpl. lia.
      * lia.
  - destruct (rewrite_row_keeps_keys_and_roles (users d) u u' Hnd Hin Hid Hrole)
      as [Hkeys Hroles].
    rewrite Hmap, Hkeys, Hroles. auto.
  - rewrite Hfilter, (delete_row_keeps_admins (users d) u Hnd Hin Hrole).
    split; [apply NoDup_map_filter; exact Hnd | auto].
Qed.


Lemma get_user_In : forall d uid u, get_user d uid = Some u -> In u (users d).
Proof.
  intros d uid u H. unfold get_user in H. apply find_some in H. tauto.
Qed.

Lemma user_by_email_In :
  forall d email u, user_by_email d email = Some u -> In u (users d).
Proof.
  intros d email u H. unfold user_by_email in H. apply find_some in H. tauto.
Qed.

Lemma current_user_In : forall d s u, current_user d s = Some u -> In u (users d).
Proof.
  intros d s u H. unfold current_user in H.
  destruct (sess_user_id s) as [uid|]; [|discriminate].
  destruct (truthy_int (Some uid)); [|discriminate].
  eapply get_user_In. exact H.
Qed.

Lemma is_admin_current_user :
  forall d s, is_admin d s = true ->
    exists u, current_user d s = Some u /\ User.role u = "admin".
Proof.
  intros d s H. unfold is_admin in H.
  destruct (current_user d s) as [u|]; [|discriminate].
  exists u. split; [reflexivity|]. apply String.eqb_eq. exact H.
Qed.

(** Rewriting the row of an account, keeping key and role. *)
Lemma users_step_update :
  forall d d' u u',
    In u (users d) -> User.id u' = User.id u -> User.role u' = User.role u ->
    users d' = users (update_user d u') ->
    users_step d d'.
Proof.
  intros d d' u u' Hin Hid Hrole Hd'. right. right. left.
  exists u, u'. repeat split; assumption.
Qed.

Lemma users_step_same : forall d d', users d' = users d -> users_step d d'.
Proof.
  intros d d' H. left. exact H.
Qed.

Lemma register_users_step :
  forall m name email password role salt now s d,
    users_step d (db_after (register m name email password role salt now s d)).
Proof.
  intros. unfold register.
  destruct m; [apply users_step_same; reflexivity|].
  destruct (user_by_email d email); [apply users_step_same; reflexivity|].
  set (r := match role with Some r => r | None => "student" end).
  destruct (find (fun u => User.role u =? "admin") (users d)) as [a|] eqn:Ea.
  - destruct (r =? "admin") eqn:Er; simpl.
    + apply users_step_same. reflexivity.
    + right. left. eexists. split; [reflexivity|]. split; [reflexivity|].
      simpl. intros Hr. apply String.eqb_neq in Er. contradiction.
  - rewrite andb_false_r. right. left. eexists.
    split; [reflexivity|]. split; [reflexivity|].
    intros _. unfold admins. apply find_none_filter_nil. exact Ea.
Qed.

Lemma create_trainer_users_step :
  forall name email expertise salt now s d,
    users_step d (db_after (create_trainer name email expertise salt now s d)).
Proof.
  intros. unfold create_trainer.
  destruct (negb (is_admin d s)); [apply users_step_same; reflexivity|].
  destruct (trainer_by_email d email); [apply users_step_same; reflexivity|].
  destruct (user_by_email d email); [apply users_step_same; reflexivity|].
  right. left. eexists. split; [reflexivity|]. split; [reflexivity|].
  simpl. discriminate.
Qed.

Lemma reset_password_users_step :
  forall m tok pw salt now s d,
    users_step d (db_after (reset_password m tok pw salt now s d)).
Proof.
  intros. unfold reset_password.
  destruct (sess_reset_email s) as [email|]; [|apply users_step_same; reflexivity].
  destruct (negb (truthy_str (Some email))); [apply users_step_same; reflexivity|].
  destruct (user_by_email d email) as [user|] eqn:Eu;
    [|apply users_step_same; reflexivity].
  destruct m; [apply users_step_same; reflexivity|].
  destruct (otp_lookup d (User.id user) (upper tok)) as [e|];
    [|apply users_step_same; reflexivity].
  destruct (OTP_Token.expires_at e <? now)%Z; [apply users_step_same; reflexivity|].
  destruct (len pw <? 6)%Z; [apply users_step_same; reflexivity|].
  apply (users_step_update d _ user (set_password salt pw user));
    [eapply user_by_email_In; exact Eu | reflexivity | reflexivity | reflexivity].
Qed.

Lemma handle_profile_update_users_step :
  forall form user trainer d,
    In user (users d) ->
    users_step d (snd (handle_profile_update form user trainer d)).
Proof.
  intros form user trainer d Hin. unfold handle_profile_update.
  apply (users_step_update d _ user
           (set_user_profile form (profile_pic_name form user trainer) user));
    [exact Hin | reflexivity | reflexivity |].
  destruct trainer; reflexivity.
Qed.

Lemma profile_users_step :
  forall m form s d,
    users_step d (db_after (admin_profile m form s d))
    /\ users_step d (db_after (trainer_profile m form s d))
    /\ users_step d (db_after (student_profile m form s d)).
Proof.
  intros m form s d. unfold admin_profile, trainer_profile, student_profile.
  destruct (current_user d s) as [user|] eqn:Ecur.
  - pose proof (current_user_In d s user Ecur) as Hin.
    pose proof (handle_profile_update_users_step form user None d Hin) as Hnone.
    split; [|split].
    + destruct (negb (is_admin d s)); [apply users_step_same; reflexivity|].
      destruct m; [apply users_step_same; reflexivity|].
      destruct (handle_profile_update form user None d) as [flashes d'].
      exact Hnone.
    + destruct (negb (User.role user =? "trainer"));
        [apply users_step_same; reflexivity|].
      destruct (trainer_by_email d (User.email user)) as [trainer|];
        [|apply users_step_same; reflexivity].
      destruct m; [apply users_step_same; reflexivity|].
      pose proof (handle_profile_update_users_step form user (Some trainer) d Hin)
        as Hsome.
      destruct (handle_profile_update form user (Some trainer) d) as [flashes d'].
      exact Hsome.
    + destruct (negb (User.role user =? "student"));
        [apply users_step_same; reflexivity|].
      destruct m; [apply users_step_same; reflexivity|].
      destruct (handle_profile_update form user None d) as [flashes d'].
      exact Hnone.
  - split; [|split]; try (apply users_step_same; reflexivity).
    destruct (negb (is_admin d s)); [|destruct m]; apply users_step_same; reflexivity.
Qed.

Lemma change_email_users :
  forall e user d, users (change_email e user d) = users (update_user d (set_email e user)).
Proof.
  intros e user d. unfold change_email.
  destruct (User.role (set_email e user) =? "trainer"); [|reflexivity].
  destruct (trainer_by_email _ _); reflexivity.
Qed.

Lemma update_security_users_step :
  forall current new_password new_email salt s d,
    users_step d (db_after (update_security current new_password new_email salt s d)).
Proof.
  intros. unfold update_security.
  destruct (current_user d s) as [user|] eqn:Ecur; [|apply users_step_same; reflexivity].
  pose proof (current_user_In d s user Ecur) as Hin.
  destruct (negb (check_password user current)); [apply users_step_same; reflexivity|].
  destruct (match new_password with
            | Some p => (truthy_str (Some p) && (len p <? 6)%Z)%bool
            | None => false
            end); [apply users_step_same; reflexivity|].
  assert (Hpair : exists user1 flashes1,
             match new_password with
             | Some p =>
                 if truthy_str (Some p)
                 then (set_password salt p user,
                       [("Password updated successfully.", "success")])
                 else (user, [])
             | None => (user, [])
             end = (user1, flashes1)
             /\ User.id user1 = User.id user /\ User.role user1 = User.role user).
  { destruct new_password as [p|]; [destruct (truthy_str (Some p))|];
      eexists; eexists; split; try reflexivity; split; reflexivity. }
  destruct Hpair as [user1 [flashes1 [-> [Hid Hrole]]]].
  assert (Hupd : forall d', users d' = users (update_user d user1) -> users_step d d').
  { intros d' Hd'. exact (users_step_update d d' user user1 Hin Hid Hrole Hd'). }
  destruct new_email as [e|]; [|apply Hupd; reflexivity].
  destruct (truthy_str (Some e) && negb (e =? User.email user))%bool;
    [|apply Hupd; reflexivity].
  destruct (find _ (users d)); [apply users_step_same; reflexivity|].
  apply (users_step_update d _ user (set_email e user1) Hin Hid Hrole).
  apply change_email_users.
Qed.

Lemma admin_change_password_users_step :
  forall m user_id pw salt s d,
    users_step d (db_after (admin_change_password m user_id pw salt s d)).
Proof.
  intros. unfold admin_change_password.
  destruct (negb (is_admin d s)); [apply users_step_same; reflexivity|].
  destruct (get_user d user_id) as [student|] eqn:Eu;
    [|apply users_step_same; reflexivity].
  destruct m; [apply users_step_same; reflexivity|].
  destruct (len pw <? 6)%Z; [apply users_step_same; reflexivity|].
  apply (users_step_update d _ student (set_password salt pw student));
    [eapply get_user_In; exact Eu | reflexivity | reflexivity | reflexivity].
Qed.

Lemma delete_student_users_step :
  forall user_id s d, users_step d (db_after (delete_student user_id s d)).
Proof.
  intros. unfold delete_student.
  destruct (negb (is_admin d s)); [apply users_step_same; reflexivity|].
  destruct (get_user d user_id) as [user|] eqn:Eu;
    [|apply users_step_same; reflexivity].
  destruct (User.role user =? "admin") eqn:Er; [apply users_step_same; reflexivity|].
  right. right. right. exists user.
  split; [eapply get_user_In; exact Eu|].
  split; [apply String.eqb_neq; exact Er | reflexivity].
Qed.

Lemma delete_trainer_users_step :
  forall trainer_id s d, users_step d (db_after (delete_trainer trainer_id s d)).
Proof.
  intros. unfold delete_trainer.
  destruct (negb (is_admin d s)); [apply users_step_same; reflexivity|].
  destruct (get_trainer d trainer_id) as [trainer|];
    [|apply users_step_same; reflexivity].
  cbv zeta. simpl users at 1.
  destruct (find (fun u => ((User.email u =? Trainer.email trainer)
                            && (User.role u =? "trainer"))%bool) (users d))
    as [u|] eqn:Eu; [|apply users_step_same; reflexivity].
  apply find_some in Eu. destruct Eu as [Hin Hp].
  apply andb_true_iff in Hp. destruct Hp as [_ Hrole]. apply String.eqb_eq in Hrole.
  right. right. right. exists u. split; [exact Hin|].
  split; [rewrite Hrole; discriminate | reflexivity].
Qed.

(** Every modelled request moves the user table by one of the four kinds. *)
Lemma handle_users_step :
  forall r s d, users_step d (db_after (handle r s d)).
Proof.
  intros r s d. destruct r; simpl handle.
  - apply register_users_step.
  - apply users_step_same. by_cases_on_handler.
  - apply users_step_same. unfold forgot_password.
    destruct m; [reflexivity|]. destruct (user_by_email d email) as [user|]; [|reflexivity].
    pose proof (generate_and_send_otp_codes hex now mail_ok (User.id user)
                                            (User.email user) d) as [_ [_ H]].
    destruct (generate_and_send_otp hex now mail_ok (User.id user) (User.email user) d)
      as [[flashes tok] d'].
    exact H.
  - apply reset_password_users_step.
  - apply users_step_same. by_cases_on_handler.
  - apply users_step_same. by_cases_on_handler.
  - apply users_step_same. by_cases_on_handler.
  - apply create_trainer_users_step.
  - apply users_step_same. by_cases_on_handler.
  - apply users_step_same. by_cases_on_handler.
  - apply users_step_same. by_cases_on_handler.
  - apply profile_users_step.
  - apply profile_users_step.
  - apply profile_users_step.
  - apply update_security_users_step.
  - apply admin_change_password_users_step.
  - apply users_step_same. by_cases_on_handler.
  - apply delete_student_users_step.
  - apply delete_trainer_users_step.
Qed.

Lemma step_keeps_admin :
  forall d d',
    step d d' ->
    user_keys_unique d -> (List.length (admins d) <= 1)%nat ->
    user_keys_unique d'
    /\ (List.length (admins d) <= List.length (admins d'))%nat
    /\ (List.length (admins d') <= 1)%nat.
Proof.
  intros d d' Hstep. apply users_step_invariant.
  destruct Hstep as [r s | d' Hu _ _ _ _].
  - apply handle_users_step.
  - apply users_step_same. exact Hu.
Qed.

Lemma reachable_admin_invariant :
  forall d, reachable d ->
    user_keys_unique d /\ (List.length (admins d) <= 1)%nat.
Proof.
  induction 1 as [|d d' _ [IH1 IH2] Hstep].
  - split; [constructor | simpl; lia].
  - destruct (step_keeps_admin d d' Hstep IH1 IH2) as [H1 [_ H2]]. auto.
Qed.


Lemma admin_exists_iff :
  forall d,
    (admins d = [] -> find (fun u => User.role u =? "admin") (users d) = None)
    /\ (admins d <> [] ->
        exists a, find (fun u => User.role u =? "admin") (users d) = Some a).
Proof.
  intros d. unfold admins. split.
  - intros Hnil. destruct (find _ (users d)) as [a|] eqn:E; [|reflexivity].
    destruct (find_some_filter_cons _ _ _ a E) as [rest Hrest].
    rewrite Hrest in Hnil. discriminate.
  - intros Hne. destruct (find _ (users d)) as [a|] eqn:E; [eauto|].
    exfalso. apply Hne. apply find_none_filter_nil. exact E.
Qed.

(** C7, as the code has it: the address is checked before the role.  With
    an address that is not registered yet, registering with role admin is
    refused with "An admin already exists" when there is an admin account
    and creates the admin account when there is none; with a registered
    address it is refused with "Email already registered" whatever the role.
    In every reachable store there is at most one admin account, and no step
    removes an admin account, so registration creates an admin at most
    once. *)
Theorem register_creates_at_most_one_admin :
  (forall d s name email password salt now,
      user_by_email d email = None ->
      let o := register POST name email password (Some "admin") salt now s d in
      (admins d <> [] -> o = (Redirect "register" [MSG_ADMIN_EXISTS], s, d))
      /\ (admins d = [] ->
          exists u,
            o = (Redirect "login" [MSG_ACCOUNT_CREATED], s,
                 set_users d (users d ++ [u]))
            /\ User.role u = "admin" /\ User.email u = email
            /\ User.name u = name
            /\ User.password_hash u = generate_password_hash salt password
            /\ admins (db_after o) = [u]))
  /\ (forall d s name email password role salt now taken,
         user_by_email d email = Some taken ->
         register POST name email password role salt now s d
         = (Redirect "register" [MSG_EMAIL_TAKEN], s, d))
  /\ (forall d, reachable d -> (List.length (admins d) <= 1)%nat)
  /\ (forall d d',
         reachable d -> step d d' ->
         (List.length (admins d) <= List.length (admins d'))%nat).
Proof.
  split; [|split; [|split]].
  - intros d s name email password salt now Hfree o.
    destruct (admin_exists_iff d) as [Hnone Hsome].
    split.
    + intros Hne. destruct (Hsome Hne) as [a Ha].
      unfold o, register. rewrite Hfree, Ha. reflexivity.
    + intros Hnil. unfold o, register. rewrite Hfree, (Hnone Hnil).
      simpl andb. cbv iota. eexists. split; [reflexivity|].
      repeat (split; [reflexivity|]).
      unfold db_after, admins in *. simpl. rewrite filter_app, Hnil. reflexivity.
  - intros d s name email password role salt now taken Htaken.
    unfold register. rewrite Htaken. reflexivity.
  - intros d Hreach. apply reachable_admin_invariant. exact Hreach.
  - intros d d' Hreach Hstep.
    destruct (reachable_admin_invariant d Hreach) as [H1 H2].
    destruct (step_keeps_admin d d' Hstep H1 H2) as [_ [H _]]. exact H.
Qed.


(** * Further properties of the routes *)

(** ** File names *)

Lemma rsplit_dot_last :
  forall stem ext,
    rsplit_dot ext = None -> rsplit_dot (stem ++ String "." ext) = Some ext.
Proof.
  intros stem ext Hext. induction stem as [|c stem IH]; simpl.
  - rewrite Hext. reflexivity.
  - rewrite IH. reflexivity.
Qed.

Lemma rsplit_dot_none_iff :
  forall name,
    rsplit_dot name = None <-> ~ In "."%char (list_ascii_of_string name).
Proof.
  induction name as [|c name IH]; simpl.
  - split; [intros _ [] | reflexivity].
  - destruct (rsplit_dot name) as [e|] eqn:E.
    + split; [discriminate|]. intros H. exfalso.
      assert (Hin : In "."%char (list_ascii_of_string name)).
      { destruct (in_dec ascii_dec "."%char (list_ascii_of_string name)) as [Hin|Hn];
          [exact Hin|]. apply IH in Hn. discriminate. }
      apply H. right. exact Hin.
    + destruct (Ascii.eqb c ".") eqn:Ec.
      * split; [discriminate|]. intros H. exfalso. apply H. left.
        apply Ascii.eqb_eq. exact Ec.
      * split; [|reflexivity]. intros _ [Hc | Hin].
        -- apply Ascii.eqb_neq in Ec. contradiction.
        -- destruct IH as [IH _]. exact (IH eq_refl Hin).
Qed.

Lemma lower_upper_ascii : forall c, lower_ascii (upper_ascii c) = lower_ascii c.
Proof.
  intros [[] [] [] [] [] [] [] []]; reflexivity.
Qed.

Lemma lower_upper : forall s, lower (upper s) = lower s.
Proof.
  induction s as [|c s IH]; simpl; [reflexivity|].
  rewrite lower_upper_ascii, IH. reflexivity.
Qed.

Lemma upper_ascii_dot :
  forall c, Ascii.eqb (upper_ascii c) "." = Ascii.eqb c ".".
Proof.
  intros [[] [] [] [] [] [] [] []]; reflexivity.
Qed.

Lemma rsplit_dot_upper_none :
  forall s, rsplit_dot s = None -> rsplit_dot (upper s) = None.
Proof.
  induction s as [|c s IH]; simpl; [reflexivity|].
  destruct (rsplit_dot s) as [e|]; [discriminate|].
  rewrite (IH eq_refl), upper_ascii_dot. destruct (Ascii.eqb c "."); [discriminate|].
  reflexivity.
Qed.

Lemma upper_ascii_is_ascii :
  forall c,
    Nat.ltb (nat_of_ascii c) 128 = true ->
    Nat.ltb (nat_of_ascii (upper_ascii c)) 128 = true.
Proof.
  intros [[] [] [] [] [] [] [] []]; intros H; try discriminate H; reflexivity.
Qed.

Lemma upper_is_ascii : forall s, is_ascii s = true -> is_ascii (upper s) = true.
Proof.
  induction s as [|c s IH]; [reflexivity|]. unfold is_ascii in *. simpl.
  intros H. apply andb_true_iff in H. destruct H as [Hc Hs].
  rewrite (upper_ascii_is_ascii c Hc). simpl. apply IH. exact Hs.
Qed.

(** X1: [allowed_file] decides by the text after the last dot, whatever its
    case.  For ASCII names: a name [stem.ext] whose [ext] has no dot is
    accepted exactly when the lower-cased [ext] is in [ALLOWED_EXTENSIONS],
    so earlier extensions of the name do not count and upper-casing the
    extension changes nothing; a name without a dot is refused. *)
Theorem allowed_file_decides_by_last_extension :
  (forall name,
      rsplit_dot name = None <-> ~ In "."%char (list_ascii_of_string name))
  /\ (forall stem ext,
         is_ascii stem = true -> is_ascii ext = true ->
         rsplit_dot ext = None ->
         allowed_file (stem ++ String "." ext)
         = existsb (String.eqb (lower ext)) ALLOWED_EXTENSIONS)
  /\ (forall stem ext,
         is_ascii stem = true -> is_ascii ext = true ->
         rsplit_dot ext = None ->
         is_ascii (upper ext) = true
         /\ allowed_file (stem ++ String "." (upper ext))
            = allowed_file (stem ++ String "." ext))
  /\ (forall name,
         is_ascii name = true -> rsplit_dot name = None ->
         allowed_file name = false).
Proof.
  split; [exact rsplit_dot_none_iff|].
  assert (Hlast : forall stem ext,
             rsplit_dot ext = None ->
             allowed_file (stem ++ String "." ext)
             = existsb (String.eqb (lower ext)) ALLOWED_EXTENSIONS).
  { intros stem ext Hext. unfold allowed_file.
    rewrite (rsplit_dot_last stem ext Hext). reflexivity. }
  split; [intros stem ext _ _; apply Hlast|]. split.
  - intros stem ext _ Hascii Hext. split; [apply upper_is_ascii; exact Hascii|].
    rewrite (Hlast stem (upper ext) (rsplit_dot_upper_none ext Hext)).
    rewrite (Hlast stem ext Hext), lower_upper. reflexivity.
  - intros name _ Hname. unfold allowed_file. rewrite Hname. reflexivity.
Qed.

(** ** Logging in *)

Lemma get_user_of_member :
  forall d u,
    user_keys_unique d -> In u (users d) -> get_user d (User.id u) = Some u.
Proof.
  intros d u Hnd Hin. unfold get_user.
  destruct (find (fun x => (User.id x =? User.id u)%Z) (users d)) as [x|] eqn:E.
  - apply find_some in E. destruct E as [Hx Hid]. apply Z.eqb_eq in Hid.
    f_equal. exact (unique_key_row User.t User.id (users d) x u Hnd Hx Hin Hid).
  - exfalso. pose proof (find_none _ _ E u Hin) as H. cbv beta in H.
    rewrite Z.eqb_refl in H. discriminate.
Qed.

Lemma current_user_of_session :
  forall d u s,
    user_keys_unique d -> In u (users d) -> User.id u <> 0 ->
    sess_user_id s = Some (User.id u) ->
    current_user d s = Some u.
Proof.
  intros d u s Hnd Hin Hnz Hs. unfold current_user. rewrite Hs. simpl.
  replace (User.id u =? 0)%Z with false by (symmetry; apply Z.eqb_neq; exact Hnz).
  simpl. apply get_user_of_member; assumption.
Qed.

(** X2: logging in never writes the store.  An unknown address and a wrong
    password get the very same answer, "Invalid credentials", with the
    session untouched; on the right password the session is bound to the
    account, which is then the current user of every later request. *)
Theorem login_binds_the_session :
  forall d s email password,
    let o := login POST email password s d in
    db_after o = d
    /\ (user_by_email d email = None
        \/ (exists u, user_by_email d email = Some u
                      /\ check_password u password = false) ->
        o = (Redirect "login" [("Invalid credentials", "danger")], s, d))
    /\ (forall u,
           user_by_email d email = Some u -> check_password u password = true ->
           o = (Redirect "dashboard" [("Logged in", "success")],
                mkSession (Some (User.id u)) (sess_reset_email s), d)
           /\ (user_keys_unique d -> User.id u <> 0 ->
               current_user d (session_after o) = Some u)).
Proof.
  intros d s email password o. unfold o, login. split; [|split].
  - destruct (user_by_email d email) as [u|]; [|reflexivity].
    destruct (check_password u password); reflexivity.
  - intros [Hnone | [u [Hu Hpw]]].
    + rewrite Hnone. reflexivity.
    + rewrite Hu, Hpw. reflexivity.
  - intros u Hu Hpw. rewrite Hu, Hpw. split; [reflexivity|].
    intros Hnd Hnz. apply current_user_of_session; try assumption.
    + eapply user_by_email_In. exact Hu.
    + reflexivity.
Qed.

Lemma next_id_positive :
  forall l : list Z, (forall x, In x l -> 0 < x) -> 0 < next_id l.
Proof.
  intros [|i rest] H; [reflexivity|].
  pose proof (next_id_fresh (i :: rest) i (or_introl eq_refl)) as Hlt.
  specialize (H i (or_introl eq_refl)). lia.
Qed.

Lemma get_user_new_row :
  forall (l : list User.t) (u : User.t),
    User.id u = next_id (map User.id l) ->
    find (fun x => (User.id x =? User.id u)%Z) (l ++ [u]) = Some u.
Proof.
  intros l u Hid. apply find_app_new; [|apply Z.eqb_refl].
  destruct (find (fun x => (User.id x =? User.id u)%Z) l) as [x|] eqn:E; [|reflexivity].
  apply find_some in E. destruct E as [Hin Hx]. apply Z.eqb_eq in Hx.
  exfalso. apply (next_id_not_in (map User.id l)). rewrite <- Hid, <- Hx.
  apply in_map. exact Hin.
Qed.

(** X3: an account that has just been registered can log in: with a free
    address, and a role other than admin unless there is no admin yet, the
    registration is followed by a successful login with the same address and
    password, and the session is then bound to the new account, which has
    the address and the role of the form (student when none was given). *)
Theorem register_then_login :
  forall d s name email password role salt now,
    user_by_email d email = None ->
    (role = Some "admin" -> admins d = []) ->
    check_password_hash (generate_password_hash salt password) password = true ->
    (forall u, In u (users d) -> 0 < User.id u) ->
    let o := register POST name email password role salt now s d in
    let o' := login POST email password (session_after o) (db_after o) in
    response o = Redirect "login" [MSG_ACCOUNT_CREATED]
    /\ response o' = Redirect "dashboard" [("Logged in", "success")]
    /\ db_after o' = db_after o
    /\ exists u,
         current_user (db_after o') (session_after o') = Some u
         /\ User.id u = next_id (map User.id (users d))
         /\ User.email u = email
         /\ User.role u = match role with Some r => r | None => "student" end.
Proof.
  intros d s name email password role salt now Hfree Hrole Hhash Hpos o o'.
  set (r := match role with Some r => r | None => "student" end).
  set (u := set_password salt password
              (User.mk (next_id (map User.id (users d))) name email "" r now
                       None None None None)).
  assert (Ho : o = (Redirect "login" [MSG_ACCOUNT_CREATED], s,
                    set_users d (users d ++ [u]))).
  { unfold o, register. rewrite Hfree. fold r.
    destruct (r =? "admin") eqn:Er; [|reflexivity].
    apply String.eqb_eq in Er.
    assert (Hadm : admins d = []).
    { apply Hrole. unfold r in Er. destruct role as [x|]; [congruence | discriminate]. }
    destruct (admin_exists_iff d) as [Hnone _]. rewrite (Hnone Hadm). reflexivity. }
  assert (Hu : user_by_email (db_after o) email = Some u).
  { rewrite Ho. unfold user_by_email, db_after. simpl.
    apply find_app_new; [exact Hfree | apply String.eqb_refl]. }
  assert (Ho' : o' = (Redirect "dashboard" [("Logged in", "success")],
                      mkSession (Some (User.id u)) (sess_reset_email (session_after o)),
                      db_after o)).
  { unfold o', login. rewrite Hu. unfold check_password. simpl User.password_hash.
    rewrite Hhash. reflexivity. }
  split; [rewrite Ho; reflexivity|]. split; [rewrite Ho'; reflexivity|].
  split; [rewrite Ho'; reflexivity|].
  exists u. split; [|repeat split].
  rewrite Ho'. unfold db_after, session_after. simpl fst. simpl snd.
  unfold current_user. simpl sess_user_id. simpl truthy_int.
  assert (Hnz : 0 < next_id (map User.id (users d))).
  { apply next_id_positive. intros x Hx. apply in_map_iff in Hx.
    destruct Hx as [y [<- Hy]]. apply Hpos. exact Hy. }
  assert (E : (next_id (map User.id (users d)) =? 0)%Z = false)
    by (apply Z.eqb_neq; lia).
  rewrite Ho. unfold get_user, db_after. simpl. rewrite E. simpl.
  apply (get_user_new_row (users d) u). reflexivity.
Qed.


(** ** Passwords *)

(** X4: after a password reset the new password logs in: under the
    conditions of a successful reset (pending address, matching unexpired
    code, at least 6 characters) a login with the address and the new
    password succeeds from any session and binds it to the same account. *)
Theorem reset_password_then_login :
  forall d s email user token_field new_password salt now e,
    sess_reset_email s = Some email -> email <> "" ->
    user_by_email d email = Some user ->
    otp_lookup d (User.id user) (upper token_field) = Some e ->
    now <= OTP_Token.expires_at e ->
    6 <= len new_password ->
    check_password_hash (generate_password_hash salt new_password) new_password = true ->
    let o := reset_password POST token_field new_password salt now s d in
    response o = Redirect "login" [MSG_RESET_DONE]
    /\ forall s',
         login POST email new_password s' (db_after o)
         = (Redirect "dashboard" [("Logged in", "success")],
            mkSession (Some (User.id user)) (sess_reset_email s'), db_after o).
Proof.
  intros d s email user tok pw salt now e Hs He Hu Hlook Hexp Hlen Hhash o.
  assert (Ho : o = _) by exact (reset_password_post tok pw salt now s d email user Hs He Hu).
  rewrite Hlook in Ho.
  replace (OTP_Token.expires_at e <? now)%Z with false in Ho
    by (symmetry; apply Z.ltb_ge; lia).
  replace (len pw <? 6)%Z with false in Ho by (symmetry; apply Z.ltb_ge; lia).
  clearbody o. subst o. split; [reflexivity|].
  intros s'. unfold login, db_after. simpl snd.
  assert (Hu' : forall l,
             user_by_email (set_otp_tokens (update_user d (set_password salt pw user)) l)
                           email
             = Some (set_password salt pw user)).
  { intro l.
    exact (user_by_email_update_user d email user (set_password salt pw user)
             Hu (find_some_email d email user Hu) eq_refl). }
  rewrite Hu'. unfold check_password. simpl User.password_hash. rewrite Hhash.
  reflexivity.
Qed.

(** X5: the admin can set the password of any account, whatever its role: a
    password shorter than 6 characters is refused and the form is shown
    again with nothing changed; otherwise the account row carries the hash
    of the new password and nothing else of it changes, and the account
    logs in with the new password. *)
Theorem admin_change_password_sets_the_credential :
  forall d s user_id account new_password salt,
    is_admin d s = true ->
    get_user d user_id = Some account ->
    let o := admin_change_password POST user_id new_password salt s d in
    (len new_password < 6 ->
     o = (Render "change_password.html"
            [("Password must be at least 6 characters long.", "danger")], s, d))
    /\ (6 <= len new_password ->
        (exists flashes, response o = Redirect "view_all_students" flashes)
        /\ db_after o = update_user d (set_password salt new_password account)
        /\ get_user (db_after o) user_id = Some (set_password salt new_password account)
        /\ (user_by_email d (User.email account) = Some account ->
            check_password_hash (generate_password_hash salt new_password)
                                new_password = true ->
            forall s',
              response (login POST (User.email account) new_password s' (db_after o))
              = Redirect "dashboard" [("Logged in", "success")])).
Proof.
  intros d s user_id account pw salt Hadmin Hget o.
  unfold o, admin_change_password. rewrite Hadmin, Hget. simpl negb. cbv iota.
  split.
  - intros Hlen. replace (len pw <? 6)%Z with true by (symmetry; apply Z.ltb_lt; lia).
    reflexivity.
  - intros Hlen. replace (len pw <? 6)%Z with false by (symmetry; apply Z.ltb_ge; lia).
    split; [eexists; reflexivity|]. split; [reflexivity|]. split.
    + unfold db_after. simpl snd.
      apply (get_user_update_user d user_id account); [exact Hget|].
      simpl. pose proof Hget as H. unfold get_user in H. apply find_some in H.
      destruct H as [_ H]. apply Z.eqb_eq in H. exact H.
    + intros Hmail Hhash s'. unfold login, db_after. simpl snd.
      rewrite (user_by_email_update_user d (User.email account) account
                 (set_password salt pw account) Hmail eq_refl eq_refl).
      unfold check_password. simpl User.password_hash. rewrite Hhash. reflexivity.
Qed.

(** X6: the security page changes nothing unless the current password is
    right and the new one, if given, has at least 6 characters -- also when
    a good new address came with the bad password.  When a good new password
    comes with an address that another account uses, the answer flashes
    "Password updated successfully." followed by the address error, and the
    store is left as it was: the new password is not kept.  With no address
    change a good new password is kept. *)
Theorem update_security_all_or_nothing :
  forall d s user current new_password new_email salt,
    current_user d s = Some user ->
    let o := update_security current new_password new_email salt s d in
    (check_password user current = false ->
     o = (Redirect "profile" [("Incorrect current password.", "danger")], s, d))
    /\ (check_password user current = true ->
        forall p, new_password = Some p -> p <> "" -> len p < 6 ->
        o = (Redirect "profile" [MSG_WEAK_PASSWORD], s, d))
    /\ (check_password user current = true ->
        forall p e other,
          new_password = Some p -> 6 <= len p ->
          new_email = Some e -> e <> "" -> e <> User.email user ->
          find (fun u => ((User.email u =? e)
                          && negb (User.id u =? User.id user)%Z)%bool) (users d)
          = Some other ->
          o = (Redirect "profile"
                 [("Password updated successfully.", "success");
                  ("Email address is already in use by another account.", "danger")],
               s, d))
    /\ (check_password user current = true ->
        forall p,
          new_password = Some p -> 6 <= len p ->
          (new_email = None \/ new_email = Some "" \/ new_email = Some (User.email user)) ->
          o = (Redirect "profile" [("Password updated successfully.", "success")], s,
               update_user d (set_password salt p user))).
Proof.
  intros d s user current new_password new_email salt Hcur o.
  unfold o, update_security. rewrite Hcur.
  split; [|split; [|split]].
  - intros ->. reflexivity.
  - intros -> p -> Hp Hlen. simpl negb. cbv iota.
    rewrite (truthy_nonempty p Hp).
    replace (len p <? 6)%Z with true by (symmetry; apply Z.ltb_lt; lia).
    reflexivity.
  - intros -> p e other -> Hlen -> He Hne Hother. simpl negb. cbv iota.
    assert (Hp : p <> "") by (intros ->; unfold len in Hlen; simpl in Hlen; lia).
    rewrite (truthy_nonempty p Hp), (truthy_nonempty e He).
    replace (len p <? 6)%Z with false by (symmetry; apply Z.ltb_ge; lia).
    apply String.eqb_neq in Hne. rewrite Hne, Hother. reflexivity.
  - intros -> p -> Hlen Hmail. simpl negb. cbv iota.
    assert (Hp : p <> "") by (intros ->; unfold len in Hlen; simpl in Hlen; lia).
    rewrite (truthy_nonempty p Hp).
    replace (len p <? 6)%Z with false by (symmetry; apply Z.ltb_ge; lia).
    simpl andb. cbv iota.
    destruct Hmail as [-> | [-> | ->]]; [reflexivity | reflexivity |].
    rewrite String.eqb_refl, andb_false_r. reflexivity.
Qed.

(** ** Leaving and asking for a code *)

(** X7: logging out unbinds the session and writes nothing: whatever the
    store is afterwards, the session has no current user, so the dashboard
    sends it to the login page, the progress route answers Unauthorized and
    it is neither admin nor trainer.  The pending reset address survives the
    logout. *)
Theorem logout_ends_the_session :
  forall d s,
    let o := logout s d in
    db_after o = d
    /\ sess_reset_email (session_after o) = sess_reset_email s
    /\ forall d',
         current_user d' (session_after o) = None
         /\ is_admin d' (session_after o) = false
         /\ is_trainer d' (session_after o) = false
         /\ dashboard (session_after o) d'
            = (Redirect "login" [("Login first", "danger")], session_after o, d')
         /\ (forall rid now,
                update_progress rid now (session_after o) d'
                = (Json "error" "Unauthorized" 401, session_after o, d')).
Proof.
  intros d s o. split; [reflexivity|]. split; [reflexivity|].
  intros d'. repeat split.
Qed.

(** X8: asking for a recovery code.  For an address without account nothing
    is stored and the session is not touched, and the answer (a redirect to
    the login page) differs from the answer for a registered address (a
    redirect to the reset page, with the address kept in the session).  For
    a registered address the stored code does not depend on whether the
    mail went out; when it did not, the code itself is among the flashed
    messages. *)
Theorem forgot_password_answers :
  forall d s email hex now,
    (user_by_email d email = None ->
     forall ok,
       forgot_password POST email hex now ok s d
       = (Redirect "login"
            [("If an account exists, a recovery email has been sent.", "info")],
          s, d))
    /\ (forall user,
           user_by_email d email = Some user ->
           (forall ok,
               exists flashes,
                 response (forgot_password POST email hex now ok s d)
                 = Redirect "reset_password" flashes
                 /\ session_after (forgot_password POST email hex now ok s d)
                    = mkSession (sess_user_id s) (Some email))
           /\ db_after (forgot_password POST email hex now true s d)
              = db_after (forgot_password POST email hex now false s d)
           /\ exists flashes,
                response (forgot_password POST email hex now false s d)
                = Redirect "reset_password" flashes
                /\ In ("FOR DEV TESTING: Your OTP is " ++ upper hex, "info") flashes).
Proof.
  intros d s email hex now. split.
  - intros Hnone ok. unfold forgot_password. rewrite Hnone. reflexivity.
  - intros user Hu. unfold forgot_password. rewrite Hu. split; [|split].
    + intros ok. unfold generate_and_send_otp. destruct ok; eexists; split; reflexivity.
    + reflexivity.
    + eexists. split; [reflexivity|]. right. left. reflexivity.
Qed.


(** ** Who may do what *)

Lemma is_admin_false_iff :
  forall d s,
    is_admin d s = false
    <-> current_user d s = None
        \/ exists u, current_user d s = Some u /\ User.role u <> "admin".
Proof.
  intros d s. unfold is_admin. destruct (current_user d s) as [u|].
  - split.
    + intros H. right. exists u. split; [reflexivity|]. apply String.eqb_neq. exact H.
    + intros [H | [u' [Hu Hrole]]]; [discriminate|]. injection Hu as <-.
      apply String.eqb_neq. exact Hrole.
  - split; [intros _; left; reflexivity | reflexivity].
Qed.

(** X9: the management routes are closed to everyone but the admin: for a
    session that is anonymous, stale, or bound to an account whose role is
    not admin, each of them answers 403 and leaves session and store as they
    were, whatever else the request carries. *)
Theorem management_routes_need_the_admin :
  forall d s,
    (current_user d s = None
     \/ exists u, current_user d s = Some u /\ User.role u <> "admin") ->
    admin_dashboard s d = (Abort 403 [], s, d)
    /\ view_all_batches s d = (Abort 403 [], s, d)
    /\ view_all_students s d = (Abort 403 [], s, d)
    /\ view_all_trainers s d = (Abort 403 [], s, d)
    /\ (forall name description now,
           create_batch name description now s d = (Abort 403 [], s, d))
    /\ (forall batch_id, delete_batch batch_id s d = (Abort 403 [], s, d))
    /\ (forall m batch_id name description,
           edit_batch m batch_id name description s d = (Abort 403 [], s, d))
    /\ (forall m batch_id trainer_id,
           change_batch_trainer m batch_id trainer_id s d = (Abort 403 [], s, d))
    /\ (forall user_id_str batch_id_str now,
           enroll_student user_id_str batch_id_str now s d = (Abort 403 [], s, d))
    /\ (forall name email expertise salt now,
           create_trainer name email expertise salt now s d = (Abort 403 [], s, d))
    /\ (forall user_id, view_student_batches user_id s d = (Abort 403 [], s, d))
    /\ (forall m form, admin_profile m form s d = (Abort 403 [], s, d))
    /\ (forall m user_id new_password salt,
           admin_change_password m user_id new_password salt s d
           = (Abort 403 [], s, d))
    /\ (forall user_id, delete_student user_id s d = (Abort 403 [], s, d))
    /\ (forall trainer_id, delete_trainer trainer_id s d = (Abort 403 [], s, d)).
Proof.
  intros d s Hnot. apply is_admin_false_iff in Hnot.
  unfold admin_dashboard, view_all_batches, view_all_students, view_all_trainers,
    admin_page, create_batch, delete_batch, edit_batch, change_batch_trainer,
    enroll_student, create_trainer, view_student_batches, admin_profile,
    admin_change_password, delete_student, delete_trainer.
  rewrite Hnot. simpl negb. cbv iota. repeat split.
Qed.

Lemma current_user_inv :
  forall d s u,
    current_user d s = Some u ->
    exists uid,
      sess_user_id s = Some uid /\ truthy_int (Some uid) = true
      /\ get_user d uid = Some u /\ User.id u = uid.
Proof.
  intros d s u H. unfold current_user in H.
  destruct (sess_user_id s) as [uid|]; [|discriminate].
  destruct (truthy_int (Some uid)) eqn:E; [|discriminate].
  exists uid. repeat split; try assumption.
  unfold get_user in H. apply find_some in H. destruct H as [_ H].
  apply Z.eqb_eq in H. exact H.
Qed.

(** The batch page of a logged-in account, with the tests of [view_batch]
    decided by the role, the enrollment and the address match. *)
Lemma view_batch_logged_in :
  forall d s batch_id batch user,
    get_batch d batch_id = Some batch ->
    current_user d s = Some user ->
    let enrolled := is_enrolled d (User.id user) batch_id in
    let assigned :=
      match batch_trainer d batch with
      | Some t => Trainer.email t =? User.email user
      | None => false
      end in
    view_batch batch_id s d
    = if ((User.role user =? "student") && negb enrolled)%bool then
        ViewResponse (Redirect "dashboard"
                        [("You are not enrolled in this batch.", "danger")])
      else if ((User.role user =? "trainer") && negb assigned)%bool then
        ViewResponse (Redirect "dashboard"
                        [("You are not assigned to this batch.", "danger")])
      else if negb (((User.role user =? "trainer") && assigned)
                    || enrolled || (User.role user =? "admin"))%bool then
        ViewResponse (Redirect "dashboard"
                        [("You are not authorized to view this content.", "danger")])
      else
        ViewBatch batch
          (mkBatchPage (batch_recordings d batch)
             (if User.role user =? "student" then
                map (fun r => (Recording.id r, recording_done d (User.id user) r))
                    (batch_recordings d batch)
              else [])
             ((User.role user =? "trainer") && assigned)%bool).
Proof.
  intros d s batch_id batch user Hb Hcur enrolled assigned.
  destruct (current_user_inv d s user Hcur) as [uid [Hs [Htruthy [Hget Hid]]]].
  unfold view_batch. rewrite Hb, Hs, Htruthy, Hget. simpl negb. cbv iota.
  unfold is_assigned_trainer, is_admin, is_trainer. rewrite Hcur.
  fold enrolled.
  destruct (batch_trainer d batch) as [t|]; subst assigned; cbv beta iota;
    destruct (User.role user =? "student") eqn:Es;
    destruct (User.role user =? "trainer") eqn:Et;
    destruct (User.role user =? "admin") eqn:Ea;
    try (apply String.eqb_eq in Es; apply String.eqb_eq in Ea; congruence);
    try (apply String.eqb_eq in Et; apply String.eqb_eq in Ea; congruence);
    destruct enrolled; try destruct (Trainer.email t =? User.email user);
    reflexivity.
Qed.

(** X10: who gets the content of a batch.  Without a session the public page
    is shown.  The admin always gets the batch page; a student gets it
    exactly when enrolled, a trainer exactly when the batch's trainer row
    carries the trainer's address, an account of any other role exactly when
    enrolled.  The page carries the upload and delete controls exactly for
    the accounts the upload route itself lets through. *)
Theorem view_batch_access :
  forall d s batch_id batch,
    get_batch d batch_id = Some batch ->
    (sess_user_id s = None -> view_batch batch_id s d = ViewPublic batch)
    /\ forall user,
         current_user d s = Some user ->
         let shown := exists page, view_batch batch_id s d = ViewBatch batch page in
         (User.role user = "admin" -> shown)
         /\ (User.role user = "student" ->
             (shown <-> is_enrolled d (User.id user) batch_id = true))
         /\ (User.role user = "trainer" -> (shown <-> assigned_to d batch user))
         /\ (User.role user <> "admin" -> User.role user <> "student" ->
             User.role user <> "trainer" ->
             (shown <-> is_enrolled d (User.id user) batch_id = true))
         /\ (forall page,
                view_batch batch_id s d = ViewBatch batch page ->
                page_recordings page = batch_recordings d batch
                /\ (can_upload_delete page = true
                    <-> forall file notes now,
                          response (upload batch_id file notes now s d)
                          <> Abort 403 [MSG_UPLOAD_DENIED])).
Proof.
  intros d s batch_id batch Hb. split.
  - intros Hs. unfold view_batch. rewrite Hb, Hs. reflexivity.
  - intros user Hcur shown. subst shown.
    rewrite (view_batch_logged_in d s batch_id batch user Hb Hcur).
    assert (Hassigned : assigned_to d batch user
                        <-> match batch_trainer d batch with
                            | Some t => Trainer.email t =? User.email user
                            | None => false
                            end = true).
    { unfold assigned_to. destruct (batch_trainer d batch) as [t|].
      - split.
        + intros [t' [Ht Hmail]]. injection Ht as <-. apply String.eqb_eq. exact Hmail.
        + intros H. exists t. split; [reflexivity|]. apply String.eqb_eq. exact H.
      - split; [intros [t' [Ht _]]; discriminate | discriminate]. }
    set (assigned := match batch_trainer d batch with
                     | Some t => Trainer.email t =? User.email user
                     | None => false
                     end) in *.
    set (enrolled := is_enrolled d (User.id user) batch_id).
    split; [|split; [|split; [|split]]].
    + intros Hrole. rewrite Hrole. simpl. rewrite orb_true_r. simpl. eauto.
    + intros Hrole. rewrite Hrole. simpl.
      destruct enrolled; simpl.
      * split; [reflexivity | eauto].
      * split; [intros [page H]; discriminate | discriminate].
    + intros Hrole. rewrite Hrole, Hassigned. simpl.
      destruct assigned; simpl.
      * split; [reflexivity | eauto].
      * split; [intros [page H]; discriminate | discriminate].
    + intros Ha Hst Ht.
      apply String.eqb_neq in Ha. apply String.eqb_neq in Hst.
      apply String.eqb_neq in Ht. rewrite Ha, Hst, Ht. simpl.
      destruct enrolled; simpl.
      * split; [reflexivity | eauto].
      * split; [intros [page H]; discriminate | discriminate].
    + intros page Hpage.
      assert (Hup : forall file notes now,
                 response (upload batch_id file notes now s d)
                 <> Abort 403 [MSG_UPLOAD_DENIED]
                 <-> ((User.role user =? "trainer") && assigned)%bool = true).
      { intros file notes now. unfold upload. rewrite Hb.
        unfold is_assigned_trainer, is_trainer. rewrite Hcur. fold assigned.
        destruct (batch_trainer d batch) as [t|] eqn:Ebt; subst assigned;
          destruct (User.role user =? "trainer"); simpl;
          try destruct (Trainer.email t =? User.email user); simpl;
          try (split; [intros H; exfalso; apply H; reflexivity | discriminate]);
          (split; [intros _; reflexivity|]; intros _;
           destruct file as [[file_name content]|]; [|discriminate];
           match goal with
           | |- context [if ?c then _ else _] => destruct c
           end; discriminate). }
      destruct ((User.role user =? "student") && negb enrolled)%bool; [discriminate|].
      destruct ((User.role user =? "trainer") && negb assigned)%bool; [discriminate|].
      destruct (negb (((User.role user =? "trainer") && assigned)
                      || enrolled || (User.role user =? "admin")))%bool;
        [discriminate|].
      injection Hpage as <-. simpl. split; [reflexivity|]. split.
      * intros H file notes now. apply Hup. exact H.
      * intros H. apply (Hup None None 0). apply H.
Qed.


(** X11: the enrollment list of a batch is open to the admin and to every
    trainer, assigned to the batch or not: a trainer whom the batch page
    turns away with "not assigned" is still shown the list of its students.
    Every other account gets 403. *)
Theorem view_batch_enrollments_open_to_any_trainer :
  forall d s batch_id batch user,
    current_user d s = Some user ->
    get_batch d batch_id = Some batch ->
    (forall e, In e (enrollments d) ->
               Enrollment.batch_id e = Some (Batch.id batch) ->
               enrollment_user d e <> None) ->
    (User.role user = "admin" \/ User.role user = "trainer" ->
     view_batch_enrollments batch_id s d
     = (Render "batch_enrollments.html" [], s, d))
    /\ (User.role user = "trainer" -> ~ assigned_to d batch user ->
        view_batch batch_id s d
        = ViewResponse (Redirect "dashboard"
                          [("You are not assigned to this batch.", "danger")])
        /\ view_batch_enrollments batch_id s d
           = (Render "batch_enrollments.html" [], s, d))
    /\ (User.role user <> "admin" -> User.role user <> "trainer" ->
        view_batch_enrollments batch_id s d = (Abort 403 [], s, d)).
Proof.
  intros d s batch_id batch user Hcur Hb Husers.
  assert (Hlist : User.role user = "admin" \/ User.role user = "trainer" ->
                  view_batch_enrollments batch_id s d
                  = (Render "batch_enrollments.html" [], s, d)).
  { intros Hrole. unfold view_batch_enrollments, is_admin, is_trainer.
    rewrite Hcur, Hb.
    assert (E : ((User.role user =? "admin") || (User.role user =? "trainer"))%bool
                = true).
    { destruct Hrole as [H | H]; rewrite H; reflexivity. }
    rewrite E. simpl negb. cbv iota.
    match goal with
    | |- (if ?c then _ else _) = _ => assert (Hall : c = true)
    end.
    { apply forallb_forall. intros e He. apply filter_In in He.
      destruct He as [He Hbid].
      apply option_Z_eqb_eq in Hbid.
      specialize (Husers e He Hbid).
      destruct (enrollment_user d e); [reflexivity | congruence]. }
    rewrite Hall. reflexivity. }
  split; [exact Hlist|]. split.
  - intros Hrole Hnot. split; [|apply Hlist; right; exact Hrole].
    rewrite (view_batch_logged_in d s batch_id batch user Hb Hcur).
    rewrite Hrole. simpl.
    assert (E : match batch_trainer d batch with
                | Some t => Trainer.email t =? User.email user
                | None => false
                end = false).
    { destruct (batch_trainer d batch) as [t|] eqn:Et; [|reflexivity].
      apply String.eqb_neq. intros Hmail. apply Hnot. exists t.
      split; [exact Et | exact Hmail]. }
    rewrite E. reflexivity.
  - intros Ha Ht. unfold view_batch_enrollments, is_admin, is_trainer.
    rewrite Hcur. apply String.eqb_neq in Ha. apply String.eqb_neq in Ht.
    rewrite Ha, Ht. reflexivity.
Qed.

(** ** The batch table *)

Lemma NoDup_map_In_inj :
  forall (A B : Type) (f : A -> B) (l : list A) (x y : A),
    NoDup (map f l) -> In x l -> In y l -> f x = f y -> x = y.
Proof.
  intros A B f l x y. induction l as [|a l IH]; intros Hnd Hx Hy Hf; [contradiction|].
  simpl in Hnd. inversion Hnd as [|? ? Hnotin Hnd']; subst.
  destruct Hx as [-> | Hx], Hy as [-> | Hy].
  - reflexivity.
  - exfalso. apply Hnotin. rewrite Hf. apply in_map. exact Hy.
  - exfalso. apply Hnotin. rewrite <- Hf. apply in_map. exact Hx.
  - apply IH; assumption.
Qed.

Lemma NoDup_snoc_any :
  forall (A : Type) (l : list A) (x : A),
    NoDup l -> ~ In x l -> NoDup (l ++ [x]).
Proof.
  intros A l x Hnd Hx. induction l as [|a l IH]; simpl.
  - constructor; [intros [] | constructor].
  - inversion Hnd as [|? ? Ha Hl]; subst. constructor.
    + intros Hin. apply in_app_or in Hin. destruct Hin as [Hin | [-> | []]].
      * apply Ha. exact Hin.
      * apply Hx. left. reflexivity.
    + apply IH; [exact Hl|]. intros Hin. apply Hx. right. exact Hin.
Qed.

Lemma get_batch_In :
  forall d bid b, get_batch d bid = Some b -> In b (batches d) /\ Batch.id b = bid.
Proof.
  intros d bid b H. unfold get_batch in H. apply find_some in H.
  destruct H as [Hin Hid]. apply Z.eqb_eq in Hid. split; assumption.
Qed.

Lemma update_batch_keys :
  forall d b,
    map Batch.id (batches (update_batch d b)) = map Batch.id (batches d).
Proof.
  intros d b. unfold update_batch. simpl. rewrite map_map. apply map_ext.
  intros x. destruct (Batch.id x =? Batch.id b)%Z eqn:E; [|reflexivity].
  apply Z.eqb_eq in E. symmetry. exact E.
Qed.

(** Rewriting the row of one key to a name no other row carries keeps the
    names apart. *)
Lemma update_batch_names :
  forall (l : list Batch.t) (b' : Batch.t),
    NoDup (map Batch.id l) -> NoDup (map Batch.name l) ->
    (forall x, In x l -> Batch.name x = Batch.name b' -> Batch.id x = Batch.id b') ->
    NoDup (map Batch.name
             (map (fun b => if (Batch.id b =? Batch.id b')%Z then b' else b) l)).
Proof.
  intros l b'. induction l as [|x l IH]; intros Hids Hnames Hother; [constructor|].
  simpl in Hids, Hnames.
  inversion Hids as [|? ? Hidx Hids']; subst.
  inversion Hnames as [|? ? Hnamex Hnames']; subst.
  simpl. constructor.
  - intros Hin. apply in_map_iff in Hin. destruct Hin as [y' [Hname Hy']].
    apply in_map_iff in Hy'. destruct Hy' as [y [Hy' Hy]]. subst y'.
    destruct (Batch.id x =? Batch.id b')%Z eqn:Ex;
      destruct (Batch.id y =? Batch.id b')%Z eqn:Ey.
    + apply Z.eqb_eq in Ex. apply Z.eqb_eq in Ey.
      apply Hidx. rewrite Ex, <- Ey. apply in_map. exact Hy.
    + apply Z.eqb_neq in Ey. apply Ey. apply Hother; [right; exact Hy | exact Hname].
    + apply Z.eqb_neq in Ex. apply Ex.
      apply Hother; [left; reflexivity | symmetry; exact Hname].
    + apply Hnamex. rewrite <- Hname. apply in_map. exact Hy.
  - apply IH; try assumption. intros y Hy. apply Hother. right. exact Hy.
Qed.

(** X12: the batch table keeps its keys and its names unique under every
    route that writes it, so the unique constraint on [Batch.name] is never
    hit: [create_batch] and [edit_batch] refuse a name another batch
    carries, leaving the store as it was, and [delete_batch] and
    [change_batch_trainer] write no name. *)
Theorem batch_names_stay_unique :
  forall d s,
    batch_keys_unique d -> batch_names_unique d ->
    (forall name description now,
        let o := create_batch name description now s d in
        batch_keys_unique (db_after o) /\ batch_names_unique (db_after o)
        /\ (In name (map Batch.name (batches d)) -> db_after o = d))
    /\ (forall m batch_id name description,
           let o := edit_batch m batch_id name description s d in
           batch_keys_unique (db_after o) /\ batch_names_unique (db_after o)
           /\ ((exists b, In b (batches d) /\ Batch.name b = name
                          /\ Batch.id b <> batch_id) ->
               db_after o = d))
    /\ (forall batch_id,
           let o := delete_batch batch_id s d in
           batch_keys_unique (db_after o) /\ batch_names_unique (db_after o))
    /\ (forall m batch_id trainer_id,
           let o := change_batch_trainer m batch_id trainer_id s d in
           batch_keys_unique (db_after o) /\ batch_names_unique (db_after o)).
Proof.
  intros d s Hkeys Hnames.
  assert (Hset : forall batch tid,
             In batch (batches d) ->
             batch_keys_unique (update_batch d (set_batch_trainer tid batch))
             /\ batch_names_unique (update_batch d (set_batch_trainer tid batch))).
  { intros batch tid Hin. split.
    - unfold batch_keys_unique. rewrite update_batch_keys. exact Hkeys.
    - refine (update_batch_names (batches d) (set_batch_trainer tid batch)
                Hkeys Hnames _).
      intros x Hx Hname. simpl in *.
      f_equal. apply (NoDup_map_In_inj _ _ Batch.name (batches d)); assumption. }
  split; [|split; [|split]].
  - intros name description now o. subst o. unfold create_batch.
    destruct (negb (is_admin d s)); [repeat split; assumption|].
    destruct (batch_by_name d name) as [b|] eqn:Eb.
    + repeat split; assumption.
    + unfold batch_by_name in Eb. simpl db_after. split; [|split].
      * unfold batch_keys_unique. simpl. rewrite map_app. simpl.
        apply NoDup_snoc; [exact Hkeys | apply next_id_not_in].
      * unfold batch_names_unique. simpl. rewrite map_app. simpl.
        apply NoDup_snoc_any; [exact Hnames|]. intros Hn.
        apply in_map_iff in Hn. destruct Hn as [b [Hname Hb]].
        pose proof (find_none _ _ Eb b Hb) as Hno. simpl in Hno.
        rewrite Hname, String.eqb_refl in Hno. discriminate.
      * intros Hin. exfalso.
        apply in_map_iff in Hin. destruct Hin as [b [Hname Hb]].
        pose proof (find_none _ _ Eb b Hb) as Hno. simpl in Hno.
        rewrite Hname, String.eqb_refl in Hno. discriminate.
  - intros m batch_id name description o. subst o. unfold edit_batch.
    destruct (negb (is_admin d s)); [repeat split; assumption|].
    destruct (get_batch d batch_id) as [batch|] eqn:Eb; [|repeat split; assumption].
    destruct (get_batch_In d batch_id batch Eb) as [Hin Hid].
    destruct m; [repeat split; assumption|].
    match goal with
    | |- context [find ?p (batches d)] => destruct (find p (batches d)) eqn:Ef
    end; [repeat split; assumption|].
    simpl db_after. split; [|split].
    + unfold batch_keys_unique. rewrite update_batch_keys. exact Hkeys.
    + refine (update_batch_names (batches d) _ Hkeys Hnames _).
      intros x Hx Hname. simpl in *.
      pose proof (find_none _ _ Ef x Hx) as Hno. simpl in Hno.
      rewrite Hname, String.eqb_refl in Hno. simpl in Hno.
      apply negb_false_iff in Hno. apply Z.eqb_eq in Hno. exact Hno.
    + intros [b [Hb [Hname Hne]]]. exfalso.
      pose proof (find_none _ _ Ef b Hb) as Hno. simpl in Hno.
      rewrite Hname, String.eqb_refl in Hno. simpl in Hno.
      apply negb_false_iff in Hno. apply Z.eqb_eq in Hno. congruence.
  - intros batch_id o. subst o. unfold delete_batch.
    destruct (negb (is_admin d s)); [split; assumption|].
    destruct (get_batch d batch_id) as [b|]; [|split; assumption].
    simpl db_after. unfold batch_keys_unique, batch_names_unique, delete_batch_rows.
    simpl batches. split.
    + apply NoDup_map_filter. exact Hkeys.
    + unfold batch_names_unique in Hnames. clear - Hnames.
      induction (batches d) as [|x l IH]; [constructor|].
      simpl in Hnames. inversion Hnames as [|? ? Hx Hl]; subst.
      simpl. destruct (negb (Batch.id x =? Batch.id b)%Z); [|apply IH; exact Hl].
      simpl. constructor; [|apply IH; exact Hl].
      intros Hin. apply Hx. apply in_map_iff in Hin.
      destruct Hin as [y [Hname Hy]]. apply filter_In in Hy.
      rewrite <- Hname. apply in_map. apply Hy.
  - intros m batch_id trainer_id o. subst o. unfold change_batch_trainer.
    destruct (negb (is_admin d s)); [split; assumption|].
    destruct (get_batch d batch_id) as [batch|] eqn:Eb; [|split; assumption].
    destruct (get_batch_In d batch_id batch Eb) as [Hin Hid].
    destruct m; [split; assumption|].
    repeat break_match; simpl db_after;
      first [split; assumption | apply Hset; exact Hin].
Qed.


Lemma find_filter_negb :
  forall (A : Type) (p : A -> bool) (l : list A),
    find p (filter (fun x => negb (p x)) l) = None.
Proof.
  intros A p l. induction l as [|x l IH]; [reflexivity|].
  simpl. destruct (p x) eqn:E; simpl; [exact IH|]. rewrite E. exact IH.
Qed.

Lemma find_filter_keep :
  forall (A : Type) (p q : A -> bool) (l : list A) (x : A),
    find p l = Some x -> q x = true -> find p (filter q l) = Some x.
Proof.
  intros A p q l x. induction l as [|a l IH]; intros Hf Hq; [discriminate|].
  simpl in Hf. destruct (p a) eqn:Ea.
  - injection Hf as ->. simpl. rewrite Hq. simpl. rewrite Ea. reflexivity.
  - simpl. destruct (q a); [simpl; rewrite Ea|]; apply IH; assumption.
Qed.

Lemma get_batch_update_batch :
  forall d bid batch b',
    get_batch d bid = Some batch -> Batch.id b' = bid ->
    get_batch (update_batch d b') bid = Some b'.
Proof.
  intros d bid batch b' Hget Hid. subst bid.
  unfold get_batch, update_batch in *. simpl.
  induction (batches d) as [|x l IH]; [discriminate|].
  simpl in *. destruct (Batch.id x =? Batch.id b')%Z eqn:Ex.
  - simpl. rewrite Z.eqb_refl. reflexivity.
  - simpl. rewrite Ex. apply IH. exact Hget.
Qed.

Lemma current_user_same_users :
  forall d d' s, users d' = users d -> current_user d' s = current_user d s.
Proof.
  intros d d' s H. unfold current_user, get_user. rewrite H. reflexivity.
Qed.

(** The check of [upload] for a logged-in trainer and a batch with a trainer
    row. *)
Lemma upload_by_trainer :
  forall d s user batch_id batch t file notes now,
    get_batch d batch_id = Some batch -> current_user d s = Some user ->
    User.role user = "trainer" -> batch_trainer d batch = Some t ->
    (Trainer.email t = User.email user ->
     exists flashes d',
       upload batch_id file notes now s d = (Redirect "view_batch" flashes, s, d'))
    /\ (Trainer.email t <> User.email user ->
        upload batch_id file notes now s d = (Abort 403 [MSG_UPLOAD_DENIED], s, d)).
Proof.
  intros d s user batch_id batch t file notes now Hb Hcur Hrole Ht.
  unfold upload. rewrite Hb.
  rewrite (is_assigned_trainer_match d s user batch t Hcur Ht).
  rewrite (is_trainer_of_current_user d s user Hcur Hrole).
  split; intros Hmail.
  - apply String.eqb_eq in Hmail. rewrite Hmail. simpl.
    destruct file as [[file_name content]|]; [|eauto].
    destruct (negb (file_name =? "") && allowed_file file_name)%bool; eauto.
  - apply String.eqb_neq in Hmail. rewrite Hmail. reflexivity.
Qed.

(** X13: deleting a batch takes its enrollments, its recordings and its
    upload folder with it and nothing else: the other batches, enrollments,
    recordings and files stay, accounts, trainers and recovery codes are
    untouched, every download from the batch's folder is 404 from then on,
    and the progress rows all stay, none of them pointing at a deleted
    recording any more. *)
Theorem delete_batch_cascades :
  forall d s batch_id b,
    is_admin d s = true -> get_batch d batch_id = Some b ->
    let o := delete_batch batch_id s d in
    let d' := db_after o in
    response o = Redirect "admin_dashboard" [("Batch deleted", "info")]
    /\ get_batch d' batch_id = None
    /\ (forall x, In x (batches d')
                  <-> In x (batches d) /\ Batch.id x <> batch_id)
    /\ (forall e, In e (enrollments d')
                  <-> In e (enrollments d) /\ Enrollment.batch_id e <> Some batch_id)
    /\ (forall r, In r (recordings d')
                  <-> In r (recordings d) /\ Recording.batch_id r <> Some batch_id)
    /\ (forall filename s',
           download batch_id filename s' d' = (Abort 404 [], s', d'))
    /\ (forall bid filename,
           bid <> batch_id -> file_get d' bid filename = file_get d bid filename)
    /\ users d' = users d /\ trainers d' = trainers d
    /\ otp_tokens d' = otp_tokens d
    /\ map StudentProgress.id (progress d') = map StudentProgress.id (progress d)
    /\ (forall p r,
           In p (progress d') -> In r (recordings d) ->
           Recording.batch_id r = Some batch_id ->
           StudentProgress.recording_id p <> Some (Recording.id r)).
Proof.
  intros d s batch_id b Hadmin Hb o d'.
  destruct (get_batch_In d batch_id b Hb) as [Hin Hid].
  assert (Ho : o = (Redirect "admin_dashboard" [("Batch deleted", "info")], s,
                    delete_batch_rows
                      (set_uploads d
                         (filter (fun f => negb (fst (fst f) =? Batch.id b)%Z)
                                 (uploads d))) b)).
  { unfold o, delete_batch. rewrite Hadmin, Hb. reflexivity. }
  assert (Hd' : d' = delete_batch_rows
                       (set_uploads d
                          (filter (fun f => negb (fst (fst f) =? Batch.id b)%Z)
                                  (uploads d))) b).
  { unfold d'. rewrite Ho. reflexivity. }
  clearbody d' o. subst d' o. subst batch_id.
  unfold delete_batch_rows. simpl.
  split; [reflexivity|]. split.
  { unfold get_batch. simpl.
    apply (find_filter_negb _ (fun x => (Batch.id x =? (Batch.id b))%Z)). }
  split.
  { intros x. rewrite filter_In. rewrite negb_true_iff, Z.eqb_neq. reflexivity. }
  split.
  { intros e. rewrite filter_In. rewrite negb_true_iff.
    rewrite <- not_true_iff_false, option_Z_eqb_eq. reflexivity. }
  split.
  { intros r. rewrite filter_In. unfold in_batch. rewrite negb_true_iff.
    rewrite <- not_true_iff_false, option_Z_eqb_eq. reflexivity. }
  split.
  { intros filename s'. unfold download, file_get. simpl.
    assert (E : find (file_at (Batch.id b) filename)
                     (filter (fun f => negb (fst (fst f) =? (Batch.id b))%Z) (uploads d))
                = None).
    { induction (uploads d) as [|f l IH]; [reflexivity|].
      simpl. destruct (fst (fst f) =? (Batch.id b))%Z eqn:Ef; simpl; [exact IH|].
      unfold file_at at 1. rewrite Ef. simpl. exact IH. }
    rewrite E. reflexivity. }
  split.
  { intros bid filename Hne. unfold file_get. simpl. f_equal.
    induction (uploads d) as [|f l IH]; [reflexivity|].
    simpl. destruct (fst (fst f) =? (Batch.id b))%Z eqn:Ef; simpl.
    - unfold file_at at 2. apply Z.eqb_eq in Ef.
      assert (E : (fst (fst f) =? bid)%Z = false) by (apply Z.eqb_neq; lia).
      rewrite E. simpl. exact IH.
    - destruct (file_at bid filename f); [reflexivity | exact IH]. }
  split; [reflexivity|]. split; [reflexivity|]. split; [reflexivity|]. split.
  { rewrite map_map. apply map_ext. intros p.
    match goal with |- context [if ?c then _ else _] => destruct c end; reflexivity. }
  intros p r Hp Hr Hbatch Hpoints.
  apply in_map_iff in Hp. destruct Hp as [p0 [Hp0 _]].
  match type of Hp0 with
  | (if ?c then _ else _) = _ => destruct c eqn:Egone
  end.
  - subst p. discriminate.
  - subst p0.
    assert (Hex : existsb
                    (fun r0 => option_eqb Z.eqb (StudentProgress.recording_id p)
                                          (Some (Recording.id r0)))
                    (filter (in_batch (Batch.id b)) (recordings d)) = true).
    { apply existsb_exists. exists r. split.
      - apply filter_In. split; [exact Hr|]. unfold in_batch.
        apply option_Z_eqb_eq. exact Hbatch.
      - apply option_Z_eqb_eq. exact Hpoints. }
    rewrite Hex in Egone. discriminate.
Qed.

(** X14: changing the trainer of a batch moves the right to upload with it.
    After the admin picks a trainer row, the batch points at that row, the
    other batches and every other table are as before, and of all trainer
    accounts exactly those with the address of the new row pass the check of
    [upload] for this batch; after the admin picks "none", nobody passes
    it. *)
Theorem change_batch_trainer_moves_the_upload_right :
  forall d s batch_id batch,
    is_admin d s = true -> get_batch d batch_id = Some batch ->
    (forall tid, Batch.trainer_id batch = Some tid -> get_trainer d tid <> None) ->
    (forall trainer_id new_id new_trainer,
        trainer_id <> "none" -> int trainer_id = Some new_id ->
        get_trainer d new_id = Some new_trainer ->
        let o := change_batch_trainer POST batch_id trainer_id s d in
        let d' := db_after o in
        (exists flashes, response o = Redirect "view_batch_enrollments" flashes)
        /\ (exists batch',
               get_batch d' batch_id = Some batch'
               /\ Batch.trainer_id batch' = Some new_id
               /\ Batch.name batch' = Batch.name batch
               /\ batch_trainer d' batch' = Some new_trainer)
        /\ (forall x, In x (batches d) -> Batch.id x <> batch_id -> In x (batches d'))
        /\ users d' = users d /\ trainers d' = trainers d
        /\ enrollments d' = enrollments d /\ recordings d' = recordings d
        /\ progress d' = progress d /\ uploads d' = uploads d
        /\ (forall s' user file notes now,
               current_user d s' = Some user -> User.role user = "trainer" ->
               (User.email user = Trainer.email new_trainer ->
                exists flashes d'',
                  upload batch_id file notes now s' d'
                  = (Redirect "view_batch" flashes, s', d''))
               /\ (User.email user <> Trainer.email new_trainer ->
                   upload batch_id file notes now s' d'
                   = (Abort 403 [MSG_UPLOAD_DENIED], s', d'))))
    /\ (let o := change_batch_trainer POST batch_id "none" s d in
        let d' := db_after o in
        (exists flashes, response o = Redirect "view_batch_enrollments" flashes)
        /\ (exists batch',
               get_batch d' batch_id = Some batch'
               /\ Batch.trainer_id batch' = None)
        /\ (forall s' file notes now,
               upload batch_id file notes now s' d'
               = (Abort 403 [MSG_UPLOAD_DENIED], s', d'))).
Proof.
  intros d s batch_id batch Hadmin Hb Hold.
  destruct (get_batch_In d batch_id batch Hb) as [Hin Hid].
  split.
  - intros trainer_id new_id new_trainer Hnone Hint Hnew o d'.
    set (b1 := set_batch_trainer (Some new_id) batch).
    assert (Hcases :
              (o = (Redirect "view_batch_enrollments"
                      [("Trainer " ++ Trainer.name new_trainer
                          ++ " is already assigned to this batch.", "info")], s, d)
               /\ Batch.trainer_id batch = Some new_id)
              \/ exists flashes,
                   o = (Redirect "view_batch_enrollments" flashes, s,
                        update_batch d b1)).
    { unfold o, change_batch_trainer. rewrite Hadmin, Hb. simpl negb. cbv iota.
      apply String.eqb_neq in Hnone. rewrite Hnone, Hint, Hnew.
      destruct (option_eqb Z.eqb (Batch.trainer_id batch) (Some new_id)) eqn:Esame.
      - left. split; [reflexivity|]. apply option_Z_eqb_eq. exact Esame.
      - right. destruct (Batch.trainer_id batch) as [old|] eqn:Eold; [|eauto].
        unfold batch_trainer. rewrite Eold.
        destruct (get_trainer d old) eqn:Et; [eauto|].
        exfalso. apply (Hold old); [reflexivity | exact Et]. }
    assert (Hshape :
              exists flashes batch',
                o = (Redirect "view_batch_enrollments" flashes, s, d')
                /\ get_batch d' batch_id = Some batch'
                /\ Batch.trainer_id batch' = Some new_id
                /\ Batch.name batch' = Batch.name batch
                /\ (forall x, In x (batches d) -> Batch.id x <> batch_id ->
                              In x (batches d'))
                /\ users d' = users d /\ trainers d' = trainers d
                /\ enrollments d' = enrollments d /\ recordings d' = recordings d
                /\ progress d' = progress d /\ uploads d' = uploads d).
    { destruct Hcases as [[Ho Hsame] | [flashes Ho]].
      - exists [("Trainer " ++ Trainer.name new_trainer
                   ++ " is already assigned to this batch.", "info")], batch.
        unfold d'. rewrite Ho. simpl db_after.
        repeat split; try assumption. intros x Hx _. exact Hx.
      - exists flashes, b1. unfold d'. rewrite Ho. simpl db_after.
        split; [reflexivity|]. split.
        { apply (get_batch_update_batch d batch_id batch b1 Hb). exact Hid. }
        repeat split.
        intros x Hx Hne. unfold update_batch. simpl. apply in_map_iff.
        exists x. split; [|exact Hx].
        assert (E : (Batch.id x =? Batch.id batch)%Z = false)
          by (apply Z.eqb_neq; congruence).
        rewrite E. reflexivity. }
    clearbody d' o.
    destruct Hshape as [flashes [batch' [Ho [Hget [Htid [Hname [Hothers
                        [Hu [Ht [He [Hr [Hp Hf]]]]]]]]]]]].
    assert (Htr : batch_trainer d' batch' = Some new_trainer).
    { unfold batch_trainer, get_trainer. rewrite Htid, Ht. exact Hnew. }
    split; [exists flashes; rewrite Ho; reflexivity|].
    split; [exists batch'; repeat split; assumption|].
    repeat (split; [assumption|]).
    intros s' user file notes now Hcur Hrole.
    assert (Hcur' : current_user d' s' = Some user)
      by (rewrite (current_user_same_users d d' s' Hu); exact Hcur).
    destruct (upload_by_trainer d' s' user batch_id batch' new_trainer file notes now
                Hget Hcur' Hrole Htr) as [Hyes Hno].
    split; intros Hmail; [apply Hyes | apply Hno]; congruence.
  - intros o d'.
    set (b1 := set_batch_trainer None batch).
    assert (Hcases :
              (o = (Redirect "view_batch_enrollments" [], s, d)
               /\ Batch.trainer_id batch = None)
              \/ exists flashes,
                   o = (Redirect "view_batch_enrollments" flashes, s,
                        update_batch d b1)).
    { unfold o, change_batch_trainer. rewrite Hadmin, Hb. simpl negb. cbv iota.
      simpl String.eqb. cbv iota.
      destruct (Batch.trainer_id batch) as [old|] eqn:Eold;
        [|left; split; reflexivity].
      right. unfold batch_trainer. rewrite Eold.
      destruct (get_trainer d old) eqn:Et; [eauto|].
      exfalso. apply (Hold old); [reflexivity | exact Et]. }
    assert (Hshape :
              exists flashes batch',
                o = (Redirect "view_batch_enrollments" flashes, s, d')
                /\ get_batch d' batch_id = Some batch'
                /\ Batch.trainer_id batch' = None).
    { destruct Hcases as [[Ho Hsame] | [flashes Ho]].
      - exists [], batch. unfold d'. rewrite Ho. repeat split; assumption.
      - exists flashes, b1. unfold d'. rewrite Ho. simpl db_after.
        split; [reflexivity|]. split; [|reflexivity].
        apply (get_batch_update_batch d batch_id batch b1 Hb). exact Hid. }
    clearbody d' o.
    destruct Hshape as [flashes [batch' [Ho [Hget Htid]]]].
    split; [exists flashes; rewrite Ho; reflexivity|].
    split; [exists batch'; split; assumption|].
    intros s' file notes now. unfold upload. rewrite Hget.
    rewrite is_assigned_trainer_unassigned
      by (unfold batch_trainer; rewrite Htid; reflexivity).
    rewrite andb_false_r. reflexivity.
Qed.


(** ** Recordings and their files *)

Lemma file_at_true :
  forall bid fname f,
    file_at bid fname f = true <-> fst (fst f) = bid /\ snd (fst f) = fname.
Proof.
  intros bid fname f. unfold file_at.
  rewrite andb_true_iff, Z.eqb_eq, String.eqb_eq. reflexivity.
Qed.

Lemma file_get_file_save :
  forall d bid fname content,
    file_get (file_save d bid fname content) bid fname = Some content.
Proof.
  intros d bid fname content. unfold file_get, file_save. simpl.
  rewrite (find_app_new _ (file_at bid fname) _ (bid, fname, content)).
  - reflexivity.
  - apply find_filter_negb.
  - apply file_at_true. split; reflexivity.
Qed.

Lemma find_filter_other :
  forall (A : Type) (p q : A -> bool) (l : list A),
    (forall x, p x = true -> q x = true) ->
    find p (filter q l) = find p l.
Proof.
  intros A p q l Hpq. induction l as [|x l IH]; [reflexivity|].
  simpl. destruct (q x) eqn:Eq; simpl.
  - destruct (p x); [reflexivity | exact IH].
  - destruct (p x) eqn:Ep; [|exact IH].
    rewrite (Hpq x Ep) in Eq. discriminate.
Qed.

Lemma file_at_other :
  forall bid fname bid' fname' f,
    bid' <> bid \/ fname' <> fname ->
    file_at bid' fname' f = true -> negb (file_at bid fname f) = true.
Proof.
  intros bid fname bid' fname' f Hne H. apply negb_true_iff.
  apply not_true_iff_false. intros H'.
  apply file_at_true in H. apply file_at_true in H'.
  destruct H as [H1 H2], H' as [H1' H2']. destruct Hne as [Hne | Hne]; congruence.
Qed.

Lemma file_get_file_save_other :
  forall d bid fname content bid' fname',
    bid' <> bid \/ fname' <> fname ->
    file_get (file_save d bid fname content) bid' fname' = file_get d bid' fname'.
Proof.
  intros d bid fname content bid' fname' Hne. unfold file_get, file_save. simpl.
  f_equal.
  assert (Hnew : file_at bid' fname' (bid, fname, content) = false).
  { apply not_true_iff_false. intros H. apply file_at_true in H. simpl in H.
    destruct H as [H1 H2]. destruct Hne as [Hne | Hne]; congruence. }
  rewrite <- (find_filter_other _ (file_at bid' fname')
                (fun f => negb (file_at bid fname f)) (uploads d)
                (fun f => file_at_other bid fname bid' fname' f Hne)).
  induction (filter (fun f => negb (file_at bid fname f)) (uploads d)) as [|x l IH].
  - simpl. rewrite Hnew. reflexivity.
  - simpl. destruct (file_at bid' fname' x); [reflexivity | exact IH].
Qed.

Lemma file_get_file_remove :
  forall d bid fname, file_get (file_remove d bid fname) bid fname = None.
Proof.
  intros d bid fname. unfold file_get, file_remove. simpl.
  rewrite find_filter_negb. reflexivity.
Qed.

Lemma file_get_file_remove_other :
  forall d bid fname bid' fname',
    bid' <> bid \/ fname' <> fname ->
    file_get (file_remove d bid fname) bid' fname' = file_get d bid' fname'.
Proof.
  intros d bid fname bid' fname' Hne. unfold file_get, file_remove. simpl.
  f_equal. apply find_filter_other. intros f.
  apply (file_at_other bid fname bid' fname' f Hne).
Qed.

Lemma assigned_to_check :
  forall d s user batch,
    current_user d s = Some user -> User.role user = "trainer" ->
    assigned_to d batch user ->
    is_assigned_trainer d s batch = Some true /\ is_trainer d s = true.
Proof.
  intros d s user batch Hcur Hrole [t [Ht Hmail]]. split.
  - rewrite (is_assigned_trainer_match d s user batch t Hcur Ht).
    apply String.eqb_eq in Hmail. rewrite Hmail. reflexivity.
  - apply (is_trainer_of_current_user d s user Hcur Hrole).
Qed.

(** X15: what the assigned trainer uploads can be downloaded.  After an
    accepted upload the table has one more recording, under a fresh key and
    found by it, the file is served under its stored name to every session
    with the uploaded content, and every other file is as before.  A file
    already stored under that name in the batch is overwritten, so an older
    recording of the same stored name now serves the new content. *)
Theorem upload_then_download :
  forall d s batch_id batch user file_name content notes now,
    get_batch d batch_id = Some batch -> current_user d s = Some user ->
    User.role user = "trainer" -> assigned_to d batch user ->
    file_name <> "" -> allowed_file file_name = true ->
    let o := upload batch_id (Some (file_name, content)) notes now s d in
    let d' := db_after o in
    let r := Recording.mk (next_id (map Recording.id (recordings d)))
                          (secure_filename file_name) file_name now
                          (Some batch_id) notes in
    response o = Redirect "view_batch" [("Uploaded successfully", "success")]
    /\ recordings d' = (recordings d ++ [r])%list
    /\ get_recording d' (Recording.id r) = Some r
    /\ (forall s',
           download batch_id (secure_filename file_name) s' d'
           = (SendFile content, s', d'))
    /\ (forall bid f,
           bid <> batch_id \/ f <> secure_filename file_name ->
           file_get d' bid f = file_get d bid f)
    /\ (forall r0 s',
           In r0 (recordings d) -> Recording.batch_id r0 = Some batch_id ->
           Recording.filename r0 = secure_filename file_name ->
           response (download batch_id (Recording.filename r0) s' d')
           = SendFile content).
Proof.
  intros d s batch_id batch user file_name content notes now
         Hb Hcur Hrole Hassigned Hname Hallowed o d' r.
  destruct (get_batch_In d batch_id batch Hb) as [_ Hid].
  destruct (assigned_to_check d s user batch Hcur Hrole Hassigned) as [Hass Htr].
  assert (Ho : o = (Redirect "view_batch" [("Uploaded successfully", "success")], s,
                    set_recordings
                      (file_save d batch_id (secure_filename file_name) content)
                      (recordings d ++ [r]))).
  { unfold o, upload. rewrite Hb, Hass, Htr. simpl negb. cbv iota.
    apply String.eqb_neq in Hname. unfold truthy_str. rewrite Hname, Hallowed.
    simpl. rewrite Hid. reflexivity. }
  assert (Hd' : d' = set_recordings
                       (file_save d batch_id (secure_filename file_name) content)
                       (recordings d ++ [r])).
  { unfold d'. rewrite Ho. reflexivity. }
  clearbody d' o. subst d' o.
  assert (Hdown : forall s',
             download batch_id (secure_filename file_name) s'
               (set_recordings
                  (file_save d batch_id (secure_filename file_name) content)
                  (recordings d ++ [r]))
             = (SendFile content, s',
                set_recordings
                  (file_save d batch_id (secure_filename file_name) content)
                  (recordings d ++ [r]))).
  { intros s'. unfold download.
    change (file_get (set_recordings
                        (file_save d batch_id (secure_filename file_name) content)
                        (recordings d ++ [r])) batch_id (secure_filename file_name))
      with (file_get (file_save d batch_id (secure_filename file_name) content)
                     batch_id (secure_filename file_name)).
    rewrite file_get_file_save. reflexivity. }
  split; [reflexivity|]. split; [reflexivity|]. split.
  { unfold get_recording. simpl recordings.
    assert (Hfresh : find (fun x => (Recording.id x =? Recording.id r)%Z)
                          (recordings d) = None).
    { destruct (find (fun x => (Recording.id x =? Recording.id r)%Z) (recordings d))
        as [x|] eqn:Ex; [|reflexivity].
      apply find_some in Ex. destruct Ex as [Hx Hxid]. apply Z.eqb_eq in Hxid.
      exfalso. apply (next_id_not_in (map Recording.id (recordings d))).
      simpl in Hxid. rewrite <- Hxid. apply in_map. exact Hx. }
    apply find_app_new; [exact Hfresh | apply Z.eqb_refl]. }
  split; [exact Hdown|]. split.
  { intros bid f Hne.
    apply (file_get_file_save_other d batch_id (secure_filename file_name)
             content bid f Hne). }
  intros r0 s' _ _ Hsame. rewrite Hsame, Hdown. reflexivity.
Qed.

(** X16: [upload] writes to the store only in one case: a file with a
    non-empty name of an allowed extension, sent by a logged-in account of
    role trainer whose address is that of the batch's trainer row.  In every
    other case the store is left as it was; the session is never changed. *)
Theorem upload_writes_only_for_the_assigned_trainer :
  forall d s batch_id file notes now,
    let o := upload batch_id file notes now s d in
    session_after o = s
    /\ (db_after o = d
        \/ exists file_name content batch user,
             file = Some (file_name, content)
             /\ file_name <> "" /\ allowed_file file_name = true
             /\ get_batch d batch_id = Some batch
             /\ current_user d s = Some user /\ User.role user = "trainer"
             /\ assigned_to d batch user).
Proof.
  intros d s batch_id file notes now o. unfold o, upload.
  destruct (get_batch d batch_id) as [batch|] eqn:Eb; [|split; [|left]; reflexivity].
  unfold is_assigned_trainer, is_trainer.
  destruct (batch_trainer d batch) as [t|] eqn:Et.
  - destruct (current_user d s) as [user|] eqn:Ecur;
      [|split; [|left]; reflexivity].
    destruct (User.role user =? "trainer") eqn:Erole;
      [|split; [|left]; reflexivity].
    destruct (Trainer.email t =? User.email user) eqn:Email;
      [|split; [|left]; reflexivity].
    simpl negb. cbv iota.
    destruct file as [[file_name content]|]; [|split; [|left]; reflexivity].
    destruct (truthy_str (Some file_name)) eqn:Etruthy;
      [|split; [|left]; reflexivity].
    destruct (allowed_file file_name) eqn:Eallowed;
      [|split; [|left]; reflexivity].
    simpl. split; [reflexivity|]. right.
    exists file_name, content, batch, user.
    apply String.eqb_eq in Erole. apply String.eqb_eq in Email.
    repeat split; try assumption.
    + intros ->. discriminate Etruthy.
    + exists t. split; assumption.
  - rewrite andb_false_r. split; [|left]; reflexivity.
Qed.

(** X17: what deleting a recording leaves behind.  For the assigned trainer
    the row is gone and the other recordings stay; the stored file is gone,
    so its download is 404, also for another recording of the batch stored
    under the same name; the progress rows all stay, none of them pointing
    at the deleted recording any more. *)
Theorem delete_recording_effect :
  forall d s rec_id r batch user,
    get_recording d rec_id = Some r -> recording_batch d r = Some batch ->
    current_user d s = Some user -> User.role user = "trainer" ->
    assigned_to d batch user ->
    let o := delete_recording rec_id s d in
    let d' := db_after o in
    response o = Redirect "view_batch" [("Recording deleted", "info")]
    /\ get_recording d' rec_id = None
    /\ (forall x, In x (recordings d')
                  <-> In x (recordings d) /\ Recording.id x <> rec_id)
    /\ (forall s',
           download (Batch.id batch) (Recording.filename r) s' d'
           = (Abort 404 [], s', d'))
    /\ (forall r2,
           In r2 (recordings d) -> Recording.id r2 <> rec_id ->
           Recording.batch_id r2 = Recording.batch_id r ->
           Recording.filename r2 = Recording.filename r ->
           In r2 (recordings d') /\ file_get d' (Batch.id batch) (Recording.filename r2) = None)
    /\ (forall bid f,
           bid <> Batch.id batch \/ f <> Recording.filename r ->
           file_get d' bid f = file_get d bid f)
    /\ map StudentProgress.id (progress d') = map StudentProgress.id (progress d)
    /\ (forall p, In p (progress d') -> StudentProgress.recording_id p <> Some rec_id)
    /\ users d' = users d /\ trainers d' = trainers d /\ batches d' = batches d
    /\ enrollments d' = enrollments d.
Proof.
  intros d s rec_id r batch user Hr Hbatch Hcur Hrole Hassigned o d'.
  assert (Hrid : Recording.id r = rec_id).
  { unfold get_recording in Hr. apply find_some in Hr. destruct Hr as [_ Hr].
    apply Z.eqb_eq in Hr. exact Hr. }
  destruct (assigned_to_check d s user batch Hcur Hrole Hassigned) as [Hass Htr].
  set (d1 := file_remove d (Batch.id batch) (Recording.filename r)).
  assert (Ho : o = (Redirect "view_batch" [("Recording deleted", "info")], s,
                    set_progress
                      (set_recordings d1
                         (filter (fun r' => negb (Recording.id r' =? rec_id)%Z)
                                 (recordings d)))
                      (map (orphan_progress_of_recording rec_id) (progress d)))).
  { unfold o, delete_recording. rewrite Hr, Hbatch, Hass, Htr, Hrid. reflexivity. }
  assert (Hd' : d' = set_progress
                       (set_recordings d1
                          (filter (fun r' => negb (Recording.id r' =? rec_id)%Z)
                                  (recordings d)))
                       (map (orphan_progress_of_recording rec_id) (progress d))).
  { unfold d'. rewrite Ho. reflexivity. }
  clearbody d' o. subst d' o.
  assert (Hgone : forall f,
             f = Recording.filename r ->
             file_get (set_progress
                         (set_recordings d1
                            (filter (fun r' => negb (Recording.id r' =? rec_id)%Z)
                                    (recordings d)))
                         (map (orphan_progress_of_recording rec_id) (progress d)))
                      (Batch.id batch) f = None).
  { intros f ->. apply (file_get_file_remove d (Batch.id batch) (Recording.filename r)). }
  split; [reflexivity|]. split.
  { unfold get_recording. simpl recordings.
    apply (find_filter_negb _ (fun x => (Recording.id x =? rec_id)%Z)). }
  split.
  { intros x. simpl recordings. rewrite filter_In, negb_true_iff, Z.eqb_neq.
    reflexivity. }
  split.
  { intros s'. unfold download. rewrite (Hgone _ eq_refl). reflexivity. }
  split.
  { intros r2 Hin Hne _ Hsame. split.
    - simpl recordings. apply filter_In. split; [exact Hin|].
      apply negb_true_iff. apply Z.eqb_neq. exact Hne.
    - apply Hgone. exact Hsame. }
  split.
  { intros bid f Hne.
    apply (file_get_file_remove_other d (Batch.id batch) (Recording.filename r)
             bid f Hne). }
  split.
  { simpl progress. rewrite map_map. apply map_ext. intros p.
    unfold orphan_progress_of_recording.
    destruct (option_eqb Z.eqb (StudentProgress.recording_id p) (Some rec_id));
      reflexivity. }
  split.
  { intros p Hp Hpoints. simpl progress in Hp. apply in_map_iff in Hp.
    destruct Hp as [p0 [Hp0 _]]. unfold orphan_progress_of_recording in Hp0.
    destruct (option_eqb Z.eqb (StudentProgress.recording_id p0) (Some rec_id))
      eqn:E.
    - subst p. discriminate.
    - subst p0. apply option_Z_eqb_eq in Hpoints. congruence. }
  repeat split.
Qed.


(** ** Deleting accounts and trainers *)

Lemma find_map_same :
  forall (A : Type) (p : A -> bool) (f : A -> A) (l : list A),
    (forall x, p (f x) = p x) ->
    find p (map f l) = option_map f (find p l).
Proof.
  intros A p f l Hp. induction l as [|x l IH]; [reflexivity|].
  simpl. rewrite Hp. destruct (p x); [reflexivity | exact IH].
Qed.

Lemma find_app_some :
  forall (A : Type) (p : A -> bool) (l l' : list A) (x : A),
    find p l = Some x -> find p (l ++ l') = Some x.
Proof.
  intros A p l l' x. induction l as [|a l IH]; intros H; [discriminate|].
  simpl in *. destruct (p a); [exact H | apply IH; exact H].
Qed.

Lemma get_user_id :
  forall d uid u, get_user d uid = Some u -> User.id u = uid.
Proof.
  intros d uid u H. unfold get_user in H. apply find_some in H.
  destruct H as [_ H]. apply Z.eqb_eq in H. exact H.
Qed.

(** What [db.session.delete(user)] leaves behind. *)
Lemma delete_user_effect :
  forall d user,
    let d' := delete_user d user in
    get_user d' (User.id user) = None
    /\ (forall x, In x (users d') <-> In x (users d) /\ User.id x <> User.id user)
    /\ (forall e, In e (enrollments d')
                  <-> In e (enrollments d)
                      /\ Enrollment.user_id e <> Some (User.id user))
    /\ map StudentProgress.id (progress d') = map StudentProgress.id (progress d)
    /\ (forall p, In p (progress d') ->
                  StudentProgress.user_id p <> Some (User.id user))
    /\ otp_tokens d' = otp_tokens d /\ trainers d' = trainers d
    /\ batches d' = batches d /\ recordings d' = recordings d
    /\ uploads d' = uploads d.
Proof.
  intros d user d'. subst d'. unfold delete_user. simpl.
  split.
  { unfold get_user. simpl.
    apply (find_filter_negb _ (fun x => (User.id x =? User.id user)%Z)). }
  split.
  { intros x. rewrite filter_In, negb_true_iff, Z.eqb_neq. reflexivity. }
  split.
  { intros e. rewrite filter_In, negb_true_iff.
    rewrite <- not_true_iff_false, option_Z_eqb_eq. reflexivity. }
  split.
  { rewrite map_map. apply map_ext. intros p.
    destruct (option_eqb Z.eqb (StudentProgress.user_id p) (Some (User.id user)));
      reflexivity. }
  split.
  { intros p Hp Hpoints. apply in_map_iff in Hp. destruct Hp as [p0 [Hp0 _]].
    destruct (option_eqb Z.eqb (StudentProgress.user_id p0) (Some (User.id user)))
      eqn:E.
    - subst p. discriminate.
    - subst p0. apply option_Z_eqb_eq in Hpoints. congruence. }
  repeat split.
Qed.

(** X18: deleting an account.  An admin account is never deleted.  For any
    other account the row and its enrollments go and nothing else does: the
    progress rows all stay, detached from the account, and the recovery
    codes, the trainer rows and the batch assignments are left as they were,
    also when the account was a trainer's.  A session still bound to the
    deleted key gets a server error on the dashboard. *)
Theorem delete_student_effect :
  forall d s user_id user,
    is_admin d s = true -> get_user d user_id = Some user ->
    let o := delete_student user_id s d in
    let d' := db_after o in
    (User.role user = "admin" ->
     o = (Redirect "view_all_students"
            [("Cannot delete an admin user.", "danger")], s, d))
    /\ (User.role user <> "admin" ->
        get_user d' user_id = None
        /\ (forall x, In x (users d') <-> In x (users d) /\ User.id x <> user_id)
        /\ (forall e, In e (enrollments d')
                      <-> In e (enrollments d) /\ Enrollment.user_id e <> Some user_id)
        /\ map StudentProgress.id (progress d') = map StudentProgress.id (progress d)
        /\ (forall p, In p (progress d') -> StudentProgress.user_id p <> Some user_id)
        /\ otp_tokens d' = otp_tokens d /\ trainers d' = trainers d
        /\ batches d' = batches d /\ recordings d' = recordings d
        /\ uploads d' = uploads d
        /\ (forall s',
               sess_user_id s' = Some user_id -> user_id <> 0 ->
               dashboard s' d' = (ServerError "AttributeError", s', d'))).
Proof.
  intros d s user_id user Hadmin Hget o d'.
  pose proof (get_user_id d user_id user Hget) as Hid.
  split.
  - intros Hrole. unfold o, delete_student. rewrite Hadmin, Hget, Hrole. reflexivity.
  - intros Hrole.
    assert (Hd' : d' = delete_user d user).
    { unfold d', o, delete_student. rewrite Hadmin, Hget.
      apply String.eqb_neq in Hrole. rewrite Hrole. reflexivity. }
    clearbody d' o. subst d'. subst user_id.
    pose proof (delete_user_effect d user) as H. cbv zeta in H.
    destruct H as [H1 [H2 [H3 [H4 [H5 [H6 [H7 [H8 [H9 H10]]]]]]]]].
    repeat (split; [assumption|]).
    intros s' Hs' Hnz. unfold dashboard. rewrite Hs'.
    assert (E : truthy_int (Some (User.id user)) = true).
    { simpl. apply negb_true_iff. apply Z.eqb_neq. exact Hnz. }
    rewrite E, H1. reflexivity.
Qed.

(** The trainer and batch tables after [delete_trainer] has found its row. *)
Lemma delete_trainer_tables :
  forall d s trainer_id trainer,
    is_admin d s = true -> get_trainer d trainer_id = Some trainer ->
    let d' := db_after (delete_trainer trainer_id s d) in
    trainers d'
    = filter (fun t => negb (Trainer.id t =? Trainer.id trainer)%Z) (trainers d)
    /\ batches d'
       = map (fun b =>
                if option_eqb Z.eqb (Batch.trainer_id b) (Some (Trainer.id trainer))
                then Batch.mk (Batch.id b) (Batch.name b) (Batch.description b)
                              (Batch.created_at b) None
                else b)
             (batches d).
Proof.
  intros d s trainer_id trainer Hadmin Hget d'. subst d'.
  unfold delete_trainer. rewrite Hadmin, Hget. simpl negb. cbv iota.
  match goal with
  | |- context [find ?p ?l] => destruct (find p l)
  end; split; reflexivity.
Qed.

(** X19: deleting a trainer.  The trainer row goes; the batches it was
    assigned to stay, without a trainer, so that nobody passes the upload
    check for them any more; the first account with the trainer's address
    and role trainer goes with its enrollments; accounts of any other role
    or address stay, whatever their address. *)
Theorem delete_trainer_effect :
  forall d s trainer_id trainer,
    is_admin d s = true -> get_trainer d trainer_id = Some trainer ->
    let o := delete_trainer trainer_id s d in
    let d' := db_after o in
    let account :=
      find (fun u => ((User.email u =? Trainer.email trainer)
                      && (User.role u =? "trainer"))%bool) (users d) in
    get_trainer d' trainer_id = None
    /\ (forall t, In t (trainers d')
                  <-> In t (trainers d) /\ Trainer.id t <> trainer_id)
    /\ map Batch.id (batches d') = map Batch.id (batches d)
    /\ map Batch.name (batches d') = map Batch.name (batches d)
    /\ (forall b, In b (batches d') -> Batch.trainer_id b <> Some trainer_id)
    /\ (forall b, In b (batches d) -> Batch.trainer_id b <> Some trainer_id ->
                  In b (batches d'))
    /\ (forall bid batch s' file notes now,
           get_batch d bid = Some batch ->
           Batch.trainer_id batch = Some trainer_id ->
           upload bid file notes now s' d' = (Abort 403 [MSG_UPLOAD_DENIED], s', d'))
    /\ (forall u, account = Some u ->
                  forall x, In x (users d')
                            <-> In x (users d) /\ User.id x <> User.id u)
    /\ (account = None -> users d' = users d)
    /\ (user_keys_unique d ->
        forall x, In x (users d) ->
                  User.email x <> Trainer.email trainer \/ User.role x <> "trainer" ->
                  In x (users d'))
    /\ recordings d' = recordings d /\ otp_tokens d' = otp_tokens d.
Proof.
  intros d s trainer_id trainer Hadmin Hget o d' account.
  assert (Htid : Trainer.id trainer = trainer_id).
  { unfold get_trainer in Hget. apply find_some in Hget. destruct Hget as [_ H].
    apply Z.eqb_eq in H. exact H. }
  set (unassign := fun b : Batch.t =>
         if option_eqb Z.eqb (Batch.trainer_id b) (Some (Trainer.id trainer))
         then Batch.mk (Batch.id b) (Batch.name b) (Batch.description b)
                       (Batch.created_at b) None
         else b).
  set (d1 := set_batches d (map unassign (batches d))).
  set (d2 := match account with Some u => delete_user d1 u | None => d1 end).
  assert (Hd' : d' = set_trainers d2
                       (filter (fun t => negb (Trainer.id t =? Trainer.id trainer)%Z)
                               (trainers d2))).
  { unfold d', o, delete_trainer. rewrite Hadmin, Hget. reflexivity. }
  clearbody d' o.
  assert (Hd2 : trainers d2 = trainers d /\ batches d2 = map unassign (batches d)
                /\ recordings d2 = recordings d /\ otp_tokens d2 = otp_tokens d).
  { unfold d2. destruct account; repeat split. }
  destruct Hd2 as [Ht2 [Hb2 [Hr2 Ho2]]].
  assert (Htrainers : trainers d'
                      = filter (fun t => negb (Trainer.id t =? trainer_id)%Z)
                               (trainers d)).
  { rewrite Hd'. simpl. rewrite Ht2, Htid. reflexivity. }
  assert (Hbatches : batches d' = map unassign (batches d)).
  { rewrite Hd'. simpl. exact Hb2. }
  assert (Husers : users d' = users d2) by (rewrite Hd'; reflexivity).
  split.
  { unfold get_trainer. rewrite Htrainers.
    apply (find_filter_negb _ (fun x => (Trainer.id x =? trainer_id)%Z)). }
  split.
  { intros t. rewrite Htrainers, filter_In, negb_true_iff, Z.eqb_neq. reflexivity. }
  split.
  { rewrite Hbatches, map_map. apply map_ext. intros b. unfold unassign.
    destruct (option_eqb Z.eqb (Batch.trainer_id b) (Some (Trainer.id trainer)));
      reflexivity. }
  split.
  { rewrite Hbatches, map_map. apply map_ext. intros b. unfold unassign.
    destruct (option_eqb Z.eqb (Batch.trainer_id b) (Some (Trainer.id trainer)));
      reflexivity. }
  split.
  { intros b Hb Hpoints. rewrite Hbatches in Hb. apply in_map_iff in Hb.
    destruct Hb as [b0 [Hb0 _]]. unfold unassign in Hb0.
    destruct (option_eqb Z.eqb (Batch.trainer_id b0) (Some (Trainer.id trainer)))
      eqn:E.
    - subst b. discriminate.
    - subst b0. rewrite <- Htid in Hpoints. apply option_Z_eqb_eq in Hpoints.
      congruence. }
  split.
  { intros b Hb Hother. rewrite Hbatches. apply in_map_iff. exists b.
    split; [|exact Hb]. unfold unassign.
    destruct (option_eqb Z.eqb (Batch.trainer_id b) (Some (Trainer.id trainer)))
      eqn:E; [|reflexivity].
    apply option_Z_eqb_eq in E. congruence. }
  split.
  { intros bid batch s' file notes now Hbatch Hassigned.
    assert (Hget' : get_batch d' bid = Some (unassign batch)).
    { unfold get_batch. rewrite Hbatches.
      rewrite (find_map_same _ (fun b => (Batch.id b =? bid)%Z) unassign).
      - unfold get_batch in Hbatch. rewrite Hbatch. reflexivity.
      - intros x. unfold unassign.
        destruct (option_eqb Z.eqb (Batch.trainer_id x) (Some (Trainer.id trainer)));
          reflexivity. }
    unfold upload. rewrite Hget'.
    rewrite is_assigned_trainer_unassigned.
    - rewrite andb_false_r. reflexivity.
    - unfold batch_trainer, unassign. rewrite Hassigned, Htid. simpl.
      rewrite Z.eqb_refl. reflexivity. }
  split.
  { intros u Hu x. rewrite Husers. unfold d2. rewrite Hu.
    pose proof (delete_user_effect d1 u) as H. cbv zeta in H.
    destruct H as [_ [H _]]. exact (H x). }
  split.
  { intros Hnone. rewrite Husers. unfold d2. rewrite Hnone. reflexivity. }
  split.
  { intros Hkeys x Hx Hother. rewrite Husers. unfold d2.
    destruct account as [u|] eqn:Eacc; [|exact Hx].
    pose proof (delete_user_effect d1 u) as H. cbv zeta in H.
    destruct H as [_ [H _]]. apply H. split; [exact Hx|].
    intros Hsame. unfold account in Eacc. apply find_some in Eacc.
    destruct Eacc as [Hu Hmatch]. apply andb_true_iff in Hmatch.
    destruct Hmatch as [Hmail Hrole].
    apply String.eqb_eq in Hmail. apply String.eqb_eq in Hrole.
    assert (x = u)
      by (apply (unique_key_row User.t User.id (users d)); assumption).
    subst x. destruct Hother as [Hother | Hother]; contradiction. }
  split.
  { rewrite Hd'. simpl. exact Hr2. }
  rewrite Hd'. simpl. exact Ho2.
Qed.

(** X20: no modelled route leaves a batch pointing at a trainer row that is
    not there.  From a store in which every trainer key of a batch is the
    key of a trainer row, the routes that write batches, trainers or
    accounts lead to such a store again, and [change_batch_trainer] never
    fails on the name of the old trainer: its only server error is the
    [OverflowError] of a batch or trainer key that cannot be bound. *)
Theorem trainer_refs_stay_valid :
  forall d s,
    trainer_refs_valid d ->
    (forall name description now,
        trainer_refs_valid (db_after (create_batch name description now s d)))
    /\ (forall m batch_id name description,
           trainer_refs_valid (db_after (edit_batch m batch_id name description s d)))
    /\ (forall batch_id, trainer_refs_valid (db_after (delete_batch batch_id s d)))
    /\ (forall m batch_id trainer_id,
           let o := change_batch_trainer m batch_id trainer_id s d in
           trainer_refs_valid (db_after o)
           /\ response o <> ServerError "AttributeError"
           /\ (forall e,
                  response o = ServerError e ->
                  e = "OverflowError"
                  /\ (int64 batch_id = false
                      \/ exists new_id,
                           int trainer_id = Some new_id /\ int64 new_id = false)))
    /\ (forall name email expertise salt now,
           trainer_refs_valid
             (db_after (create_trainer name email expertise salt now s d)))
    /\ (forall trainer_id,
           trainer_refs_valid (db_after (delete_trainer trainer_id s d)))
    /\ (forall user_id,
           trainer_refs_valid (db_after (delete_student user_id s d))).
Proof.
  intros d s Hvalid.
  assert (Hupdate : forall batch b1,
             In batch (batches d) ->
             (forall tid, Batch.trainer_id b1 = Some tid ->
                          exists t, get_trainer d tid = Some t) ->
             trainer_refs_valid (update_batch d b1)).
  { intros batch b1 Hin Hb1 b tid Hb Htid. unfold update_batch in Hb. simpl in Hb.
    apply in_map_iff in Hb. destruct Hb as [b0 [Hb0 Hin0]].
    change (get_trainer (update_batch d b1) tid) with (get_trainer d tid).
    destruct (Batch.id b0 =? Batch.id b1)%Z.
    - subst b. apply Hb1. exact Htid.
    - subst b0. apply (Hvalid b tid Hin0 Htid). }
  split; [|split; [|split; [|split; [|split; [|split]]]]].
  - intros name description now. unfold create_batch.
    destruct (negb (is_admin d s)); [exact Hvalid|].
    destruct (batch_by_name d name); [exact Hvalid|].
    intros b tid Hb Htid. simpl in Hb. apply in_app_or in Hb.
    destruct Hb as [Hb | [<- | []]]; [|discriminate].
    apply (Hvalid b tid Hb Htid).
  - intros m batch_id name description. unfold edit_batch.
    destruct (negb (is_admin d s)); [exact Hvalid|].
    destruct (get_batch d batch_id) as [batch|] eqn:Eb; [|exact Hvalid].
    destruct (get_batch_In d batch_id batch Eb) as [Hin _].
    destruct m; [exact Hvalid|].
    match goal with
    | |- context [find ?p (batches d)] => destruct (find p (batches d))
    end; [exact Hvalid|].
    simpl db_after. apply (Hupdate batch); [exact Hin|].
    intros tid Htid. simpl in Htid. apply (Hvalid batch tid Hin Htid).
  - intros batch_id. unfold delete_batch.
    destruct (negb (is_admin d s)); [exact Hvalid|].
    destruct (get_batch d batch_id) as [batch|]; [|exact Hvalid].
    intros b tid Hb Htid. simpl in Hb. apply filter_In in Hb. destruct Hb as [Hb _].
    apply (Hvalid b tid Hb Htid).
  - intros m batch_id trainer_id o.
    assert (Hall : trainer_refs_valid (db_after o)
                   /\ forall e,
                        response o = ServerError e ->
                        e = "OverflowError"
                        /\ (int64 batch_id = false
                            \/ exists new_id,
                                 int trainer_id = Some new_id
                                 /\ int64 new_id = false)).
    2: { destruct Hall as [H1 H2]. split; [exact H1|]. split; [|exact H2].
         intros He. destruct (H2 _ He) as [Hname _]. discriminate Hname. }
    unfold o, change_batch_trainer.
    destruct (negb (is_admin d s));
      [split; [exact Hvalid | intros e He; discriminate He]|].
    destruct (get_batch d batch_id) as [batch|] eqn:Eb.
    2: { split; [exact Hvalid|]. unfold not_found, response. simpl.
         destruct (int64 batch_id); intros e He; [discriminate He|].
         injection He as <-. split; [reflexivity | left; reflexivity]. }
    destruct (get_batch_In d batch_id batch Eb) as [Hin _].
    destruct m; [split; [exact Hvalid | intros e He; discriminate He]|].
    assert (Hold : forall old, Batch.trainer_id batch = Some old ->
                               batch_trainer d batch <> None).
    { intros old Eold. unfold batch_trainer. rewrite Eold.
      destruct (Hvalid batch old Hin Eold) as [t Ht]. rewrite Ht. discriminate. }
    destruct (trainer_id =? "none").
    + destruct (Batch.trainer_id batch) as [old|] eqn:Eold;
        [|split; [exact Hvalid | intros e He; discriminate He]].
      destruct (batch_trainer d batch) eqn:Et;
        [|exfalso; apply (Hold old eq_refl); reflexivity].
      split; [|intros e He; discriminate He]. simpl db_after.
      apply (Hupdate batch); [exact Hin|]. intros tid Htid. discriminate.
    + destruct (int trainer_id) as [new_id|];
        [|split; [exact Hvalid | intros e He; discriminate He]].
      destruct (get_trainer d new_id) as [new_trainer|] eqn:Enew.
      2: { destruct (int64 new_id) eqn:Ebig;
             [split; [exact Hvalid | intros e He; discriminate He]|].
           split; [exact Hvalid|]. intros e He. injection He as <-.
           split; [reflexivity|]. right. exists new_id. split; [reflexivity|exact Ebig]. }
      destruct (option_eqb Z.eqb (Batch.trainer_id batch) (Some new_id));
        [split; [exact Hvalid | intros e He; discriminate He]|].
      assert (Hnew : trainer_refs_valid
                       (update_batch d (set_batch_trainer (Some new_id) batch))).
      { apply (Hupdate batch); [exact Hin|]. intros tid Htid. simpl in Htid.
        injection Htid as <-. exists new_trainer. exact Enew. }
      destruct (Batch.trainer_id batch) as [old|] eqn:Eold;
        [|split; [exact Hnew | intros e He; discriminate He]].
      destruct (batch_trainer d batch) eqn:Et;
        [|exfalso; apply (Hold old eq_refl); reflexivity].
      split; [exact Hnew | intros e He; discriminate He].
  - intros name email expertise salt now. unfold create_trainer.
    destruct (negb (is_admin d s)); [exact Hvalid|].
    destruct (trainer_by_email d email); [exact Hvalid|].
    destruct (user_by_email d email); [exact Hvalid|].
    intros b tid Hb Htid. simpl in Hb.
    destruct (Hvalid b tid Hb Htid) as [t Ht]. exists t.
    unfold get_trainer. simpl. apply find_app_some. exact Ht.
  - intros trainer_id.
    destruct (is_admin d s) eqn:Hadmin;
      [|unfold delete_trainer; rewrite Hadmin; exact Hvalid].
    destruct (get_trainer d trainer_id) as [trainer|] eqn:Et;
      [|unfold delete_trainer; rewrite Hadmin, Et; exact Hvalid].
    destruct (delete_trainer_tables d s trainer_id trainer Hadmin Et) as [Ht' Hb'].
    intros b tid Hb Htid. rewrite Hb' in Hb. apply in_map_iff in Hb.
    destruct Hb as [b0 [Hb0 Hin0]].
    destruct (option_eqb Z.eqb (Batch.trainer_id b0) (Some (Trainer.id trainer)))
      eqn:E.
    + subst b. discriminate.
    + subst b0. destruct (Hvalid b tid Hin0 Htid) as [t Ht]. exists t.
      unfold get_trainer. rewrite Ht'.
      apply find_filter_keep; [exact Ht|].
      apply negb_true_iff. apply Z.eqb_neq. intros Hsame.
      unfold get_trainer in Ht. apply find_some in Ht. destruct Ht as [_ Ht].
      apply Z.eqb_eq in Ht.
      assert (Hpoints : Batch.trainer_id b = Some (Trainer.id trainer))
        by congruence.
      apply option_Z_eqb_eq in Hpoints. congruence.
  - intros user_id. unfold delete_student.
    destruct (negb (is_admin d s)); [exact Hvalid|].
    destruct (get_user d user_id) as [user|]; [|exact Hvalid].
    destruct (User.role user =? "admin"); exact Hvalid.
Qed.


(** ** New accounts *)

(** A session bound to the key of a row just added under the next key is
    the session of that row. *)
Lemma current_user_new_row :
  forall d u s,
    (forall x, In x (users d) -> 0 < User.id x) ->
    User.id u = next_id (map User.id (users d)) ->
    sess_user_id s = Some (User.id u) ->
    current_user d s = None
    /\ current_user (set_users d (users d ++ [u])) s = Some u.
Proof.
  intros d u s Hpos Hid Hs.
  assert (Hnz : 0 < User.id u).
  { rewrite Hid. apply next_id_positive. intros x Hx. apply in_map_iff in Hx.
    destruct Hx as [y [<- Hy]]. apply Hpos. exact Hy. }
  assert (E : (User.id u =? 0)%Z = false) by (apply Z.eqb_neq; lia).
  unfold current_user. rewrite Hs. simpl truthy_int. rewrite E. simpl negb.
  cbv iota. split.
  - unfold get_user.
    destruct (find (fun x => (User.id x =? User.id u)%Z) (users d)) as [x|] eqn:Ex;
      [|reflexivity].
    apply find_some in Ex. destruct Ex as [Hin Hx]. apply Z.eqb_eq in Hx.
    exfalso. apply (next_id_not_in (map User.id (users d))).
    rewrite <- Hid, <- Hx. apply in_map. exact Hin.
  - unfold get_user. simpl users. apply get_user_new_row. exact Hid.
Qed.

Lemma register_creates :
  forall d s name email password role salt now,
    user_by_email d email = None ->
    (role = Some "admin" -> admins d = []) ->
    register POST name email password role salt now s d
    = (Redirect "login" [MSG_ACCOUNT_CREATED], s,
       set_users d
         (users d ++
          [set_password salt password
             (User.mk (next_id (map User.id (users d))) name email ""
                      (match role with Some r => r | None => "student" end)
                      now None None None None)])).
Proof.
  intros d s name email password role salt now Hfree Hrole.
  unfold register. rewrite Hfree.
  set (r := match role with Some r => r | None => "student" end).
  destruct (r =? "admin") eqn:Er; [|reflexivity].
  apply String.eqb_eq in Er.
  assert (Hadm : admins d = []).
  { apply Hrole. unfold r in Er. destruct role as [x|]; [congruence | discriminate]. }
  destruct (admin_exists_iff d) as [Hnone _]. rewrite (Hnone Hadm). reflexivity.
Qed.

(** X21: [create_trainer] makes a matching pair.  With the address free in
    both tables, the route adds a trainer row and an account of role
    trainer with the same name and address, each under the next key of its
    table; the account logs in with the default password, and its dashboard
    and profile page find the trainer row.  With the address taken in
    either table, nothing is written. *)
Theorem create_trainer_pairs_account_and_profile :
  forall d s name email expertise salt now,
    is_admin d s = true ->
    check_password_hash (generate_password_hash salt "trainer123") "trainer123"
    = true ->
    (forall u, In u (users d) -> 0 < User.id u) ->
    let o := create_trainer name email expertise salt now s d in
    let d' := db_after o in
    (trainer_by_email d email <> None \/ user_by_email d email <> None ->
     d' = d /\ session_after o = s)
    /\ (trainer_by_email d email = None -> user_by_email d email = None ->
        exists u t,
          users d' = (users d ++ [u])%list
          /\ trainers d' = (trainers d ++ [t])%list
          /\ User.id u = next_id (map User.id (users d))
          /\ Trainer.id t = next_id (map Trainer.id (trainers d))
          /\ User.role u = "trainer"
          /\ User.name u = name /\ Trainer.name t = name
          /\ User.email u = email /\ Trainer.email t = email
          /\ batches d' = batches d
          /\ forall s0,
               let o1 := login POST email "trainer123" s0 d' in
               response o1 = Redirect "dashboard" [("Logged in", "success")]
               /\ current_user d' (session_after o1) = Some u
               /\ response (dashboard (session_after o1) d')
                  = Render "trainer_dashboard.html" []
               /\ forall form,
                    response (trainer_profile GET form (session_after o1) d')
                    = Render "trainer_profile.html" []).
Proof.
  intros d s name email expertise salt now Hadmin Hhash Hpos o d'.
  split.
  - intros Htaken. unfold d', o, create_trainer. rewrite Hadmin. simpl negb.
    cbv iota.
    destruct (trainer_by_email d email) as [t|]; [split; reflexivity|].
    destruct (user_by_email d email) as [u|]; [split; reflexivity|].
    destruct Htaken as [H | H]; exfalso; apply H; reflexivity.
  - intros Hnot Hnou.
    set (t := Trainer.mk (next_id (map Trainer.id (trainers d))) name email
                         (Some (match expertise with Some e => e | None => "" end))
                         None None None None).
    set (u := set_password salt "trainer123"
                (User.mk (next_id (map User.id (users d))) name email ""
                         "trainer" now None None None None)).
    assert (Hd' : d' = set_users (set_trainers d (trainers d ++ [t]))
                                 (users d ++ [u])).
    { unfold d', o, create_trainer. rewrite Hadmin, Hnot, Hnou. reflexivity. }
    clearbody d' o. subst d'.
    exists u, t. repeat (split; [reflexivity|]).
    intros s0 o1.
    assert (Hu : user_by_email
                   (set_users (set_trainers d (trainers d ++ [t])) (users d ++ [u]))
                   email = Some u).
    { unfold user_by_email. simpl users.
      apply find_app_new; [exact Hnou | apply String.eqb_refl]. }
    assert (Ht : trainer_by_email
                   (set_users (set_trainers d (trainers d ++ [t])) (users d ++ [u]))
                   email = Some t).
    { unfold trainer_by_email. simpl trainers.
      apply find_app_new; [exact Hnot | apply String.eqb_refl]. }
    set (s1 := mkSession (Some (User.id u)) (sess_reset_email s0)).
    assert (Ho1 : o1 = (Redirect "dashboard" [("Logged in", "success")], s1,
                        set_users (set_trainers d (trainers d ++ [t]))
                                  (users d ++ [u]))).
    { unfold o1, login. rewrite Hu. unfold check_password.
      simpl User.password_hash. rewrite Hhash. reflexivity. }
    clearbody o1. subst o1. cbn [response session_after fst snd].
    destruct (current_user_new_row (set_trainers d (trainers d ++ [t])) u s1
                Hpos eq_refl eq_refl) as [_ Hcur].
    change (users (set_trainers d (trainers d ++ [t]))) with (users d) in Hcur.
    split; [reflexivity|]. split; [exact Hcur|].
    split.
    + destruct (current_user_inv _ _ _ Hcur) as [uid [Hs [Htruthy [Hget _]]]].
      unfold dashboard. rewrite Hs, Htruthy, Hget.
      simpl negb. cbv iota.
      change (User.role u) with "trainer". simpl String.eqb. cbv iota.
      change (User.email u) with email. rewrite Ht. reflexivity.
    + intros form. unfold trainer_profile. rewrite Hcur.
      change (User.role u) with "trainer". simpl String.eqb. simpl negb. cbv iota.
      change (User.email u) with email. rewrite Ht. reflexivity.
Qed.

(** X22: keys are handed out again.  A new account gets the next key of
    the user table, one more than the greatest key in use, and a session is
    bound to a key only: a session that holds that key -- left over from an
    account deleted since -- belongs to nobody before the registration and
    to the new account after it. *)
Theorem register_revives_a_stale_session :
  forall d s s0 name email password role salt now,
    user_by_email d email = None ->
    (role = Some "admin" -> admins d = []) ->
    (forall u, In u (users d) -> 0 < User.id u) ->
    sess_user_id s0 = Some (next_id (map User.id (users d))) ->
    let o := register POST name email password role salt now s d in
    current_user d s0 = None
    /\ exists u,
         current_user (db_after o) s0 = Some u
         /\ User.name u = name /\ User.email u = email
         /\ User.role u = match role with Some r => r | None => "student" end.
Proof.
  intros d s s0 name email password role salt now Hfree Hrole Hpos Hs0 o.
  unfold o. rewrite (register_creates d s name email password role salt now
                       Hfree Hrole).
  simpl db_after.
  set (u := set_password salt password
              (User.mk (next_id (map User.id (users d))) name email ""
                       (match role with Some r => r | None => "student" end)
                       now None None None None)).
  destruct (current_user_new_row d u s0 Hpos eq_refl Hs0) as [Hbefore Hafter].
  split; [exact Hbefore|]. exists u. split; [exact Hafter|]. repeat split.
Qed.


(** ** Marking a recording twice *)

(** After [update_progress] the student's first row for the recording is a
    completed one, and the keys are still unique. *)
Lemma marked_rows_first :
  forall d uid rid now,
    progress_keys_unique d ->
    let mine := fun p =>
      (option_eqb Z.eqb (StudentProgress.user_id p) (Some uid)
       && option_eqb Z.eqb (StudentProgress.recording_id p) rid)%bool in
    NoDup (map StudentProgress.id (marked_rows d uid rid now))
    /\ exists row,
         find mine (marked_rows d uid rid now) = Some row
         /\ StudentProgress.completed row = true
         /\ StudentProgress.completed_at row = Some now.
Proof.
  intros d uid rid now Hkeys mine. unfold marked_rows. fold mine.
  destruct (find mine (progress d)) as [row0|] eqn:E.
  - split.
    + rewrite map_map.
      replace (map _ (progress d)) with (map StudentProgress.id (progress d));
        [exact Hkeys|].
      apply map_ext. intros p.
      destruct (StudentProgress.id p =? StudentProgress.id row0)%Z; reflexivity.
    + rewrite (find_map_same _ mine).
      * rewrite E. simpl. rewrite Z.eqb_refl. eexists. split; [reflexivity|].
        split; reflexivity.
      * intros p. destruct (StudentProgress.id p =? StudentProgress.id row0)%Z;
          reflexivity.
  - split.
    + rewrite map_app. simpl. apply NoDup_snoc; [exact Hkeys | apply next_id_not_in].
    + eexists. split.
      * apply find_app_new; [exact E|]. unfold mine. simpl.
        rewrite Z.eqb_refl.
        destruct rid as [r|]; simpl; [rewrite Z.eqb_refl|]; reflexivity.
      * split; reflexivity.
Qed.

(** A map that rewrites the rows of one key rewrites one row when keys are
    unique. *)
Lemma map_one_row :
  forall (before after : list StudentProgress.t) (row : StudentProgress.t)
         (g : StudentProgress.t -> StudentProgress.t),
    NoDup (map StudentProgress.id (before ++ row :: after)) ->
    map (fun p => if (StudentProgress.id p =? StudentProgress.id row)%Z
                  then g p else p)
        (before ++ row :: after)
    = (before ++ g row :: after)%list.
Proof.
  intros before after row g Hnd.
  assert (Hother : forall p, In p before \/ In p after ->
                             (StudentProgress.id p =? StudentProgress.id row)%Z = false).
  { intros p Hp. apply Z.eqb_neq. intros Hsame.
    rewrite map_app in Hnd. simpl in Hnd. apply NoDup_remove_2 in Hnd.
    apply Hnd. rewrite <- Hsame. apply in_or_app.
    destruct Hp as [Hp | Hp]; [left | right]; apply in_map; exact Hp. }
  rewrite map_app. simpl. rewrite Z.eqb_refl. f_equal; [|f_equal].
  - rewrite <- (map_id before) at 2. apply map_ext_in. intros p Hp.
    rewrite (Hother p (or_introl Hp)). reflexivity.
  - rewrite <- (map_id after) at 2. apply map_ext_in. intros p Hp.
    rewrite (Hother p (or_intror Hp)). reflexivity.
Qed.

(** X23: marking a recording a second time changes one timestamp and
    nothing else.  For a recording id that can be bound (null or a signed
    64-bit integer), after a student's first call the progress table holds a
    completed row of the student for the recording, stamped with the time of
    that call; the second call answers success and leaves the store as the
    first left it but for that one row, which now carries the time of the
    second call: no other row, no other field of the row and no other table
    changes. *)
Theorem update_progress_twice :
  forall d s user rid now1 now2,
    current_user d s = Some user -> User.role user = "student" ->
    (forall z, rid = Some z -> int64 z = true) ->
    progress_keys_unique d ->
    let o1 := update_progress rid now1 s d in
    let o2 := update_progress rid now2 (session_after o1) (db_after o1) in
    let d1 := db_after o1 in
    let d2 := db_after o2 in
    response o2 = Json "success" "Progress updated" 200
    /\ session_after o2 = s
    /\ d1 = set_progress d (progress d1)
    /\ progress_keys_unique d1
    /\ exists before row after,
         progress d1 = (before ++ row :: after)%list
         /\ StudentProgress.user_id row = Some (User.id user)
         /\ StudentProgress.recording_id row = rid
         /\ StudentProgress.completed row = true
         /\ StudentProgress.completed_at row = Some now1
         /\ d2 = set_progress d1 (before ++ with_time now2 row :: after).
Proof.
  intros d s user rid now1 now2 Hcur Hrole Hrange Hkeys o1 o2 d1 d2.
  assert (Hfits : recording_key_fits d rid = true).
  { destruct rid as [z|]; [|reflexivity]. apply int64_fits. apply Hrange. reflexivity. }
  assert (Ho1 : o1 = (Json "success" "Progress updated" 200, s,
                      set_progress d (marked_rows d (User.id user) rid now1)))
    by (apply update_progress_student; assumption).
  set (l1 := marked_rows d (User.id user) rid now1) in *.
  assert (Hcur1 : current_user (set_progress d l1) s = Some user)
    by (rewrite (current_user_same_users d (set_progress d l1) s eq_refl);
        exact Hcur).
  assert (Ho2 : o2 = (Json "success" "Progress updated" 200, s,
                      set_progress (set_progress d l1)
                        (marked_rows (set_progress d l1) (User.id user) rid now2))).
  { unfold o2. rewrite Ho1. unfold session_after, db_after. simpl fst. simpl snd.
    apply update_progress_student; assumption. }
  assert (Hd1 : d1 = set_progress d l1) by (unfold d1; rewrite Ho1; reflexivity).
  assert (Hd2 : d2 = set_progress (set_progress d l1)
                       (marked_rows (set_progress d l1) (User.id user) rid now2))
    by (unfold d2; rewrite Ho2; reflexivity).
  clearbody d1 d2 o1 o2. subst d1 d2 o2.
  destruct (marked_rows_first d (User.id user) rid now1 Hkeys) as [Hkeys1 Hrow].
  fold l1 in Hkeys1, Hrow. destruct Hrow as [row1 [Hfind [Hdone Htime]]].
  assert (Hl2 : marked_rows (set_progress d l1) (User.id user) rid now2
                = map (fun p =>
                         if (StudentProgress.id p =? StudentProgress.id row1)%Z then
                           StudentProgress.mk (StudentProgress.id p)
                                              (StudentProgress.user_id p)
                                              (StudentProgress.recording_id p)
                                              true (Some now2)
                         else p) l1).
  { unfold marked_rows. simpl progress. rewrite Hfind. reflexivity. }
  pose proof (find_some _ _ Hfind) as [Hin Hmine].
  apply andb_true_iff in Hmine. destruct Hmine as [Hu Hr].
  apply option_Z_eqb_eq in Hu. apply option_Z_eqb_eq in Hr.
  destruct (in_split row1 l1 Hin) as [before [after Hsplit]].
  split; [reflexivity|]. split; [reflexivity|]. split; [reflexivity|].
  split; [exact Hkeys1|].
  exists before, row1, after. simpl progress.
  split; [exact Hsplit|]. repeat (split; [assumption|]).
  rewrite Hl2. f_equal. rewrite Hsplit.
  rewrite Hsplit in Hkeys1.
  rewrite (map_one_row before after row1
             (fun p => StudentProgress.mk (StudentProgress.id p)
                                          (StudentProgress.user_id p)
                                          (StudentProgress.recording_id p)
                                          true (Some now2)) Hkeys1).
  unfold with_time. rewrite Hdone. reflexivity.
Qed.

(** ** A trainer who changes address *)

(** X24: a trainer who changes address is locked out.  When the new address
    is free in both tables, [update_security] rewrites the account row and
    leaves the trainer table as it was; from then on the trainer's dashboard
    answers "Trainer profile link broken", the trainer's profile page is
    404, and uploads to the batches the trainer was assigned to are
    refused. *)
Theorem trainer_who_changes_address_is_locked_out :
  forall d s user current new_password new_email salt,
    current_user d s = Some user -> User.role user = "trainer" ->
    check_password user current = true ->
    (forall p, new_password = Some p -> p = "" \/ 6 <= len p) ->
    new_email <> "" -> new_email <> User.email user ->
    (forall u, In u (users d) -> User.email u <> new_email) ->
    (forall t, In t (trainers d) -> Trainer.email t <> new_email) ->
    let o := update_security current new_password (Some new_email) salt s d in
    let d' := db_after o in
    session_after o = s
    /\ (exists account,
           current_user d' s = Some account
           /\ User.email account = new_email /\ User.role account = "trainer")
    /\ trainers d' = trainers d /\ batches d' = batches d
    /\ dashboard s d'
       = (Redirect "logout"
            [("Trainer profile link broken. Please contact admin.", "danger")],
          s, d')
    /\ (forall m form, trainer_profile m form s d' = (Abort 404 [], s, d'))
    /\ (forall batch_id batch file notes now,
           get_batch d batch_id = Some batch -> assigned_to d batch user ->
           upload batch_id file notes now s d'
           = (Abort 403 [MSG_UPLOAD_DENIED], s, d')).
Proof.
  intros d s user current new_password e salt Hcur Hrole Hcheck Hpw He Hne
         Hfree Hnorow o d'.
  set (user1 := set_password_if new_password salt user).
  set (account := set_email e user1).
  assert (Hid1 : User.id user1 = User.id user /\ User.role user1 = "trainer").
  { unfold user1, set_password_if. destruct new_password as [p|]; [|split; auto].
    destruct (truthy_str (Some p)); split; auto. }
  destruct Hid1 as [Hid1 Hrole1].
  assert (Hfind : find (fun u => ((User.email u =? e)
                                  && negb (User.id u =? User.id user)%Z)%bool)
                       (users d) = None).
  { match goal with |- ?f = None => destruct f as [x|] eqn:Ex end; [|reflexivity].
    apply find_some in Ex. destruct Ex as [Hin Hx]. apply andb_true_iff in Hx.
    destruct Hx as [Hx _]. apply String.eqb_eq in Hx.
    exfalso. apply (Hfree x Hin Hx). }
  assert (Hnot : trainer_by_email d e = None).
  { unfold trainer_by_email.
    destruct (find (fun t => Trainer.email t =? e) (trainers d)) as [t|] eqn:Et;
      [|reflexivity].
    apply find_some in Et. destruct Et as [Hin Ht]. apply String.eqb_eq in Ht.
    exfalso. apply (Hnorow t Hin Ht). }
  assert (Ho : exists flashes,
             o = (Redirect "profile" flashes, s, update_user d account)).
  { assert (Hchange : change_email e user1 d = update_user d account).
    { rewrite (change_email_trainer e user1 d Hrole1), Hnot. reflexivity. }
    rewrite <- Hchange.
    unfold o, update_security. rewrite Hcur, Hcheck. simpl negb. cbv iota.
    assert (Hok : match new_password with
                  | Some p => (truthy_str (Some p) && (len p <? 6)%Z)%bool
                  | None => false
                  end = false).
    { destruct new_password as [p|]; [|reflexivity].
      destruct (Hpw p eq_refl) as [-> | Hlen]; [reflexivity|].
      replace (len p <? 6)%Z with false by (symmetry; apply Z.ltb_ge; exact Hlen).
      apply andb_false_r. }
    rewrite Hok. rewrite (truthy_nonempty e He).
    apply String.eqb_neq in Hne. rewrite Hne. simpl andb. cbv iota.
    rewrite Hfind. unfold user1, set_password_if.
    destruct new_password as [p|]; [destruct (truthy_str (Some p))|];
      eexists; reflexivity. }
  destruct Ho as [flashes Ho].
  assert (Hd' : d' = update_user d account) by (unfold d'; rewrite Ho; reflexivity).
  clearbody d' o. subst d' o.
  destruct (current_user_inv d s user Hcur) as [uid [Hs [Htruthy [Hget Huid]]]].
  assert (Hget' : get_user (update_user d account) uid = Some account).
  { apply (get_user_update_user d uid user account Hget).
    unfold account. simpl. congruence. }
  assert (Hcur' : current_user (update_user d account) s = Some account).
  { unfold current_user. rewrite Hs, Htruthy. exact Hget'. }
  assert (Hnot' : trainer_by_email (update_user d account) (User.email account)
                  = None) by exact Hnot.
  split; [reflexivity|]. split.
  { exists account. split; [exact Hcur'|]. split; [reflexivity | exact Hrole1]. }
  split; [reflexivity|]. split; [reflexivity|]. split.
  { unfold dashboard. rewrite Hs, Htruthy, Hget'. simpl negb. cbv iota.
    change (User.role account) with (User.role user1). rewrite Hrole1.
    simpl String.eqb. cbv iota. rewrite Hnot'. reflexivity. }
  split.
  { intros m form. unfold trainer_profile. rewrite Hcur'.
    change (User.role account) with (User.role user1). rewrite Hrole1.
    simpl String.eqb. simpl negb. cbv iota. rewrite Hnot'. reflexivity. }
  intros batch_id batch file notes now Hb [t [Ht Hmail]].
  assert (Hb' : get_batch (update_user d account) batch_id = Some batch) by exact Hb.
  assert (Ht' : batch_trainer (update_user d account) batch = Some t) by exact Ht.
  destruct (upload_by_trainer (update_user d account) s account batch_id batch t
              file notes now Hb' Hcur' Hrole1 Ht') as [_ Hno].
  apply Hno. change (User.email account) with e. congruence.
Qed.


(** ** Batch management inside the transition system *)

Lemma filter_all :
  forall (A : Type) (l : list A), filter (fun _ => true) l = l.
Proof.
  intros A l. induction l as [|x l IH]; [reflexivity|]. simpl. rewrite IH.
  reflexivity.
Qed.

Lemma step_batches_only :
  forall d d',
    users d' = users d -> trainers d' = trainers d ->
    otp_tokens d' = otp_tokens d -> enrollments d' = enrollments d ->
    recordings d' = recordings d ->
    step d d'.
Proof.
  intros d d' Hu Ht Ho He Hr. apply step_batch_management; try assumption.
  - exists (fun _ => true). rewrite filter_all. exact He.
  - exists (fun _ => true). rewrite filter_all. exact Hr.
Qed.

(** X25: the batch-management routes stay inside the frame the store
    invariants were proved for.  Creating, editing and deleting a batch and
    changing its trainer write neither accounts, trainers nor recovery
    codes and add no enrollment and no recording, so each is a step of the
    store; from a store the application can be in they lead to such a store
    again, in which keys are unique, there is at most one admin, one
    recovery code per account and one enrollment per pair. *)
Theorem batch_management_routes_are_steps :
  forall d s d',
    (exists name description now,
        d' = db_after (create_batch name description now s d))
    \/ (exists batch_id, d' = db_after (delete_batch batch_id s d))
    \/ (exists m batch_id name description,
           d' = db_after (edit_batch m batch_id name description s d))
    \/ (exists m batch_id trainer_id,
           d' = db_after (change_batch_trainer m batch_id trainer_id s d)) ->
    step d d'
    /\ (reachable d ->
        reachable d'
        /\ user_keys_unique d' /\ trainer_keys_unique d'
        /\ recording_keys_unique d'
        /\ (List.length (admins d') <= 1)%nat
        /\ one_code_per_account d' /\ one_enrollment_per_pair d').
Proof.
  intros d s d' Hroute.
  assert (Hstep : step d d').
  { destruct Hroute as [[name [description [now ->]]]
                       | [[batch_id ->]
                         | [[m [batch_id [name [description ->]]]]
                           | [m [batch_id [trainer_id ->]]]]]].
    - unfold create_batch. repeat break_match; apply step_batches_only; reflexivity.
    - unfold delete_batch.
      destruct (negb (is_admin d s)); [apply step_batches_only; reflexivity|].
      destruct (get_batch d batch_id) as [b|];
        [|apply step_batches_only; reflexivity].
      apply step_batch_management; try reflexivity.
      + eexists. simpl. reflexivity.
      + eexists. simpl. reflexivity.
    - unfold edit_batch. repeat break_match; apply step_batches_only; reflexivity.
    - unfold change_batch_trainer.
      repeat break_match; apply step_batches_only; reflexivity. }
  split; [exact Hstep|]. intros Hreach.
  assert (Hreach' : reachable d') by (apply (reachable_step d d' Hreach Hstep)).
  destruct (reachable_keys_unique d' Hreach') as [Htk Hrk].
  destruct (reachable_admin_invariant d' Hreach') as [Huk Hadm].
  repeat split; try assumption.
  - apply reachable_one_code. exact Hreach'.
  - apply reachable_one_enrollment. exact Hreach'.
Qed.

(** ** Profile pages *)

Lemma trainer_by_email_In :
  forall d email t,
    trainer_by_email d email = Some t -> In t (trainers d) /\ Trainer.email t = email.
Proof.
  intros d email t H. unfold trainer_by_email in H. apply find_some in H.
  destruct H as [Hin Hmail]. apply String.eqb_eq in Hmail. split; assumption.
Qed.

(** What [handle_profile_update] keeps of the two tables it writes. *)
Lemma handle_profile_update_keeps :
  forall form user trainer d,
    user_keys_unique d -> trainer_keys_unique d ->
    In user (users d) ->
    (forall t, trainer = Some t -> In t (trainers d)) ->
    let d' := snd (handle_profile_update form user trainer d) in
    map credentials (users d') = map credentials (users d)
    /\ map Trainer.id (trainers d') = map Trainer.id (trainers d)
    /\ map Trainer.email (trainers d') = map Trainer.email (trainers d)
    /\ get_user d' (User.id user)
       = Some (set_user_profile form (profile_pic_name form user trainer) user)
    /\ batches d' = batches d /\ enrollments d' = enrollments d
    /\ recordings d' = recordings d /\ progress d' = progress d
    /\ otp_tokens d' = otp_tokens d /\ uploads d' = uploads d.
Proof.
  intros form user trainer d Huk Htk Hin Htin d'.
  set (pic := profile_pic_name form user trainer).
  set (d1 := update_user d (set_user_profile form pic user)).
  assert (Hd' : d' = match trainer with
                     | Some t => update_trainer d1 (set_trainer_profile form pic t)
                     | None => d1
                     end) by reflexivity.
  clearbody d'. subst d'.
  assert (Hu1 : map credentials (users d1) = map credentials (users d)).
  { unfold d1, update_user. simpl users. rewrite map_map. apply map_ext_in.
    intros x Hx. simpl.
    destruct (User.id x =? User.id user)%Z eqn:E; [|reflexivity].
    apply Z.eqb_eq in E.
    assert (x = user)
      by (apply (unique_key_row User.t User.id (users d)); assumption).
    subst x. reflexivity. }
  assert (Hg1 : get_user d1 (User.id user) = Some (set_user_profile form pic user)).
  { apply (get_user_update_user d (User.id user) user).
    - apply get_user_of_member; assumption.
    - reflexivity. }
  destruct trainer as [t|].
  - specialize (Htin t eq_refl).
    assert (Ht : forall (B : Type) (f : Trainer.t -> B),
               f (set_trainer_profile form pic t) = f t ->
               map f (trainers (update_trainer d1 (set_trainer_profile form pic t)))
               = map f (trainers d)).
    { intros B f Hf. unfold update_trainer. simpl trainers. rewrite map_map.
      apply map_ext_in. intros x Hx. simpl.
      destruct (Trainer.id x =? Trainer.id t)%Z eqn:E; [|reflexivity].
      apply Z.eqb_eq in E.
      assert (x = t)
        by (apply (unique_key_row Trainer.t Trainer.id (trainers d)); assumption).
      subst x. exact Hf. }
    split; [exact Hu1|]. split; [apply Ht; reflexivity|].
    split; [apply Ht; reflexivity|]. split; [exact Hg1|]. repeat split.
  - split; [exact Hu1|]. split; [reflexivity|]. split; [reflexivity|].
    split; [exact Hg1|]. repeat split.
Qed.

(** X26: the profile pages cannot touch credentials.  Whatever the form
    carries, the three profile routes leave every account's key, address,
    password hash and role and every trainer row's key and address as they
    were, and write no other table; a POST by an account of the route's
    role stores the name of the form in the account's row. *)
Theorem profile_forms_keep_credentials :
  forall d s m form,
    user_keys_unique d -> trainer_keys_unique d ->
    forall o,
      o = admin_profile m form s d \/ o = trainer_profile m form s d
      \/ o = student_profile m form s d ->
      let d' := db_after o in
      session_after o = s
      /\ map credentials (users d') = map credentials (users d)
      /\ map Trainer.id (trainers d') = map Trainer.id (trainers d)
      /\ map Trainer.email (trainers d') = map Trainer.email (trainers d)
      /\ batches d' = batches d /\ enrollments d' = enrollments d
      /\ recordings d' = recordings d /\ progress d' = progress d
      /\ otp_tokens d' = otp_tokens d /\ uploads d' = uploads d
      /\ (forall user flashes route,
             current_user d s = Some user -> m = POST ->
             response o = Redirect route flashes ->
             exists row, get_user d' (User.id user) = Some row
                         /\ User.name row = f_name form
                         /\ credentials row = credentials user).
Proof.
  intros d s m form Huk Htk o Ho d'.
  assert (Hsame : forall r, o = (r, s, d) ->
                            (forall route flashes, r <> Redirect route flashes) ->
            session_after o = s
            /\ map credentials (users d') = map credentials (users d)
            /\ map Trainer.id (trainers d') = map Trainer.id (trainers d)
            /\ map Trainer.email (trainers d') = map Trainer.email (trainers d)
            /\ batches d' = batches d /\ enrollments d' = enrollments d
            /\ recordings d' = recordings d /\ progress d' = progress d
            /\ otp_tokens d' = otp_tokens d /\ uploads d' = uploads d
            /\ (forall user flashes route,
                   current_user d s = Some user -> m = POST ->
                   response o = Redirect route flashes ->
                   exists row, get_user d' (User.id user) = Some row
                               /\ User.name row = f_name form
                               /\ credentials row = credentials user)).
  { intros r Hr Hnot. unfold d'. rewrite Hr. repeat (split; [reflexivity|]).
    intros user flashes route _ _ Hresp. exfalso.
    apply (Hnot route flashes). exact Hresp. }
  assert (Hpost : forall user trainer route,
             current_user d s = Some user ->
             (forall t, trainer = Some t -> In t (trainers d)) ->
             o = (let '(flashes, d2) := handle_profile_update form user trainer d in
                  (Redirect route flashes, s, d2)) ->
            session_after o = s
            /\ map credentials (users d') = map credentials (users d)
            /\ map Trainer.id (trainers d') = map Trainer.id (trainers d)
            /\ map Trainer.email (trainers d') = map Trainer.email (trainers d)
            /\ batches d' = batches d /\ enrollments d' = enrollments d
            /\ recordings d' = recordings d /\ progress d' = progress d
            /\ otp_tokens d' = otp_tokens d /\ uploads d' = uploads d
            /\ (forall user0 flashes route0,
                   current_user d s = Some user0 -> m = POST ->
                   response o = Redirect route0 flashes ->
                   exists row, get_user d' (User.id user0) = Some row
                               /\ User.name row = f_name form
                               /\ credentials row = credentials user0)).
  { intros user trainer route Hcur Htin Hr.
    pose proof (handle_profile_update_keeps form user trainer d Huk Htk
                  (current_user_In d s user Hcur) Htin) as H.
    cbv zeta in H.
    assert (Hd' : d' = snd (handle_profile_update form user trainer d)).
    { unfold d'. rewrite Hr. reflexivity. }
    rewrite <- Hd' in H.
    destruct H as [H1 [H2 [H3 [H4 [H5 [H6 [H7 [H8 [H9 H10]]]]]]]]].
    split; [rewrite Hr; reflexivity|].
    repeat (split; [assumption|]).
    intros user0 flashes route0 Hcur0 _ _.
    assert (user0 = user) by congruence. subst user0.
    eexists. split; [exact H4|]. split; reflexivity. }
  destruct Ho as [Ho | [Ho | Ho]].
  - unfold admin_profile in Ho.
    destruct (negb (is_admin d s));
      [apply (Hsame _ Ho); intros; discriminate|].
    destruct (current_user d s) as [user|] eqn:Hcur;
      [|apply (Hsame _ Ho); intros; discriminate].
    destruct m; [apply (Hsame _ Ho); intros; discriminate|].
    apply (Hpost user None "admin_profile" eq_refl); [intros t Ht; discriminate|].
    exact Ho.
  - unfold trainer_profile in Ho.
    destruct (current_user d s) as [user|] eqn:Hcur;
      [|apply (Hsame _ Ho); intros; discriminate].
    destruct (negb (User.role user =? "trainer"));
      [apply (Hsame _ Ho); intros; discriminate|].
    destruct (trainer_by_email d (User.email user)) as [t|] eqn:Et;
      [|apply (Hsame _ Ho); intros; discriminate].
    destruct m; [apply (Hsame _ Ho); intros; discriminate|].
    apply (Hpost user (Some t) "trainer_profile" eq_refl); [|exact Ho].
    intros t0 Ht0. injection Ht0 as <-.
    apply (trainer_by_email_In d (User.email user) t Et).
  - unfold student_profile in Ho.
    destruct (current_user d s) as [user|] eqn:Hcur;
      [|apply (Hsame _ Ho); intros; discriminate].
    destruct (negb (User.role user =? "student"));
      [apply (Hsame _ Ho); intros; discriminate|].
    destruct m; [apply (Hsame _ Ho); intros; discriminate|].
    apply (Hpost user None "student_profile" eq_refl); [intros t Ht; discriminate|].
    exact Ho.
Qed.

(** ** Enrollments that point nowhere *)

Lemma student_metrics_missing_batch :
  forall d uid es acc,
    (exists e, In e es /\ enrollment_batch d e = None) ->
    student_metrics d uid es acc = None.
Proof.
  intros d uid es. induction es as [|e0 rest IH]; intros acc [e [Hin Hnone]].
  - contradiction.
  - simpl. destruct (enrollment_batch d e0) as [b|] eqn:E0; [|reflexivity].
    apply IH. destruct Hin as [-> | Hin]; [congruence|].
    exists e. split; assumption.
Qed.

(** X27: [enroll_student] checks neither the account nor the batch.  For
    any two keys SQLite can hold (signed 64-bit integers) that the form
    parses to, the pair is enrolled afterwards, whether or not rows with
    these keys exist.  If the batch does not exist, the dashboard of the
    enrolled student fails from then on; if the account does not exist, the
    enrollment list of the batch does. *)
Theorem enroll_student_checks_no_existence :
  forall d s us bs uid bid now,
    is_admin d s = true -> us <> "" -> bs <> "" ->
    int us = Some uid -> int bs = Some bid ->
    int64 uid = true -> int64 bid = true ->
    let o := enroll_student (Some us) (Some bs) now s d in
    let d' := db_after o in
    (exists flashes, response o = Redirect "admin_dashboard" flashes)
    /\ is_enrolled d' uid bid = true
    /\ users d' = users d /\ batches d' = batches d
    /\ (get_batch d bid = None ->
        forall s' user,
          current_user d s' = Some user -> User.id user = uid ->
          User.role user <> "admin" -> User.role user <> "trainer" ->
          dashboard s' d' = (ServerError "AttributeError", s', d'))
    /\ (get_user d uid = None ->
        forall s' batch,
          get_batch d bid = Some batch ->
          is_admin d s' = true \/ is_trainer d s' = true ->
          view_batch_enrollments bid s' d' = (ServerError "AttributeError", s', d')).
Proof.
  intros d s us bs uid bid now Hadmin Hus Hbs Hiu Hib Hu64 Hb64 o d'.
  set (pair := fun e =>
         (option_eqb Z.eqb (Enrollment.user_id e) (Some uid)
          && option_eqb Z.eqb (Enrollment.batch_id e) (Some bid))%bool).
  assert (Ho : exists flashes es,
             o = (Redirect "admin_dashboard" flashes, s, set_enrollments d es)
             /\ exists e, find pair es = Some e).
  { unfold o, enroll_student. rewrite Hadmin.
    rewrite (truthy_nonempty us Hus), (truthy_nonempty bs Hbs), Hiu, Hib.
    rewrite Hu64, Hb64.
    simpl negb. simpl orb. cbv iota. fold pair.
    destruct (find pair (enrollments d)) as [e|] eqn:E.
    - exists [MSG_ALREADY_ENROLLED], (enrollments d). split.
      + destruct d; reflexivity.
      + exists e. exact E.
    - eexists. eexists. split; [reflexivity|]. eexists.
      apply find_app_new; [exact E|]. unfold pair. simpl.
      rewrite !Z.eqb_refl. reflexivity. }
  destruct Ho as [flashes [es [Ho [e He]]]].
  assert (Hd' : d' = set_enrollments d es) by (unfold d'; rewrite Ho; reflexivity).
  clearbody d' o. subst d' o.
  pose proof (find_some _ _ He) as [Hin Hpair].
  unfold pair in Hpair. apply andb_true_iff in Hpair. destruct Hpair as [Hu Hb].
  pose proof Hu as Hu'. pose proof Hb as Hb'.
  apply option_Z_eqb_eq in Hu'. apply option_Z_eqb_eq in Hb'.
  split; [exists flashes; reflexivity|]. split.
  { unfold is_enrolled. simpl enrollments. fold pair. rewrite He. reflexivity. }
  split; [reflexivity|]. split; [reflexivity|]. split.
  - intros Hnobatch s' user Hcur Hid Hna Hnt.
    destruct (current_user_inv d s' user Hcur) as [k [Hs [Htruthy [Hget _]]]].
    unfold dashboard. rewrite Hs, Htruthy.
    change (get_user (set_enrollments d es) k) with (get_user d k). rewrite Hget.
    apply String.eqb_neq in Hna. apply String.eqb_neq in Hnt. rewrite Hna, Hnt.
    simpl negb. cbv iota.
    rewrite student_metrics_missing_batch; [reflexivity|].
    exists e. split.
    + apply filter_In. split; [exact Hin|]. rewrite Hid. exact Hu.
    + unfold enrollment_batch. rewrite Hb'. exact Hnobatch.
  - intros Hnouser s' batch Hbatch Hrole.
    unfold view_batch_enrollments.
    change (is_admin (set_enrollments d es) s') with (is_admin d s').
    change (is_trainer (set_enrollments d es) s') with (is_trainer d s').
    assert (E : (is_admin d s' || is_trainer d s')%bool = true)
      by (destruct Hrole as [-> | ->]; [reflexivity | apply orb_true_r]).
    rewrite E. simpl negb. cbv iota.
    change (get_batch (set_enrollments d es) bid) with (get_batch d bid).
    rewrite Hbatch.
    destruct (get_batch_In d bid batch Hbatch) as [_ Hbid].
    match goal with
    | |- (if ?c then _ else _) = _ => destruct c eqn:Eall
    end; [|reflexivity].
    exfalso. rewrite forallb_forall in Eall.
    assert (Hlisted : In e (filter (fun e0 => option_eqb Z.eqb (Enrollment.batch_id e0)
                                                         (Some (Batch.id batch)))
                                   (enrollments (set_enrollments d es)))).
    { apply filter_In. split; [exact Hin|]. rewrite Hbid. exact Hb. }
    specialize (Eall e Hlisted). unfold enrollment_user in Eall. rewrite Hu' in Eall.
    change (get_user (set_enrollments d es) uid) with (get_user d uid) in Eall.
    rewrite Hnouser in Eall. discriminate.
Qed.


(** ** Roles nobody checked *)

(** X28: [register] takes the role from the form as it comes.  Registering
    with role trainer creates a trainer account and no trainer row.  If no
    trainer row carries the address, the account's dashboard answers
    "Trainer profile link broken"; if one does -- a row left behind when
    its account was deleted -- the new account gets that trainer's
    dashboard and passes the upload check of every batch assigned to the
    row. *)
Theorem register_as_trainer_takes_over_a_profile :
  forall d s name email password salt now,
    user_by_email d email = None ->
    check_password_hash (generate_password_hash salt password) password = true ->
    (forall u, In u (users d) -> 0 < User.id u) ->
    let o := register POST name email password (Some "trainer") salt now s d in
    let d' := db_after o in
    let o1 := login POST email password (session_after o) d' in
    let s1 := session_after o1 in
    trainers d' = trainers d /\ batches d' = batches d
    /\ (exists u,
           current_user d' s1 = Some u
           /\ User.role u = "trainer" /\ User.email u = email)
    /\ (trainer_by_email d email = None ->
        dashboard s1 d'
        = (Redirect "logout"
             [("Trainer profile link broken. Please contact admin.", "danger")],
           s1, d'))
    /\ (forall batch_id batch t file notes now',
           get_batch d batch_id = Some batch -> batch_trainer d batch = Some t ->
           Trainer.email t = email ->
           response (dashboard s1 d') = Render "trainer_dashboard.html" []
           /\ exists flashes d'',
                upload batch_id file notes now' s1 d'
                = (Redirect "view_batch" flashes, s1, d'')).
Proof.
  intros d s name email password salt now Hfree Hhash Hpos o d' o1 s1.
  set (u := set_password salt password
              (User.mk (next_id (map User.id (users d))) name email ""
                       "trainer" now None None None None)).
  assert (Ho : o = (Redirect "login" [MSG_ACCOUNT_CREATED], s,
                    set_users d (users d ++ [u]))).
  { unfold o. apply register_creates; [exact Hfree | discriminate]. }
  assert (Hd' : d' = set_users d (users d ++ [u]))
    by (unfold d'; rewrite Ho; reflexivity).
  assert (Hu : user_by_email d' email = Some u).
  { rewrite Hd'. unfold user_by_email. simpl users.
    apply find_app_new; [exact Hfree | apply String.eqb_refl]. }
  set (s0 := mkSession (Some (User.id u)) (sess_reset_email (session_after o))).
  assert (Ho1 : o1 = (Redirect "dashboard" [("Logged in", "success")], s0, d')).
  { unfold o1, login. rewrite Hu. unfold check_password.
    simpl User.password_hash. rewrite Hhash. reflexivity. }
  assert (Hs1 : s1 = s0) by (unfold s1; rewrite Ho1; reflexivity).
  clearbody s1 o1 d' o. subst s1 d'.
  destruct (current_user_new_row d u s0 Hpos eq_refl eq_refl) as [_ Hcur].
  destruct (current_user_inv _ _ _ Hcur) as [uid [Hs [Htruthy [Hget _]]]].
  split; [reflexivity|]. split; [reflexivity|]. split.
  { exists u. split; [exact Hcur|]. split; reflexivity. }
  split.
  - intros Hnone. unfold dashboard. rewrite Hs, Htruthy, Hget.
    simpl negb. cbv iota.
    change (User.role u) with "trainer". simpl String.eqb. cbv iota.
    change (trainer_by_email (set_users d (users d ++ [u])) (User.email u))
      with (trainer_by_email d email).
    rewrite Hnone. reflexivity.
  - intros batch_id batch t file notes now' Hb Ht Hmail. split.
    + assert (Hrow : exists t0, trainer_by_email d email = Some t0).
      { unfold trainer_by_email.
        destruct (find (fun x => Trainer.email x =? email) (trainers d)) as [t0|]
          eqn:E; [eauto|].
        exfalso. unfold batch_trainer in Ht.
        destruct (Batch.trainer_id batch) as [tid|]; [|discriminate].
        unfold get_trainer in Ht. apply find_some in Ht. destruct Ht as [Hin _].
        pose proof (find_none _ _ E t Hin) as Hno. simpl in Hno.
        rewrite Hmail, String.eqb_refl in Hno. discriminate. }
      destruct Hrow as [t0 Ht0].
      unfold dashboard. rewrite Hs, Htruthy, Hget. simpl negb. cbv iota.
      change (User.role u) with "trainer". simpl String.eqb. cbv iota.
      change (trainer_by_email (set_users d (users d ++ [u])) (User.email u))
        with (trainer_by_email d email).
      rewrite Ht0. reflexivity.
    + assert (Hb' : get_batch (set_users d (users d ++ [u])) batch_id = Some batch)
        by exact Hb.
      assert (Ht' : batch_trainer (set_users d (users d ++ [u])) batch = Some t)
        by exact Ht.
      destruct (upload_by_trainer (set_users d (users d ++ [u])) s0 u batch_id
                  batch t file notes now' Hb' Hcur eq_refl Ht') as [Hyes _].
      apply Hyes. exact Hmail.
Qed.

(** X29: where [/profile] sends an account.  An admin and a student are sent
    to a page that renders; a trainer is sent to a page that renders exactly
    when a trainer row carries the account's address, and is 404 otherwise;
    an account of any other role is sent to the student page, which answers
    403; without a session the route sends to the login page. *)
Theorem profile_dispatch :
  forall d s form,
    (current_user d s = None ->
     profile s d
     = (Redirect "login" [("Please log in to view your profile.", "danger")], s, d))
    /\ forall user,
         current_user d s = Some user ->
         (User.role user = "admin" ->
          profile s d = (Redirect "admin_profile" [], s, d)
          /\ admin_profile GET form s d = (Render "admin_profile.html" [], s, d))
         /\ (User.role user = "trainer" ->
             profile s d = (Redirect "trainer_profile" [], s, d)
             /\ (trainer_by_email d (User.email user) <> None ->
                 trainer_profile GET form s d
                 = (Render "trainer_profile.html" [], s, d))
             /\ (trainer_by_email d (User.email user) = None ->
                 trainer_profile GET form s d = (Abort 404 [], s, d)))
         /\ (User.role user = "student" ->
             profile s d = (Redirect "student_profile" [], s, d)
             /\ student_profile GET form s d
                = (Render "student_profile.html" [], s, d))
         /\ (User.role user <> "admin" -> User.role user <> "trainer" ->
             User.role user <> "student" ->
             profile s d = (Redirect "student_profile" [], s, d)
             /\ forall m, student_profile m form s d = (Abort 403 [], s, d)).
Proof.
  intros d s form. split.
  - intros Hnone. unfold profile. rewrite Hnone. reflexivity.
  - intros user Hcur. split; [|split; [|split]].
    + intros Hrole. unfold profile, admin_profile, is_admin.
      rewrite Hcur, Hrole. split; reflexivity.
    + intros Hrole. unfold profile, trainer_profile. rewrite Hcur, Hrole.
      split; [reflexivity|]. simpl. split.
      * intros Hrow. destruct (trainer_by_email d (User.email user));
          [reflexivity | exfalso; apply Hrow; reflexivity].
      * intros Hnone. rewrite Hnone. reflexivity.
    + intros Hrole. unfold profile, student_profile. rewrite Hcur, Hrole.
      split; reflexivity.
    + intros Ha Ht Hst. unfold profile, student_profile. rewrite Hcur.
      apply String.eqb_neq in Ha. apply String.eqb_neq in Ht.
      apply String.eqb_neq in Hst. rewrite Ha, Ht, Hst. split; reflexivity.
Qed.

End Handlers.

(** * Concrete runs *)

Local Abbreviation demo_reachable :=
  (reachable demo_generate_password_hash demo_check_password_hash
             demo_secure_filename demo_int).

(** Extends a reachable store by the request [r] made in session [s]. *)
Ltac run_request r s :=
  match goal with
  | H : reachable ?g ?c ?f ?i ?d |- _ =>
      let d' := eval vm_compute in (db_after (handle g c f i r s d)) in
      let H' := fresh "Hreach" in
      assert (H' : reachable g c f i d')
        by (exact (reachable_step g c f i d _ H (step_request g c f i d r s)));
      clear H; rename H' into Hreach
  end.

(** Extends a reachable store by a batch-management step to the store [d']. *)
Ltac run_batch_management d' :=
  match goal with
  | H : reachable ?g ?c ?f ?i ?d |- _ =>
      let H' := fresh "Hreach" in
      assert (H' : reachable g c f i d')
        by (apply (reachable_step g c f i d d' H);
            apply step_batch_management;
            [reflexivity | reflexivity | reflexivity
            | exists (fun _ => true); reflexivity
            | exists (fun _ => true); reflexivity]);
      clear H; rename H' into Hreach
  end.

(** The stores of the runs below are stores the application can be in. *)
Lemma store_without_admin_reachable : demo_reachable store_without_admin.
Proof.
  pose proof (reachable_init demo_generate_password_hash demo_check_password_hash
                demo_secure_filename demo_int) as Hreach.
  run_request (ReqRegister POST "Sam" "sam@lms.test" "studentpw" None "s" 3) anonymous.
  exact Hreach.
Qed.

Lemma store_with_orphan_profile_reachable :
  demo_reachable store_with_orphan_profile.
Proof.
  pose proof (reachable_init demo_generate_password_hash demo_check_password_hash
                demo_secure_filename demo_int) as Hreach.
  run_request (ReqRegister POST "Ada" "ada@lms.test" "adminpw" (Some "admin") "s" 0)
              anonymous.
  run_request (ReqCreateTrainer "Tara" "tara@lms.test" (Some "Rocq") "s" 1)
              (session_of ada).
  run_request (ReqCreateTrainer "Tom" "tom@lms.test" (Some "Flask") "s" 2)
              (session_of ada).
  run_request (ReqRegister POST "Sam" "sam@lms.test" "studentpw" None "s" 3) anonymous.
  run_request (ReqDeleteStudent 3) (session_of ada).
  run_batch_management store_with_orphan_profile.
  exact Hreach.
Qed.

Lemma demo_store_reachable : demo_reachable demo_store.
Proof.
  pose proof (reachable_init demo_generate_password_hash demo_check_password_hash
                demo_secure_filename demo_int) as Hreach.
  run_request (ReqRegister POST "Ada" "ada@lms.test" "adminpw" (Some "admin") "s" 0)
              anonymous.
  run_request (ReqCreateTrainer "Tara" "tara@lms.test" (Some "Rocq") "s" 1)
              (session_of ada).
  run_request (ReqCreateTrainer "Tom" "tom@lms.test" (Some "Flask") "s" 2)
              (session_of ada).
  run_request (ReqRegister POST "Sam" "sam@lms.test" "studentpw" None "s" 3) anonymous.
  run_request (ReqRegister POST "Sue" "sue@lms.test" "studentpw" None "s" 4) anonymous.
  run_batch_management
    (mkDB [ada; tara; tom; sam; sue] [tara_profile; tom_profile] [batch_a; batch_b]
          [] [] [] [] []).
  run_request (ReqEnrollStudent (Some "4") (Some "1") 7) (session_of ada).
  run_request (ReqEnrollStudent (Some "5") (Some "2") 8) (session_of ada).
  run_request (ReqUpload 1 (Some ("intro.mp4", "video-bytes")) None 10) (session_of tara).
  run_request (ReqUpload 1 (Some ("lists.mp4", "video-bytes")) None 11) (session_of tara).
  run_request (ReqUpload 1 (Some ("proofs.mp4", "video-bytes")) None 12) (session_of tara).
  run_request (ReqUpdateProgress (Some 1) 20) (session_of sam).
  run_request (ReqForgotPassword POST "sam@lms.test" "a1b2c3" 100 true) anonymous.
  exact Hreach.
Qed.

Lemma download_is_session_independent_witness :
  file_get demo_store 1 "intro.mp4" = Some "video-bytes"
  /\ response (download 1 "intro.mp4" anonymous demo_store) = SendFile "video-bytes"
  /\ response (download 1 "intro.mp4" (session_of sue) demo_store)
     = SendFile "video-bytes"
  /\ response (download 1 "intro.mp4" (session_of tom) demo_store)
     = SendFile "video-bytes"
  /\ response (download 1 "intro.mp4" (session_of tara) demo_store)
     = SendFile "video-bytes".
Proof.
  assert (H : file_get demo_store 1 "intro.mp4" = Some "video-bytes") by reflexivity.
  destruct (download_is_session_independent demo_store 1 "intro.mp4" "video-bytes" H)
    as [Hall _].
  split; [exact H|].
  repeat split; rewrite Hall; reflexivity.
Defined.

(** Tara, the assigned trainer of batch 1, may upload to it and delete from
    it; Tom, a trainer with another address, gets 403 on both. *)
Lemma trainer_authorization_witness :
  (exists flashes d',
      upload demo_secure_filename 1 (Some ("week2.mp4", "bytes")) None 30
             (session_of tara) demo_store
      = (Redirect "view_batch" flashes, session_of tara, d'))
  /\ upload demo_secure_filename 1 (Some ("week2.mp4", "bytes")) None 30
            (session_of tom) demo_store
     = (Abort 403 [MSG_UPLOAD_DENIED], session_of tom, demo_store)
  /\ delete_recording 1 (session_of tom) demo_store
     = (Abort 403 [MSG_DELETE_DENIED], session_of tom, demo_store).
Proof.
  split; [|split].
  - destruct (trainer_authorization_is_an_address_match demo_secure_filename
                demo_store (session_of tara) tara batch_a eq_refl eq_refl)
      as [Hupload _].
    destruct (Hupload 1 (Some ("week2.mp4", "bytes")) None 30 eq_refl) as [Hallow _].
    apply Hallow. exists tara_profile. split; reflexivity.
  - destruct (trainer_authorization_is_an_address_match demo_secure_filename
                demo_store (session_of tom) tom batch_a eq_refl eq_refl)
      as [Hupload _].
    destruct (Hupload 1 (Some ("week2.mp4", "bytes")) None 30 eq_refl) as [_ Hdeny].
    apply Hdeny. right. exists tara_profile. split; [reflexivity | discriminate].
  - destruct (trainer_authorization_is_an_address_match demo_secure_filename
                demo_store (session_of tom) tom batch_a eq_refl eq_refl)
      as [_ Hdelete].
    destruct (Hdelete 1 lesson1 eq_refl eq_refl) as [_ Hdeny].
    apply Hdeny. right. exists tara_profile. split; [reflexivity | discriminate].
Defined.

(** Sam asks for a code twice; the first code is refused one second after
    the second request, the second code is accepted. *)
Lemma last_recovery_code_wins_witness :
  let o1 := forgot_password POST "sam@lms.test" "a1b2c3" 100 true anonymous demo_store in
  let o2 := forgot_password POST "sam@lms.test" "ffee00" 200 true
                            (session_after o1) (db_after o1) in
  reset_password demo_generate_password_hash POST "A1B2C3" "newsecret" "salt" 201
                 (session_after o2) (db_after o2)
  = (Redirect "reset_password" [MSG_INVALID_CODE], session_after o2, db_after o2)
  /\ response (reset_password demo_generate_password_hash POST "FFEE00" "newsecret"
                              "salt" 201 (session_after o2) (db_after o2))
     = Redirect "login" [MSG_RESET_DONE].
Proof.
  intros o1 o2.
  destruct (last_recovery_code_wins demo_generate_password_hash
              demo_check_password_hash demo_secure_filename demo_int)
    as [_ [_ [_ Hlast]]].
  assert (Hmail : "sam@lms.test" <> "") by discriminate.
  destruct (Hlast demo_store anonymous "sam@lms.test" sam "a1b2c3" "ffee00" 100 200
                  true true eq_refl Hmail) as [_ [Hfirst Hsecond]].
  split.
  - apply (Hfirst ltac:(discriminate) "newsecret" "salt" 201).
  - apply (Hsecond "newsecret" "salt" 201); vm_compute; discriminate.
Defined.

(** Sam holds the code A1B2C3, which expires at 600000100: a wrong token and
    a late request are refused as invalid, a short password as weak, and a
    good request sets the credential and uses the code up. *)
Lemma reset_password_consumes_the_code_witness :
  let s := mkSession None (Some "sam@lms.test") in
  reset_password demo_generate_password_hash POST "000000" "newsecret" "salt" 500
                 s demo_store
  = (Redirect "reset_password" [MSG_INVALID_CODE], s, demo_store)
  /\ reset_password demo_generate_password_hash POST "a1b2c3" "newsecret" "salt"
                    600000101 s demo_store
     = (Redirect "reset_password" [MSG_INVALID_CODE], s, demo_store)
  /\ reset_password demo_generate_password_hash POST "a1b2c3" "short" "salt" 500
                    s demo_store
     = (Redirect "reset_password" [MSG_WEAK_PASSWORD], s, demo_store)
  /\ (let o := reset_password demo_generate_password_hash POST "a1b2c3" "newsecret"
                              "salt" 500 s demo_store in
      response o = Redirect "login" [MSG_RESET_DONE]
      /\ otp_tokens (db_after o) = []
      /\ reset_password demo_generate_password_hash POST "a1b2c3" "another1" "salt"
                        501 s (db_after o)
         = (Redirect "reset_password" [MSG_INVALID_CODE], s, db_after o)).
Proof.
  intros s.
  assert (Hmail : "sam@lms.test" <> "") by discriminate.
  split; [|split; [|split]].
  - destruct (reset_password_consumes_the_code demo_generate_password_hash
                demo_check_password_hash demo_secure_filename demo_int
                demo_store s "sam@lms.test" sam "000000" "newsecret" "salt" 500
                eq_refl Hmail eq_refl) as [Hinvalid _].
    apply Hinvalid. left. reflexivity.
  - destruct (reset_password_consumes_the_code demo_generate_password_hash
                demo_check_password_hash demo_secure_filename demo_int
                demo_store s "sam@lms.test" sam "a1b2c3" "newsecret" "salt" 600000101
                eq_refl Hmail eq_refl) as [Hinvalid _].
    apply Hinvalid. right. exists sam_code. split; [reflexivity | reflexivity].
  - destruct (reset_password_consumes_the_code demo_generate_password_hash
                demo_check_password_hash demo_secure_filename demo_int
                demo_store s "sam@lms.test" sam "a1b2c3" "short" "salt" 500
                eq_refl Hmail eq_refl) as [_ [Hweak _]].
    apply (Hweak sam_code eq_refl); [discriminate | reflexivity].
  - destruct (reset_password_consumes_the_code demo_generate_password_hash
                demo_check_password_hash demo_secure_filename demo_int
                demo_store s "sam@lms.test" sam "a1b2c3" "newsecret" "salt" 500
                eq_refl Hmail eq_refl) as [_ [_ [Hdone _]]].
    destruct (Hdone sam_code eq_refl ltac:(discriminate) ltac:(discriminate))
      as [Hresp [_ [_ [Hcodes [_ [_ Hagain]]]]]].
    split; [exact Hresp|]. split; [rewrite Hcodes; reflexivity|].
    apply (Hagain (or_intror demo_store_reachable)). reflexivity.
Defined.

(** The admin enrolls Sue in batch 1 twice, the second time writing her key
    as 05. *)
Lemma enroll_student_is_idempotent_witness :
  let o1 := enroll_student demo_int (Some "5") (Some "1") 40 (session_of ada) demo_store in
  let o2 := enroll_student demo_int (Some "05") (Some "1") 41
                           (session_after o1) (db_after o1) in
  response o1 = Redirect "admin_dashboard" [MSG_ENROLLED]
  /\ o2 = (Redirect "admin_dashboard" [MSG_ALREADY_ENROLLED], session_of ada, db_after o1)
  /\ List.length (enrollments_of 5 1 (db_after o2)) = 1%nat.
Proof.
  intros o1 o2.
  destruct (enroll_student_is_idempotent demo_generate_password_hash
              demo_check_password_hash demo_secure_filename demo_int
              demo_store (session_of ada)
              "5" "1" "05" "1" 5 1 40 41 eq_refl
              ltac:(discriminate) ltac:(discriminate)
              ltac:(discriminate) ltac:(discriminate)
              eq_refl eq_refl eq_refl eq_refl eq_refl eq_refl)
    as [Hsecond [_ [_ [Hfirst Hcount]]]].
  split; [|split].
  - fold o1 in Hfirst. rewrite (Hfirst eq_refl). reflexivity.
  - exact Hsecond.
  - apply Hcount. exact demo_store_reachable.
Defined.

(** Sue is enrolled in batch 2, which has no recording: her pair is (0, 0)
    and the percentage is 0. *)
Lemma progress_is_counted_witness :
  (completed_recordings demo_store 5 2,
   Z.of_nat (List.length (batch_recordings demo_store batch_b))) = (0, 0)
  /\ option_map round (progress_percent 0 0) = Some 0
  /\ spec_computeProgress demo_store 4 1 = (1, 3)
  /\ (completed_recordings demo_store 4 1,
      Z.of_nat (List.length (batch_recordings demo_store batch_a))) = (1, 3).
Proof.
  destruct (progress_is_counted_and_never_divides_by_zero
              demo_generate_password_hash demo_check_password_hash
              demo_secure_filename demo_int demo_store 5 sue_in_b batch_b
              eq_refl) as [_ [_ [_ [Hzero _]]]].
  destruct (Hzero eq_refl) as [Hpair [_ Hpct]].
  destruct (progress_is_counted_and_never_divides_by_zero
              demo_generate_password_hash demo_check_password_hash
              demo_secure_filename demo_int demo_store 4 sam_in_a batch_a
              eq_refl) as [_ [_ [Hspec _]]].
  split; [exact Hpair|]. split; [exact Hpct|]. split; [reflexivity|].
  exact (eq_trans (Hspec (or_intror demo_store_reachable)) eq_refl).
Defined.


(** In a store without accounts the first admin registration succeeds. *)
Lemma register_creates_at_most_one_admin_witness :
  exists u,
    register demo_generate_password_hash POST "Ada" "ada@lms.test" "adminpw"
             (Some "admin") "s" 0 anonymous empty_db
    = (Redirect "login" [MSG_ACCOUNT_CREATED], anonymous,
       set_users empty_db [u])
    /\ User.role u = "admin".
Proof.
  destruct (register_creates_at_most_one_admin demo_generate_password_hash
              demo_check_password_hash demo_secure_filename demo_int)
    as [Hregister _].
  destruct (Hregister empty_db anonymous "Ada" "ada@lms.test" "adminpw" "s" 0 eq_refl)
    as [_ Hfirst].
  destruct (Hfirst eq_refl) as [u [Ho [Hrole _]]].
  exists u. split; [exact Ho | exact Hrole].
Defined.

(** Registering with role admin under an address that is already taken is
    answered "Email already registered": with no admin in the store the
    admin account is not created, and with an admin in the store the answer
    is not "An admin already exists". *)
Lemma register_admin_with_taken_address :
  demo_reachable store_without_admin
  /\ demo_reachable demo_store
  /\ admins store_without_admin = []
  /\ register demo_generate_password_hash POST "Eve" "sam@lms.test" "secret1"
              (Some "admin") "s" 9 anonymous store_without_admin
     = (Redirect "register" [MSG_EMAIL_TAKEN], anonymous, store_without_admin)
  /\ response (register demo_generate_password_hash POST "Eve" "sam@lms.test"
                        "secret1" (Some "admin") "s" 9 anonymous store_without_admin)
     <> Redirect "login" [MSG_ACCOUNT_CREATED]
  /\ admins demo_store = [ada]
  /\ response (register demo_generate_password_hash POST "Eve" "ada@lms.test"
                        "secret1" (Some "admin") "s" 9 anonymous demo_store)
     <> Redirect "register" [MSG_ADMIN_EXISTS].
Proof.
  split; [exact store_without_admin_reachable|].
  split; [exact demo_store_reachable|].
  split; [reflexivity|]. split; [reflexivity|]. split; [discriminate|].
  split; [reflexivity | discriminate].
Qed.

(** Tara changes her address: her account has the new address, her trainer
    row keeps the old one. *)
Lemma trainer_email_change_witness :
  let o := update_security demo_generate_password_hash demo_check_password_hash
                           "trainer123" None (Some "tara@new.test") "s"
                           (session_of tara) demo_store in
  trainers (db_after o) = trainers demo_store
  /\ option_map User.email (get_user (db_after o) 2) = Some "tara@new.test"
  /\ trainer_by_email (db_after o) "tara@lms.test" = Some tara_profile
  /\ trainer_by_email (db_after o) "tara@new.test" = None.
Proof.
  intros o.
  destruct (trainer_email_change_leaves_profile_behind demo_generate_password_hash
              demo_check_password_hash demo_secure_filename demo_int
              demo_store (session_of tara) tara
              "trainer123" None "tara@new.test" "s"
              eq_refl eq_refl eq_refl ltac:(discriminate) ltac:(discriminate)
              ltac:(discriminate) eq_refl (or_intror demo_store_reachable))
    as [_ [[account [Hget [Hmail _]]] [Htrainers [_ [_ Hprofile]]]]].
  fold o in Hget, Htrainers, Hprofile.
  split; [exact Htrainers|]. split; [|split].
  - change 2 with (User.id tara). rewrite Hget. simpl. rewrite Hmail. reflexivity.
  - destruct (Hprofile tara_profile eq_refl) as [H _]. exact H.
  - unfold trainer_by_email. rewrite Htrainers. reflexivity.
Defined.

(** Tara takes over the address of Tom's orphaned trainer row: the lookup
    with her new address finds that row, and the address is written to it. *)
Lemma email_change_finds_a_trainer_row :
  let d := store_with_orphan_profile in
  let o := update_security demo_generate_password_hash demo_check_password_hash
                           "trainer123" None (Some "tom@lms.test") "s"
                           (session_of tara) d in
  demo_reachable d
  /\ response o = Redirect "profile" [("Email updated successfully.", "success")]
  /\ option_map User.email (get_user (db_after o) 2) = Some "tom@lms.test"
  /\ trainer_by_email (update_user d (set_email "tom@lms.test" tara))
                      (User.email (set_email "tom@lms.test" tara))
     = Some tom_profile
  /\ db_after o
     = update_trainer (update_user d (set_email "tom@lms.test" tara))
                      (set_trainer_email "tom@lms.test" tom_profile).
Proof.
  split; [exact store_with_orphan_profile_reachable|]. repeat split.
Qed.

(** Sam marks recording 999, which does not exist: success, and a completed
    row for it; Tara, a trainer, is turned away. *)
Lemma update_progress_witness :
  response (update_progress (Some 999) 60 (session_of sam) demo_store)
  = Json "success" "Progress updated" 200
  /\ progress (db_after (update_progress (Some 999) 60 (session_of sam) demo_store))
     = [sam_did_lesson1; StudentProgress.mk 2 (Some 4) (Some 999) true (Some 60)]
  /\ get_recording demo_store 999 = None
  /\ update_progress (Some 999) 60 (session_of tara) demo_store
     = (Json "error" "Unauthorized" 401, session_of tara, demo_store).
Proof.
  assert (Hrange : forall rid, Some 999 = Some rid -> int64 rid = true).
  { intros rid H. injection H as <-. reflexivity. }
  destruct (update_progress_checks_only_the_role demo_store (session_of sam)
              (Some 999) 60) as [Hstudent _].
  destruct (Hstudent sam eq_refl eq_refl Hrange) as [Hresp [_ [_ [Hnew _]]]].
  destruct (update_progress_checks_only_the_role demo_store (session_of tara)
              (Some 999) 60) as [_ [_ Hother]].
  split; [exact Hresp|]. split; [exact (Hnew eq_refl)|]. split; [reflexivity|].
  apply Hother. right. exists tara. split; [reflexivity | discriminate].
Defined.

(** Sam, a logged-in student, sends the recording id 2^63: the answer is a
    server error, not success, and no progress row is created or updated. *)
Lemma update_progress_beyond_sqlite_integers :
  demo_reachable demo_store
  /\ current_user demo_store (session_of sam) = Some sam
  /\ User.role sam = "student"
  /\ update_progress (Some (2 ^ 63)) 60 (session_of sam) demo_store
     = (ServerError "OverflowError", session_of sam, demo_store)
  /\ response (update_progress (Some (2 ^ 63)) 60 (session_of sam) demo_store)
     <> Json "success" "Progress updated" 200
  /\ progress (db_after (update_progress (Some (2 ^ 63)) 60 (session_of sam)
                                         demo_store))
     = progress demo_store.
Proof.
  split; [exact demo_store_reachable|].
  split; [reflexivity|]. split; [reflexivity|]. split; [reflexivity|].
  split; [discriminate | reflexivity].
Qed.

(** ** Runs of the further properties *)

(** The keys of a concrete table are positive, and pairwise distinct. *)
Ltac positive_keys :=
  let u := fresh "u" in
  let Hu := fresh "Hu" in
  intros u Hu; vm_compute in Hu;
  repeat (destruct Hu as [<- | Hu]; [reflexivity|]); destruct Hu.

Ltac distinct_keys :=
  repeat (constructor; [vm_compute; intuition discriminate|]); constructor.

(** Only the text after the last dot counts, in any case. *)
Lemma allowed_file_witness :
  allowed_file "lecture.tar.MP4" = true /\ allowed_file "notes.pdf.exe" = false
  /\ allowed_file "README" = false.
Proof.
  destruct allowed_file_decides_by_last_extension as [_ [Hext [_ Hnone]]].
  split; [|split].
  - exact (eq_trans (Hext "lecture.tar" "MP4" eq_refl eq_refl eq_refl) eq_refl).
  - exact (eq_trans (Hext "notes.pdf" "exe" eq_refl eq_refl eq_refl) eq_refl).
  - exact (Hnone "README" eq_refl eq_refl).
Defined.

(** Tara logs in and the session is hers. *)
Lemma login_binds_the_session_witness :
  current_user demo_store
    (session_after (login demo_check_password_hash POST "tara@lms.test" "trainer123"
                          anonymous demo_store))
  = Some tara.
Proof.
  destruct (login_binds_the_session demo_generate_password_hash
              demo_check_password_hash demo_secure_filename demo_int
              demo_store anonymous "tara@lms.test" "trainer123") as [_ [_ H]].
  destruct (H tara eq_refl eq_refl) as [_ Hcur].
  apply Hcur.
  - unfold user_keys_unique. simpl. distinct_keys.
  - discriminate.
Defined.

(** Eve registers, logs in and is account 6. *)
Lemma register_then_login_witness :
  let o := register demo_generate_password_hash POST "Eve" "eve@lms.test" "evepass1"
                    None "s" 30 anonymous demo_store in
  let o' := login demo_check_password_hash POST "eve@lms.test" "evepass1"
                  (session_after o) (db_after o) in
  response o' = Redirect "dashboard" [("Logged in", "success")]
  /\ option_map User.id (current_user (db_after o') (session_after o')) = Some 6.
Proof.
  intros o o'.
  destruct (register_then_login demo_generate_password_hash
              demo_check_password_hash demo_store anonymous "Eve" "eve@lms.test"
              "evepass1" None "s" 30 eq_refl ltac:(discriminate) eq_refl
              ltac:(positive_keys))
    as [_ [Hin [_ [u [Hcur [Hid _]]]]]].
  fold o in Hin, Hcur. fold o' in Hin, Hcur.
  split; [exact Hin|]. rewrite Hcur. simpl. rewrite Hid. reflexivity.
Defined.

(** Sam resets the password with the stored code and logs in with it. *)
Lemma reset_password_then_login_witness :
  response
    (login demo_check_password_hash POST "sam@lms.test" "newsecret" anonymous
       (db_after (reset_password demo_generate_password_hash POST "a1b2c3"
                    "newsecret" "salt" 200
                    (mkSession None (Some "sam@lms.test")) demo_store)))
  = Redirect "dashboard" [("Logged in", "success")].
Proof.
  destruct (reset_password_then_login demo_generate_password_hash
              demo_check_password_hash demo_store
              (mkSession None (Some "sam@lms.test")) "sam@lms.test" sam
              "a1b2c3" "newsecret" "salt" 200 sam_code
              eq_refl ltac:(discriminate) eq_refl eq_refl
              ltac:(vm_compute; discriminate) ltac:(vm_compute; discriminate)
              eq_refl) as [_ Hlogin].
  rewrite (Hlogin anonymous). reflexivity.
Defined.

(** Ada sets Sue's password and Sue logs in with it. *)
Lemma admin_change_password_witness :
  response
    (login demo_check_password_hash POST "sue@lms.test" "s3cretpw" anonymous
       (db_after (admin_change_password demo_generate_password_hash POST 5
                    "s3cretpw" "s" (session_of ada) demo_store)))
  = Redirect "dashboard" [("Logged in", "success")].
Proof.
  destruct (admin_change_password_sets_the_credential demo_generate_password_hash
              demo_check_password_hash demo_store (session_of ada) 5 sue
              "s3cretpw" "s" eq_refl eq_refl) as [_ Hset].
  destruct (Hset ltac:(vm_compute; discriminate)) as [_ [_ [_ Hlogin]]].
  exact (Hlogin eq_refl eq_refl anonymous).
Defined.

(** Sam asks for a new password and for Sue's address: the password is
    announced as updated and nothing is stored. *)
Lemma update_security_all_or_nothing_witness :
  update_security demo_generate_password_hash demo_check_password_hash
                  "studentpw" (Some "brandnew1") (Some "sue@lms.test") "s"
                  (session_of sam) demo_store
  = (Redirect "profile"
       [("Password updated successfully.", "success");
        ("Email address is already in use by another account.", "danger")],
     session_of sam, demo_store).
Proof.
  destruct (update_security_all_or_nothing demo_generate_password_hash
              demo_check_password_hash demo_store (session_of sam) sam
              "studentpw" (Some "brandnew1") (Some "sue@lms.test") "s" eq_refl)
    as [_ [_ [Htaken _]]].
  exact (Htaken eq_refl "brandnew1" "sue@lms.test" sue eq_refl
           ltac:(vm_compute; discriminate) eq_refl ltac:(discriminate)
           ltac:(discriminate) eq_refl).
Defined.

(** An unknown address is sent to the login page; for Sam the stored code
    does not depend on the mail. *)
Lemma forgot_password_answers_witness :
  forgot_password POST "nobody@lms.test" "a1b2c3" 100 true anonymous demo_store
  = (Redirect "login"
       [("If an account exists, a recovery email has been sent.", "info")],
     anonymous, demo_store)
  /\ db_after (forgot_password POST "sam@lms.test" "ffee00" 100 true anonymous
                               demo_store)
     = db_after (forgot_password POST "sam@lms.test" "ffee00" 100 false anonymous
                                 demo_store).
Proof.
  split.
  - destruct (forgot_password_answers demo_store anonymous "nobody@lms.test"
                "a1b2c3" 100) as [Hnone _].
    exact (Hnone eq_refl true).
  - destruct (forgot_password_answers demo_store anonymous "sam@lms.test"
                "ffee00" 100) as [_ Hknown].
    destruct (Hknown sam eq_refl) as [_ [Hsame _]]. exact Hsame.
Defined.

(** A trainer cannot delete an account, a visitor cannot create a batch. *)
Lemma management_routes_need_the_admin_witness :
  delete_student 1 (session_of tara) demo_store
  = (Abort 403 [], session_of tara, demo_store)
  /\ create_batch "Batch C" None 40 anonymous demo_store
     = (Abort 403 [], anonymous, demo_store).
Proof.
  assert (Htara : current_user demo_store (session_of tara) = None
                  \/ exists u, current_user demo_store (session_of tara) = Some u
                               /\ User.role u <> "admin").
  { right. exists tara. split; [reflexivity | discriminate]. }
  assert (Hanon : current_user demo_store anonymous = None
                  \/ exists u, current_user demo_store anonymous = Some u
                               /\ User.role u <> "admin").
  { left. reflexivity. }
  split.
  - destruct (management_routes_need_the_admin demo_generate_password_hash
                demo_secure_filename demo_int demo_store (session_of tara) Htara)
      as [_ [_ [_ [_ [_ [_ [_ [_ [_ [_ [_ [_ [_ [H _]]]]]]]]]]]]]].
    exact (H 1).
  - destruct (management_routes_need_the_admin demo_generate_password_hash
                demo_secure_filename demo_int demo_store anonymous Hanon)
      as [_ [_ [_ [_ [H _]]]]].
    exact (H "Batch C" None 40).
Defined.

(** Sam, enrolled in batch 1, is shown its page; Sue is not. *)
Lemma view_batch_access_witness :
  (exists page, view_batch 1 (session_of sam) demo_store = ViewBatch batch_a page)
  /\ ~ (exists page, view_batch 1 (session_of sue) demo_store = ViewBatch batch_a page).
Proof.
  split.
  - destruct (view_batch_access demo_secure_filename demo_store (session_of sam) 1
                batch_a eq_refl) as [_ H].
    destruct (H sam eq_refl) as [_ [Hstudent _]].
    apply (Hstudent eq_refl). reflexivity.
  - destruct (view_batch_access demo_secure_filename demo_store (session_of sue) 1
                batch_a eq_refl) as [_ H].
    destruct (H sue eq_refl) as [_ [Hstudent _]].
    intros Hshown. apply (Hstudent eq_refl) in Hshown. discriminate.
Defined.

(** Tom is not the trainer of batch 1: its page is closed to him, the list
    of its students is not. *)
Lemma view_batch_enrollments_witness :
  view_batch 1 (session_of tom) demo_store
  = ViewResponse (Redirect "dashboard"
                    [("You are not assigned to this batch.", "danger")])
  /\ view_batch_enrollments 1 (session_of tom) demo_store
     = (Render "batch_enrollments.html" [], session_of tom, demo_store).
Proof.
  assert (Husers : forall e, In e (enrollments demo_store) ->
                             Enrollment.batch_id e = Some (Batch.id batch_a) ->
                             enrollment_user demo_store e <> None).
  { intros e He _. simpl in He. destruct He as [<- | [<- | []]]; discriminate. }
  destruct (view_batch_enrollments_open_to_any_trainer demo_store (session_of tom)
              1 batch_a tom eq_refl eq_refl Husers) as [_ [Hboth _]].
  apply (Hboth eq_refl).
  intros [t [Ht Hmail]]. vm_compute in Ht. injection Ht as <-. discriminate.
Defined.

(** A second batch named "Batch A" is refused; a batch named "Batch C" is
    added and the names are still apart. *)
Lemma batch_names_stay_unique_witness :
  db_after (create_batch "Batch A" None 40 (session_of ada) demo_store) = demo_store
  /\ batch_names_unique
       (db_after (create_batch "Batch C" None 40 (session_of ada) demo_store)).
Proof.
  assert (Hkeys : batch_keys_unique demo_store)
    by (unfold batch_keys_unique; simpl; distinct_keys).
  assert (Hnames : batch_names_unique demo_store)
    by (unfold batch_names_unique; simpl; distinct_keys).
  destruct (batch_names_stay_unique demo_int demo_store (session_of ada)
              Hkeys Hnames) as [Hcreate _].
  split.
  - destruct (Hcreate "Batch A" None 40) as [_ [_ Hrefused]].
    apply Hrefused. left. reflexivity.
  - destruct (Hcreate "Batch C" None 40) as [_ [Hunique _]]. exact Hunique.
Defined.

(** Ada deletes batch 1: its recordings cannot be downloaded any more and
    the accounts are as before. *)
Lemma delete_batch_cascades_witness :
  let d' := db_after (delete_batch 1 (session_of ada) demo_store) in
  get_batch d' 1 = None
  /\ download 1 "intro.mp4" anonymous d' = (Abort 404 [], anonymous, d')
  /\ users d' = users demo_store.
Proof.
  intros d'.
  destruct (delete_batch_cascades demo_store (session_of ada) 1 batch_a
              eq_refl eq_refl)
    as [_ [Hgone [_ [_ [_ [Hdown [_ [Husers _]]]]]]]].
  fold d' in Hgone, Hdown, Husers.
  split; [exact Hgone|]. split; [exact (Hdown "intro.mp4" anonymous) | exact Husers].
Defined.

(** Ada gives batch 1 to Tom: Tom may upload to it, Tara may not any more. *)
Lemma change_batch_trainer_witness :
  let d' := db_after (change_batch_trainer demo_int POST 1 "2" (session_of ada)
                                           demo_store) in
  (exists flashes d'',
      upload demo_secure_filename 1 None None 50 (session_of tom) d'
      = (Redirect "view_batch" flashes, session_of tom, d''))
  /\ upload demo_secure_filename 1 None None 50 (session_of tara) d'
     = (Abort 403 [MSG_UPLOAD_DENIED], session_of tara, d').
Proof.
  intros d'.
  assert (Hold : forall tid, Batch.trainer_id batch_a = Some tid ->
                             get_trainer demo_store tid <> None).
  { intros tid H. injection H as <-. discriminate. }
  destruct (change_batch_trainer_moves_the_upload_right demo_secure_filename
              demo_int demo_store (session_of ada) 1 batch_a eq_refl eq_refl Hold)
    as [Hpick _].
  destruct (Hpick "2" 2 tom_profile ltac:(discriminate) eq_refl eq_refl)
    as [_ [_ [_ [_ [_ [_ [_ [_ [_ Hupload]]]]]]]]].
  fold d' in Hupload. split.
  - destruct (Hupload (session_of tom) tom None None 50 eq_refl eq_refl) as [Hyes _].
    apply Hyes. reflexivity.
  - destruct (Hupload (session_of tara) tara None None 50 eq_refl eq_refl)
      as [_ Hno].
    apply Hno. discriminate.
Defined.

(** What Tara uploads to batch 1 is served to a visitor. *)
Lemma upload_then_download_witness :
  response
    (download 1 "week2.mp4" anonymous
       (db_after (upload demo_secure_filename 1 (Some ("week2.mp4", "bytes")) None 30
                         (session_of tara) demo_store)))
  = SendFile "bytes".
Proof.
  assert (Hassigned : assigned_to demo_store batch_a tara).
  { exists tara_profile. split; reflexivity. }
  destruct (upload_then_download demo_secure_filename demo_store (session_of tara)
              1 batch_a tara "week2.mp4" "bytes" None 30 eq_refl eq_refl eq_refl
              Hassigned ltac:(discriminate) eq_refl)
    as [_ [_ [_ [Hdown _]]]].
  exact (f_equal response (Hdown anonymous)).
Defined.

(** Tara deletes the first recording: the row is gone and its file is 404. *)
Lemma delete_recording_effect_witness :
  let d' := db_after (delete_recording 1 (session_of tara) demo_store) in
  get_recording d' 1 = None
  /\ download 1 "intro.mp4" anonymous d' = (Abort 404 [], anonymous, d').
Proof.
  intros d'.
  assert (Hassigned : assigned_to demo_store batch_a tara).
  { exists tara_profile. split; reflexivity. }
  destruct (delete_recording_effect demo_store (session_of tara) 1 lesson1 batch_a
              tara eq_refl eq_refl eq_refl eq_refl Hassigned)
    as [_ [Hgone [_ [Hdown _]]]].
  fold d' in Hgone, Hdown. split; [exact Hgone | exact (Hdown anonymous)].
Defined.

(** Ada deletes Sam: the recovery code stays, and Sam's open session gets a
    server error on the dashboard. *)
Lemma delete_student_effect_witness :
  let d' := db_after (delete_student 4 (session_of ada) demo_store) in
  get_user d' 4 = None
  /\ otp_tokens d' = [sam_code]
  /\ dashboard (session_of sam) d'
     = (ServerError "AttributeError", session_of sam, d').
Proof.
  intros d'.
  destruct (delete_student_effect demo_store (session_of ada) 4 sam eq_refl eq_refl)
    as [_ Hdeleted].
  destruct (Hdeleted ltac:(discriminate))
    as [Hgone [_ [_ [_ [_ [Hcodes [_ [_ [_ [_ Hdash]]]]]]]]]].
  fold d' in Hgone, Hcodes, Hdash.
  split; [exact Hgone|]. split; [exact Hcodes|].
  exact (Hdash (session_of sam) eq_refl ltac:(discriminate)).
Defined.

(** Ada deletes Tara's trainer row: nobody may upload to batch 1 any more. *)
Lemma delete_trainer_effect_witness :
  let d' := db_after (delete_trainer 1 (session_of ada) demo_store) in
  get_trainer d' 1 = None
  /\ upload demo_secure_filename 1 None None 50 (session_of tom) d'
     = (Abort 403 [MSG_UPLOAD_DENIED], session_of tom, d').
Proof.
  intros d'.
  destruct (delete_trainer_effect demo_secure_filename demo_store (session_of ada) 1
              tara_profile eq_refl eq_refl)
    as [Hgone [_ [_ [_ [_ [_ [Hupload _]]]]]]].
  fold d' in Hgone, Hupload. split; [exact Hgone|].
  exact (Hupload 1 batch_a (session_of tom) None None 50 eq_refl eq_refl).
Defined.

(** The references of the demo store are valid and stay so when Tara's
    trainer row is deleted. *)
Lemma trainer_refs_stay_valid_witness :
  trainer_refs_valid (db_after (delete_trainer 1 (session_of ada) demo_store))
  /\ forall e,
       response (change_batch_trainer demo_int POST 1 "none" (session_of ada)
                                      demo_store)
       <> ServerError e.
Proof.
  assert (Hvalid : trainer_refs_valid demo_store).
  { intros b tid Hb Htid. simpl in Hb. destruct Hb as [<- | [<- | []]].
    - injection Htid as <-. exists tara_profile. reflexivity.
    - discriminate. }
  destruct (trainer_refs_stay_valid demo_generate_password_hash demo_int demo_store
              (session_of ada) Hvalid)
    as [_ [_ [_ [Hchange [_ [Hdelete _]]]]]].
  split; [exact (Hdelete 1)|].
  destruct (Hchange POST 1 "none") as [_ [_ Honly]].
  intros e He. destruct (Honly e He) as [_ [Hbatch | [new_id [Hparse _]]]].
  - discriminate Hbatch.
  - vm_compute in Hparse. discriminate Hparse.
Defined.

(** Ada creates the trainer Tess, who logs in with the default password and
    gets the trainer dashboard. *)
Lemma create_trainer_witness :
  let d' := db_after (create_trainer demo_generate_password_hash "Tess"
                        "tess@lms.test" None "s" 40 (session_of ada) demo_store) in
  let o1 := login demo_check_password_hash POST "tess@lms.test" "trainer123"
                  anonymous d' in
  response o1 = Redirect "dashboard" [("Logged in", "success")]
  /\ response (dashboard (session_after o1) d') = Render "trainer_dashboard.html" [].
Proof.
  intros d' o1.
  destruct (create_trainer_pairs_account_and_profile demo_generate_password_hash
              demo_check_password_hash demo_secure_filename demo_store
              (session_of ada) "Tess" "tess@lms.test" None "s" 40
              eq_refl eq_refl ltac:(positive_keys)) as [_ Hpair].
  destruct (Hpair eq_refl eq_refl) as [u [t [_ [_ [_ [_ [_ [_ [_ [_ [_ [_ Hlogin]]]]]]]]]]]].
  fold d' in Hlogin.
  destruct (Hlogin anonymous) as [Hin [_ [Hdash _]]].
  fold o1 in Hin, Hdash. split; [exact Hin | exact Hdash].
Defined.

(** Ada deletes Sue, account 5; Eve registers and is account 5; the session
    Sue left open is Eve's. *)
Lemma register_revives_a_stale_session_witness :
  let d := db_after (delete_student 5 (session_of ada) demo_store) in
  let o := register demo_generate_password_hash POST "Eve" "eve@lms.test" "evepass1"
                    None "s" 50 anonymous d in
  current_user d (session_of sue) = None
  /\ option_map User.name (current_user (db_after o) (session_of sue)) = Some "Eve".
Proof.
  intros d o.
  destruct (register_revives_a_stale_session demo_generate_password_hash d
              anonymous (session_of sue) "Eve" "eve@lms.test" "evepass1" None "s" 50
              eq_refl ltac:(discriminate) ltac:(positive_keys) eq_refl)
    as [Hbefore [u [Hafter [Hname _]]]].
  fold o in Hafter. split; [exact Hbefore|].
  rewrite Hafter. simpl. rewrite Hname. reflexivity.
Defined.

(** Sam marks the second recording twice: the second call changes the
    timestamp of Sam's row for it and nothing else. *)
Lemma update_progress_twice_witness :
  let d1 := db_after (update_progress (Some 2) 30 (session_of sam) demo_store) in
  let d2 := db_after (update_progress (Some 2) 31 (session_of sam) d1) in
  progress d1 = [sam_did_lesson1; StudentProgress.mk 2 (Some 4) (Some 2) true (Some 30)]
  /\ d2 = set_progress d1
            [sam_did_lesson1; StudentProgress.mk 2 (Some 4) (Some 2) true (Some 31)].
Proof.
  intros d1 d2.
  assert (Hkeys : progress_keys_unique demo_store)
    by (unfold progress_keys_unique; simpl; distinct_keys).
  assert (Hrange : forall z, Some 2 = Some z -> int64 z = true).
  { intros z Hz. injection Hz as <-. reflexivity. }
  pose proof (update_progress_twice demo_store (session_of sam) sam (Some 2) 30 31
                eq_refl eq_refl Hrange Hkeys) as H.
  cbv zeta in H.
  destruct H as [_ [_ [_ [_ [before [row [after [Hsplit [_ [Hrid [_ [_ Hd2]]]]]]]]]]]].
  change (db_after (update_progress (Some 2) 30 (session_of sam) demo_store))
    with d1 in Hsplit, Hd2.
  change (db_after _) with d2 in Hd2.
  split; [reflexivity|]. rewrite Hd2. f_equal.
  change (progress d1)
    with [sam_did_lesson1; StudentProgress.mk 2 (Some 4) (Some 2) true (Some 30)]
    in Hsplit.
  destruct before as [|x [|y before]]; simpl in Hsplit.
  - injection Hsplit as Hrow _. subst row. discriminate Hrid.
  - injection Hsplit as Hx Hrow Hafter. subst x row after. reflexivity.
  - exfalso. injection Hsplit as _ _ Hrest. destruct before; discriminate Hrest.
Defined.

(** Tara changes her address: her dashboard reports a broken profile link
    and her uploads to batch 1 are refused. *)
Lemma trainer_who_changes_address_witness :
  let d' := db_after (update_security demo_generate_password_hash
                        demo_check_password_hash "trainer123" None
                        (Some "tara@new.test") "s" (session_of tara) demo_store) in
  response (dashboard (session_of tara) d')
  = Redirect "logout"
      [("Trainer profile link broken. Please contact admin.", "danger")]
  /\ upload demo_secure_filename 1 None None 50 (session_of tara) d'
     = (Abort 403 [MSG_UPLOAD_DENIED], session_of tara, d').
Proof.
  intros d'.
  assert (Husers : forall u, In u (users demo_store) ->
                             User.email u <> "tara@new.test").
  { intros u Hu. simpl in Hu.
    destruct Hu as [<- | [<- | [<- | [<- | [<- | []]]]]]; discriminate. }
  assert (Hrows : forall t, In t (trainers demo_store) ->
                            Trainer.email t <> "tara@new.test").
  { intros t Ht. simpl in Ht. destruct Ht as [<- | [<- | []]]; discriminate. }
  destruct (trainer_who_changes_address_is_locked_out demo_generate_password_hash
              demo_check_password_hash demo_secure_filename demo_store
              (session_of tara) tara "trainer123" None "tara@new.test" "s"
              eq_refl eq_refl eq_refl ltac:(discriminate) ltac:(discriminate)
              ltac:(discriminate) Husers Hrows)
    as [_ [_ [_ [_ [Hdash [_ Hupload]]]]]].
  fold d' in Hdash, Hupload.
  assert (Hassigned : assigned_to demo_store batch_a tara).
  { exists tara_profile. split; reflexivity. }
  split.
  - rewrite Hdash. reflexivity.
  - exact (Hupload 1 batch_a None None 50 eq_refl Hassigned).
Defined.

(** The demo store with a third batch is a store the application can be in. *)
Lemma batch_management_routes_witness :
  demo_reachable (db_after (create_batch "Batch C" None 40 (session_of ada)
                                         demo_store)).
Proof.
  assert (Hroute :
            (exists name description now,
                db_after (create_batch "Batch C" None 40 (session_of ada) demo_store)
                = db_after (create_batch name description now (session_of ada)
                                         demo_store))
            \/ (exists batch_id,
                   db_after (create_batch "Batch C" None 40 (session_of ada)
                                          demo_store)
                   = db_after (delete_batch batch_id (session_of ada) demo_store))
            \/ (exists m batch_id name description,
                   db_after (create_batch "Batch C" None 40 (session_of ada)
                                          demo_store)
                   = db_after (edit_batch m batch_id name description
                                          (session_of ada) demo_store))
            \/ (exists m batch_id trainer_id,
                   db_after (create_batch "Batch C" None 40 (session_of ada)
                                          demo_store)
                   = db_after (change_batch_trainer demo_int m batch_id trainer_id
                                                    (session_of ada) demo_store))).
  { left. exists "Batch C", None, 40. reflexivity. }
  destruct (batch_management_routes_are_steps demo_generate_password_hash
              demo_check_password_hash demo_secure_filename demo_int demo_store
              (session_of ada)
              (db_after (create_batch "Batch C" None 40 (session_of ada) demo_store))
              Hroute)
    as [_ Hreach].
  exact (proj1 (Hreach demo_store_reachable)).
Defined.

(** Sam renames himself: no account's credentials change. *)
Lemma profile_forms_keep_credentials_witness :
  let o := student_profile demo_secure_filename POST
             (mkProfileForm None "Samuel" None None None None)
             (session_of sam) demo_store in
  map credentials (users (db_after o)) = map credentials (users demo_store)
  /\ option_map User.name (get_user (db_after o) 4) = Some "Samuel".
Proof.
  intros o.
  destruct (profile_forms_keep_credentials demo_secure_filename demo_store
              (session_of sam) POST
              (mkProfileForm None "Samuel" None None None None)
              (proj1 (reachable_admin_invariant _ _ _ _ demo_store
                        demo_store_reachable))
              (proj1 (reachable_keys_unique _ _ _ _ demo_store
                        demo_store_reachable))
              o (or_intror (or_intror eq_refl)))
    as [_ [Hcred _]].
  split; [exact Hcred | reflexivity].
Defined.

(** Ada enrolls Sam in batch 9, which does not exist: Sam's dashboard fails. *)
Lemma enroll_student_checks_no_existence_witness :
  let d' := db_after (enroll_student demo_int (Some "4") (Some "9") 40
                                     (session_of ada) demo_store) in
  is_enrolled d' 4 9 = true
  /\ dashboard (session_of sam) d'
     = (ServerError "AttributeError", session_of sam, d').
Proof.
  intros d'.
  destruct (enroll_student_checks_no_existence demo_int demo_store (session_of ada)
              "4" "9" 4 9 40 eq_refl ltac:(discriminate) ltac:(discriminate)
              eq_refl eq_refl eq_refl eq_refl)
    as [_ [Henrolled [_ [_ [Hdash _]]]]].
  fold d' in Henrolled, Hdash. split; [exact Henrolled|].
  exact (Hdash eq_refl (session_of sam) sam eq_refl eq_refl
           ltac:(discriminate) ltac:(discriminate)).
Defined.

(** Ada deletes Tara's account, the trainer row stays; Mallory registers as
    a trainer under Tara's address and may upload to Tara's batch. *)
Lemma register_as_trainer_witness :
  let d := db_after (delete_student 2 (session_of ada) demo_store) in
  let o := register demo_generate_password_hash POST "Mallory" "tara@lms.test"
                    "mallory1" (Some "trainer") "s" 50 anonymous d in
  let o1 := login demo_check_password_hash POST "tara@lms.test" "mallory1"
                  (session_after o) (db_after o) in
  exists flashes d'',
    upload demo_secure_filename 1 (Some ("x.mp4", "bytes")) None 60
           (session_after o1) (db_after o)
    = (Redirect "view_batch" flashes, session_after o1, d'').
Proof.
  intros d o o1.
  destruct (register_as_trainer_takes_over_a_profile demo_generate_password_hash
              demo_check_password_hash demo_secure_filename d anonymous
              "Mallory" "tara@lms.test" "mallory1" "s" 50
              eq_refl eq_refl ltac:(positive_keys))
    as [_ [_ [_ [_ Hupload]]]].
  fold o in Hupload. fold o1 in Hupload.
  destruct (Hupload 1 batch_a tara_profile (Some ("x.mp4", "bytes")) None 60
              eq_refl eq_refl eq_refl) as [_ H].
  exact H.
Defined.

(** [/profile] sends Tara to the trainer page, which renders. *)
Lemma profile_dispatch_witness :
  profile (session_of tara) demo_store
  = (Redirect "trainer_profile" [], session_of tara, demo_store)
  /\ trainer_profile demo_secure_filename GET
       (mkProfileForm None "Tara" None None None None) (session_of tara) demo_store
     = (Render "trainer_profile.html" [], session_of tara, demo_store).
Proof.
  destruct (profile_dispatch demo_secure_filename demo_store (session_of tara)
              (mkProfileForm None "Tara" None None None None)) as [_ H].
  destruct (H tara eq_refl) as [_ [Htrainer _]].
  destruct (Htrainer eq_refl) as [Hsend [Hrender _]].
  split; [exact Hsend|]. apply Hrender. discriminate.
Defined.
